(** * Kepka web application: request handlers over the persistence gateway

    A shallow embedding of the handlers that decide the specified behaviour:
    the gasless sponsorship routes (Express router and Next.js route), the
    security middleware, the transaction status route, token creation, the
    payment webhook and multi-signature wallet creation, together with the
    SQL functions they call.

    Conventions.
    - Tables are lists of rows; an insert appends.
    - Every call to the persistence gateway answers [{ data, error }]; whether
      a call answers with an error is decided by the environment of the
      request (a field of type [option string] holding the error message).
    - Numbers are mathematical integers; time is milliseconds since the epoch.
      The current time is a valid [Date]; only a date computed from a policy's
      [hours] can leave the range of [Date].
    - An exception thrown inside a handler is caught by its [try]/[catch] and
      turned into the handler's 500 reply.
    - Only the [error] field and the data of a reply are kept; the free-text
      [message] and [details] fields, logging and the realtime broadcast are
      left out.
    - A constraint of the schema that refuses a write is one of the errors the
      environment decides. *)

From Stdlib Require Import ZArith List String Bool Lia Permutation Sorted DecimalString.
Import ListNotations.

Local Open Scope string_scope.
Local Open Scope list_scope.
Local Open Scope Z_scope.

(** ** JavaScript values and operators used by the handlers *)
Module JS.

(** Largest time value of a [Date] (ECMAScript time range). *)
Definition max_time : Z := 8640000000000000.

(** [new Date(t).toISOString()]: throws a RangeError for an invalid date. *)
Definition toISOString (t : Z) : option Z :=
  if Z.abs t <=? max_time then Some t else None.

(** [a >= b] where [b] may be [undefined]: comparing with [undefined] is false. *)
Definition ge (a : Z) (b : option Z) : bool :=
  match b with
  | Some b => b <=? a
  | None => false
  end.

(** [a > b] where [b] may be [undefined]. *)
Definition gt (a : Z) (b : option Z) : bool :=
  match b with
  | Some b => b <? a
  | None => false
  end.

(** [x || d] on a number that may be [null]: 0 and [null] are falsy. *)
Definition or_num (x : option Z) (d : Z) : Z :=
  match x with
  | Some v => if v =? 0 then d else v
  | None => d
  end.

End JS.

(** ** Query results of the persistence gateway *)
Module Gateway.

Inductive result (A : Type) : Type :=
| Data (a : A)
| Error (message : string).
Arguments Data {A} a.
Arguments Error {A} message.

(** A read that the environment may fail. *)
Definition select {A : Type} (fault : option string) (rows : A) : result A :=
  match fault with
  | Some m => Error m
  | None => Data rows
  end.

(** [.single()]: an error unless exactly one row matches. *)
Definition single {A : Type} (r : result (list A)) : result A :=
  match r with
  | Data [x] => Data x
  | Data _ => Error "JSON object requested, multiple (or no) rows returned"
  | Error m => Error m
  end.

(** [rows?.length || 0] *)
Definition length_or_0 {A : Type} (r : result (list A)) : Z :=
  match r with
  | Data rows => Z.of_nat (List.length rows)
  | Error _ => 0
  end.

(** [rows || []] *)
Definition rows_or_nil {A : Type} (r : result (list A)) : list A :=
  match r with
  | Data rows => rows
  | Error _ => []
  end.

End Gateway.
Import Gateway.

(** ** Replies of a handler *)
Inductive response (P : Type) : Type :=
| Json (status : Z) (payload : P)
| JsonError (status : Z) (error : string).
Arguments Json {P} status payload.
Arguments JsonError {P} status error.

Definition is_success {P : Type} (r : response P) : bool :=
  match r with
  | Json s _ => (200 <=? s) && (s <? 300)
  | JsonError _ _ => false
  end.

(** ** Rows of the tables (scripts 001, 002 and 005) *)

Inductive policy_kind : Type := rate_limit | amount_limit | time_lock | whitelist.

(** The JSON blob [policy_config]: the keys the handlers read.  A key is
    either absent ([None], read as [undefined]) or holds an integer. *)
Record policy_config : Type := mkConfig {
  hours : option Z;
  max_transactions : option Z;
  max_amount : option Z;
  max_requests : option Z;
  allowed_hours : option (list Z);
  allowed_ips : option (list string)
}.

Record security_policy : Type := mkPolicy {
  sp_id : string;
  sp_user_id : string;
  policy_name : string;
  policy_type : policy_kind;
  policy_config_of : policy_config;
  is_active : bool
}.

Record transaction : Type := mkTransaction {
  tx_id : string;
  tx_user_id : string;
  tx_token_id : string;
  tx_hash : string;
  transaction_type : string;
  amount : Z;
  tx_status : string;
  tx_created_at : Z;
  tx_updated_at : Z
}.

Record gasless_transaction : Type := mkGasless {
  g_id : string;
  g_user_id : string;
  g_transaction_id : string;
  sponsor_address : string;
  gas_fee_ada : Z;
  g_status : string;
  nonce : Z;
  expires_at : Z;
  g_created_at : Z
}.

Record audit_log : Type := mkAudit {
  al_user_id : string;
  al_action : string;
  al_created_at : Z
}.

Record token : Type := mkToken {
  tk_id : string;
  token_name : string;
  symbol : string;
  tk_policy_id : string;
  asset_name : string;
  decimals : Z;
  total_supply : Z;
  description : option string;
  image_url : option string;
  creator_id : string;
  tk_created_at : Z;
  tk_updated_at : Z
}.

Record multi_sig_wallet : Type := mkWallet {
  w_id : string;
  w_user_id : string;
  wallet_name : string;
  required_signatures : Z;
  total_signers : Z;
  wallet_address : string;
  script_hash : string;
  w_is_active : bool
}.

Record wallet_signer : Type := mkSigner {
  multi_sig_wallet_id : string;
  signer_address : string;
  signer_name : option string;
  public_key : string;
  is_verified : bool
}.

Record payment_transaction : Type := mkPayment {
  pt_id : string;
  pt_user_id : string;
  stripe_payment_intent_id : string;
  amount_cents : Z;
  pt_status : string;
  pt_updated_at : Z
}.

Record user_subscription : Type := mkSubscription {
  us_id : string;
  us_user_id : string;
  stripe_customer_id : string;
  stripe_subscription_id : option string;
  us_status : string;
  current_period_start : option Z;
  current_period_end : option Z;
  cancel_at_period_end : bool;
  us_updated_at : Z
}.

(** ** The database: one list of rows per table *)
Record db : Type := mkDb {
  tokens : list token;
  transactions : list transaction;
  gasless_transactions : list gasless_transaction;
  security_policies : list security_policy;
  audit_logs : list audit_log;
  multi_sig_wallets : list multi_sig_wallet;
  wallet_signers : list wallet_signer;
  payment_transactions : list payment_transaction;
  user_subscriptions : list user_subscription
}.

Definition empty_db : db := mkDb [] [] [] [] [] [] [] [] [].

Definition set_tokens (v : list token) (d : db) : db :=
  mkDb v (transactions d) (gasless_transactions d) (security_policies d)
       (audit_logs d) (multi_sig_wallets d) (wallet_signers d)
       (payment_transactions d) (user_subscriptions d).

Definition set_transactions (v : list transaction) (d : db) : db :=
  mkDb (tokens d) v (gasless_transactions d) (security_policies d)
       (audit_logs d) (multi_sig_wallets d) (wallet_signers d)
       (payment_transactions d) (user_subscriptions d).

Definition set_gasless_transactions (v : list gasless_transaction) (d : db) : db :=
  mkDb (tokens d) (transactions d) v (security_policies d)
       (audit_logs d) (multi_sig_wallets d) (wallet_signers d)
       (payment_transactions d) (user_subscriptions d).

Definition set_security_policies (v : list security_policy) (d : db) : db :=
  mkDb (tokens d) (transactions d) (gasless_transactions d) v
       (audit_logs d) (multi_sig_wallets d) (wallet_signers d)
       (payment_transactions d) (user_subscriptions d).

Definition set_multi_sig_wallets (v : list multi_sig_wallet) (d : db) : db :=
  mkDb (tokens d) (transactions d) (gasless_transactions d) (security_policies d)
       (audit_logs d) v (wallet_signers d)
       (payment_transactions d) (user_subscriptions d).

Definition set_wallet_signers (v : list wallet_signer) (d : db) : db :=
  mkDb (tokens d) (transactions d) (gasless_transactions d) (security_policies d)
       (audit_logs d) (multi_sig_wallets d) v
       (payment_transactions d) (user_subscriptions d).

Definition set_payment_transactions (v : list payment_transaction) (d : db) : db :=
  mkDb (tokens d) (transactions d) (gasless_transactions d) (security_policies d)
       (audit_logs d) (multi_sig_wallets d) (wallet_signers d)
       v (user_subscriptions d).

Definition set_user_subscriptions (v : list user_subscription) (d : db) : db :=
  mkDb (tokens d) (transactions d) (gasless_transactions d) (security_policies d)
       (audit_logs d) (multi_sig_wallets d) (wallet_signers d)
       (payment_transactions d) v.

(** ** Gasless sponsorship: SQL function and Express router *)

(** [MAX(col)] over the selected rows: [NULL] when there is none. *)
Fixpoint sql_max (l : list Z) : option Z :=
  match l with
  | [] => None
  | x :: l' =>
      match sql_max l' with
      | None => Some x
      | Some m => Some (Z.max x m)
      end
  end.

(** [COALESCE(v, d)] *)
Definition coalesce (v : option Z) (d : Z) : Z :=
  match v with
  | Some x => x
  | None => d
  end.

(** The nonces of the sponsorship rows of one user. *)
Definition nonces_of (user_uuid : string) (rows : list gasless_transaction) : list Z :=
  map nonce (filter (fun g => String.eqb (g_user_id g) user_uuid) rows).

(** [public.generate_transaction_nonce(user_uuid)]:
    [SELECT COALESCE(MAX(nonce), 0) + 1 FROM gasless_transactions WHERE user_id = user_uuid]. *)
Definition generate_transaction_nonce (d : db) (user_uuid : string) : Z :=
  coalesce (sql_max (nonces_of user_uuid (gasless_transactions d))) 0 + 1.

(** What the environment of one sponsor request decides: the clocks, the id
    the database draws for the new row, and which gateway calls answer with
    an error. *)
Record env : Type := mkEnv {
  now : Z;
  db_now : Z;
  fresh_id : string;
  tx_read_fault : option string;
  policies_read_fault : option string;
  recent_read_fault : string -> option string;
  nonce_rpc_fault : option string;
  insert_fault : option string
}.

Record sponsor_body : Type := mkSponsorBody {
  transaction_id : string;
  estimated_fee : Z
}.

(** Outcome of one turn of the policy loop. *)
Inductive verdict : Type :=
| Pass
| Deny (status : Z) (error : string)
| Throw.

(** The user's transaction with the requested id:
    [.eq("id", transaction_id).eq("user_id", user.id).single()]. *)
Definition find_transaction (e : env) (d : db) (user_id id : string) : result transaction :=
  match tx_read_fault e with
  | Some m => Error m
  | None =>
      single (Data (filter (fun t => String.eqb (tx_id t) id && String.eqb (tx_user_id t) user_id)
                           (transactions d)))
  end.

(** The user's active policies: [.eq("user_id", user.id).eq("is_active", true)]. *)
Definition active_policies (d : db) (user_id : string) : list security_policy :=
  filter (fun p => String.eqb (sp_user_id p) user_id && Bool.eqb (is_active p) true)
         (security_policies d).

Definition read_policies (e : env) (d : db) (user_id : string) : result (list security_policy) :=
  select (policies_read_fault e) (active_policies d user_id).

(** The user's sponsorship rows created at or after the cut-off:
    [.eq("user_id", user.id).gte("created_at", hoursAgo)]. *)
Definition recent_rows (d : db) (user_id : string) (hoursAgo : Z) : list gasless_transaction :=
  filter (fun g => String.eqb (g_user_id g) user_id && (hoursAgo <=? g_created_at g))
         (gasless_transactions d).

Definition read_recent (e : env) (d : db) (user_id : string) (p : security_policy)
    (hoursAgo : Z) : result (list gasless_transaction) :=
  select (recent_read_fault e (sp_id p)) (recent_rows d user_id hoursAgo).

(** The cut-off of a rate limit: [new Date(Date.now() - config.hours * 60 * 60 * 1000).toISOString()].
    A missing [hours] makes the time value NaN, and [toISOString] throws. *)
Definition window_start (e : env) (config : policy_config) : option Z :=
  match hours config with
  | None => None
  | Some h => JS.toISOString (now e - h * 60 * 60 * 1000)
  end.

(** The [rate_limit] branch, shared by both sponsor handlers. *)
Definition check_rate_limit (e : env) (d : db) (user_id : string) (p : security_policy) : verdict :=
  let config := policy_config_of p in
  match window_start e config with
  | None => Throw
  | Some hoursAgo =>
      let recentTxs := read_recent e d user_id p hoursAgo in
      if JS.ge (length_or_0 recentTxs) (max_transactions config)
      then Deny 429 "Rate limit exceeded"
      else Pass
  end.

(** [const nonce = nonceResult || 1] *)
Definition nonce_or_1 (nonceResult : option Z) : Z := JS.or_num nonceResult 1.

(** The row both sponsor handlers insert, expiring 30 minutes from now;
    [created_at] takes the column default. *)
Definition new_sponsorship (e : env) (user_id : string) (b : sponsor_body)
    (n : Z) : gasless_transaction :=
  mkGasless (fresh_id e) user_id (transaction_id b)
            "addr1_kepka_sponsor_treasury_address" (estimated_fee b)
            "sponsored" n (now e + 30 * 60 * 1000) (db_now e).

Definition insert_gasless (g : gasless_transaction) (d : db) : db :=
  set_gasless_transactions (gasless_transactions d ++ [g]) d.

Module Express.

(** The [gasless_transaction] object of the 200 reply. *)
Record sponsored : Type := mkSponsored {
  r_id : string;
  r_sponsor_address : string;
  r_nonce : Z;
  r_expires_at : Z;
  r_status : string
}.

(** One turn of [for (const policy of policies || [])]. *)
Definition check_policy (e : env) (d : db) (user_id : string) (fee : Z)
    (p : security_policy) : verdict :=
  match policy_type p with
  | rate_limit => check_rate_limit e d user_id p
  | amount_limit =>
      if JS.gt fee (max_amount (policy_config_of p))
      then Deny 400 "Amount limit exceeded"
      else Pass
  | _ => Pass
  end.

Fixpoint check_policies (e : env) (d : db) (user_id : string) (fee : Z)
    (ps : list security_policy) : verdict :=
  match ps with
  | [] => Pass
  | p :: ps' =>
      match check_policy e d user_id fee p with
      | Pass => check_policies e d user_id fee ps'
      | v => v
      end
  end.

Section Sponsor.

(** [isUUID] of express-validator. *)
Variable isUUID : string -> bool.

(** [body("transaction_id").isUUID()], [body("estimated_fee").isInt({ min: 1 })] *)
Definition validate (b : sponsor_body) : bool :=
  isUUID (transaction_id b) && (1 <=? estimated_fee b).

(** [router.post("/sponsor", ...)] *)
Definition sponsor (e : env) (user_id : string) (b : sponsor_body) (d : db)
    : response sponsored * db :=
  if negb (validate b) then (JsonError 400 "Validation failed", d) else
  match find_transaction e d user_id (transaction_id b) with
  | Error _ => (JsonError 404 "Transaction not found", d)
  | Data _ =>
      let policies := rows_or_nil (read_policies e d user_id) in
      match check_policies e d user_id (estimated_fee b) policies with
      | Deny status error => (JsonError status error, d)
      | Throw => (JsonError 500 "Internal server error", d)
      | Pass =>
          match select (nonce_rpc_fault e) (generate_transaction_nonce d user_id) with
          | Error _ => (JsonError 500 "Failed to generate nonce", d)
          | Data nonceResult =>
              let n := nonce_or_1 (Some nonceResult) in
              match select (insert_fault e) (new_sponsorship e user_id b n) with
              | Error _ => (JsonError 400 "Failed to sponsor transaction", d)
              | Data g =>
                  (Json 200 (mkSponsored (g_id g) (sponsor_address g) n
                                         (expires_at g) (g_status g)),
                   insert_gasless g d)
              end
          end
      end
  end.

End Sponsor.

End Express.

(** ** Gasless sponsorship: Next.js route (app/api/gasless/sponsor/route.ts) *)
Module NextApi.

(** The body of the 200 reply: [{ success: true, gasless_transaction_id, ... }]. *)
Record sponsored : Type := mkSponsored {
  r_gasless_transaction_id : string;
  r_sponsor_address : string;
  r_nonce : Z;
  r_expires_at : Z
}.

(** One turn of the policy loop: only [rate_limit] is looked at. *)
Definition check_policy (e : env) (d : db) (user_id : string) (p : security_policy) : verdict :=
  match policy_type p with
  | rate_limit => check_rate_limit e d user_id p
  | _ => Pass
  end.

Fixpoint check_policies (e : env) (d : db) (user_id : string)
    (ps : list security_policy) : verdict :=
  match ps with
  | [] => Pass
  | p :: ps' =>
      match check_policy e d user_id p with
      | Pass => check_policies e d user_id ps'
      | v => v
      end
  end.

(** [export async function POST(request)]; [user] is the outcome of
    [supabase.auth.getUser()].  The error of the nonce RPC is not read. *)
Definition POST (e : env) (user : option string) (b : sponsor_body) (d : db)
    : response sponsored * db :=
  match user with
  | None => (JsonError 401 "Unauthorized", d)
  | Some user_id =>
      match find_transaction e d user_id (transaction_id b) with
      | Error _ => (JsonError 404 "Transaction not found", d)
      | Data _ =>
          let policies := rows_or_nil (read_policies e d user_id) in
          match check_policies e d user_id policies with
          | Deny status error => (JsonError status error, d)
          | Throw => (JsonError 500 "Failed to sponsor transaction", d)
          | Pass =>
              let nonceResult :=
                match select (nonce_rpc_fault e) (generate_transaction_nonce d user_id) with
                | Data n => Some n
                | Error _ => None
                end in
              let n := nonce_or_1 nonceResult in
              match select (insert_fault e) (new_sponsorship e user_id b n) with
              | Error _ => (JsonError 500 "Failed to sponsor transaction", d)
              | Data g =>
                  (Json 200 (mkSponsored (g_id g) (sponsor_address g) n (expires_at g)),
                   insert_gasless g d)
              end
          end
      end
  end.

End NextApi.

(** ** [public.validate_security_policies] (script 002)

    A SQL expression evaluates to a value or to NULL, or raises: [Some (Some v)],
    [Some None] and [None].  The keys of a policy's configuration hold whole
    numbers, and a missing key reads as NULL. *)

(** [(config->>key)::INTEGER] and [(config->>key)::BIGINT]: NULL stays NULL,
    and a number outside the range of the type raises (numeric value out of
    range). *)
Definition sql_cast (lo hi : Z) (v : option Z) : option (option Z) :=
  match v with
  | None => Some None
  | Some n => if (lo <=? n) && (n <=? hi) then Some (Some n) else None
  end.

Definition sql_integer : option Z -> option (option Z) :=
  sql_cast (-2147483648) 2147483647.

Definition sql_bigint : option Z -> option (option Z) :=
  sql_cast (-9223372036854775808) 9223372036854775807.

(** The range of [TIMESTAMP WITH TIME ZONE] in milliseconds since 1970: from
    24 November 4714 BC up to, and not including, the year 294277. *)
Definition sql_min_timestamp : Z := -210866803200000.
Definition sql_end_timestamp : Z := 9224318016000000.

(** [NOW() - INTERVAL '1 hour' * hours]: NULL for NULL hours; a date outside
    the range of the type raises (timestamp out of range). *)
Definition sql_window_start (sql_now : Z) (h : option Z) : option (option Z) :=
  match h with
  | None => Some None
  | Some h =>
      let start := sql_now - h * 3600000 in
      if (sql_min_timestamp <=? start) && (start <? sql_end_timestamp)
      then Some (Some start) else None
  end.

(** [created_at > start]: no row is selected by a NULL bound. *)
Definition sql_after (start : option Z) (created_at : Z) : bool :=
  match start with
  | Some s => s <? created_at
  | None => false
  end.

(** [SELECT COUNT ... INTO recent_count]: the user's transactions with
    [created_at > NOW() - INTERVAL '1 hour' * (config->>'hours')::INTEGER],
    assigned to a variable of type INTEGER.  [None] when the cast, the date or
    the assignment raises. *)
Definition sql_recent_count (d : db) (sql_now : Z) (user_uuid : string) (h : option Z)
    : option Z :=
  match sql_integer h with
  | None => None
  | Some hours =>
      match sql_window_start sql_now hours with
      | None => None
      | Some start =>
          match sql_integer
                  (Some (Z.of_nat (List.length
                     (filter (fun t => String.eqb (tx_user_id t) user_uuid
                                       && sql_after start (tx_created_at t))
                             (transactions d))))) with
          | Some (Some n) => Some n
          | _ => None
          end
      end
  end.

(** The body of the loop: [Some true] to go on, [Some false] for [RETURN FALSE],
    [None] when it raises: a cast or a date out of range, or the [CASE] without
    [ELSE] that finds no branch.  A comparison with NULL is not taken. *)
Definition sql_check_policy (d : db) (sql_now : Z) (user_uuid : string)
    (transaction_amount : Z) (p : security_policy) : option bool :=
  match policy_type p with
  | rate_limit =>
      let c := policy_config_of p in
      match sql_recent_count d sql_now user_uuid (hours c) with
      | None => None
      | Some recent_count =>
          match sql_integer (max_transactions c) with
          | None => None
          | Some max => Some (negb (JS.ge recent_count max))
          end
      end
  | amount_limit =>
      match sql_bigint (max_amount (policy_config_of p)) with
      | None => None
      | Some max => Some (negb (JS.gt transaction_amount max))
      end
  | _ => None
  end.

Fixpoint sql_check_policies (d : db) (sql_now : Z) (user_uuid : string)
    (transaction_amount : Z) (ps : list security_policy) : option bool :=
  match ps with
  | [] => Some true
  | p :: ps' =>
      match sql_check_policy d sql_now user_uuid transaction_amount p with
      | Some true => sql_check_policies d sql_now user_uuid transaction_amount ps'
      | r => r
      end
  end.

Definition validate_security_policies (d : db) (sql_now : Z) (user_uuid : string)
    (transaction_amount : Z) : option bool :=
  sql_check_policies d sql_now user_uuid transaction_amount (active_policies d user_uuid).

(** ** Security middleware (validateSecurityPolicies, validateSignature) *)
Module Middleware.

Record request : Type := mkRequest {
  user : option string;
  method : string;
  path : string;
  ip : string
}.

Record env : Type := mkEnv {
  now : Z;
  current_hour : Z;
  policies_read_fault : option string;
  audit_read_fault : string -> option string
}.

(** A middleware either hands over to the next handler or replies itself. *)
Inductive outcome : Type :=
| CallNext
| Reply (status : Z) (error : string).

(** [a < b] where [b] may be [undefined]. *)
Definition lt_num (a : Z) (b : option Z) : bool :=
  match b with
  | Some b => a <? b
  | None => false
  end.

Definition recent_requests (d : db) (user_id action : string) (hoursAgo : Z) : list audit_log :=
  filter (fun a => String.eqb (al_user_id a) user_id && String.eqb (al_action a) action
                   && (hoursAgo <=? al_created_at a))
         (audit_logs d).

(** [validatePolicy]: [None] when it throws. *)
Definition validatePolicy (e : env) (d : db) (user_id : string) (req : request)
    (p : security_policy) : option bool :=
  let config := policy_config_of p in
  match policy_type p with
  | rate_limit =>
      match hours config with
      | None => None
      | Some h =>
          match JS.toISOString (now e - h * 60 * 60 * 1000) with
          | None => None
          | Some hoursAgo =>
              let recentRequests :=
                select (audit_read_fault e (sp_id p))
                       (recent_requests d user_id (method req ++ " " ++ path req)%string hoursAgo) in
              Some (lt_num (length_or_0 recentRequests) (max_requests config))
          end
      end
  | time_lock =>
      let allowedHours := match allowed_hours config with Some l => l | None => [] end in
      Some (existsb (Z.eqb (current_hour e)) allowedHours)
  | whitelist =>
      let allowedIPs := match allowed_ips config with Some l => l | None => [] end in
      Some (existsb (String.eqb (ip req)) allowedIPs)
  | amount_limit => Some true
  end.

(** The loop of [validateSecurityPolicies]; a throw lands in its [catch], which calls [next()]. *)
Fixpoint validate_each (e : env) (d : db) (user_id : string) (req : request)
    (ps : list security_policy) : outcome :=
  match ps with
  | [] => CallNext
  | p :: ps' =>
      match validatePolicy e d user_id req p with
      | None => CallNext
      | Some false => Reply 403 "Security policy violation"
      | Some true => validate_each e d user_id req ps'
      end
  end.

Definition validateSecurityPolicies (e : env) (d : db) (req : request) : outcome :=
  match user req with
  | None => CallNext
  | Some user_id =>
      match select (policies_read_fault e) (active_policies d user_id) with
      | Error _ => CallNext
      | Data policies => validate_each e d user_id req policies
      end
  end.

Section Signature.

(** [crypto.createHmac("sha256", secret).update(body).digest("hex")] *)
Variable hmac_sha256_hex : string -> string -> string.

(** [validateSignature(secret, headerName)]; [signature] is the header's value. *)
Definition validateSignature (secret : string) (signature : option string) (body : string)
    : outcome :=
  match signature with
  | None => Reply 401 "Missing signature"
  | Some sig =>
      if String.eqb sig "" then Reply 401 "Missing signature"
      else if negb (String.eqb sig ("sha256=" ++ hmac_sha256_hex secret body)%string)
      then Reply 401 "Invalid signature"
      else CallNext
  end.

End Signature.

End Middleware.

(** ** Reading sponsorships: GET /api/gasless/transactions *)
Module GaslessList.

(** The embedded [transactions (tx_hash, transaction_type, amount, tokens (token_name, symbol))]. *)
Record embedded : Type := mkEmbedded {
  e_tx_hash : string;
  e_transaction_type : string;
  e_amount : Z;
  e_tokens : option (string * string)
}.

Definition embed (d : db) (g : gasless_transaction) : option embedded :=
  match find (fun t => String.eqb (tx_id t) (g_transaction_id g)) (transactions d) with
  | None => None
  | Some t =>
      Some (mkEmbedded (tx_hash t) (transaction_type t) (amount t)
              (match find (fun k => String.eqb (tk_id k) (tx_token_id t)) (tokens d) with
               | Some k => Some (token_name k, symbol k)
               | None => None
               end))
  end.

(** [.order("created_at", { ascending: false })], as an insertion sort. *)
Fixpoint insert_desc (g : gasless_transaction) (l : list gasless_transaction)
    : list gasless_transaction :=
  match l with
  | [] => [g]
  | x :: l' => if g_created_at x <=? g_created_at g then g :: l else x :: insert_desc g l'
  end.

Fixpoint order_desc (l : list gasless_transaction) : list gasless_transaction :=
  match l with
  | [] => []
  | g :: l' => insert_desc g (order_desc l')
  end.

Definition user_rows (d : db) (user_id : string) : list gasless_transaction :=
  order_desc (filter (fun g => String.eqb (g_user_id g) user_id) (gasless_transactions d)).

(** [router.get("/transactions", ...)]: the rows are sent as they are stored. *)
Definition list_transactions (read_fault : option string) (user_id : string) (d : db)
    : response (list (gasless_transaction * option embedded)) * db :=
  match select read_fault (user_rows d user_id) with
  | Error _ => (JsonError 400 "Failed to retrieve gasless transactions", d)
  | Data rows => (Json 200 (map (fun g => (g, embed d g)) rows), d)
  end.

End GaslessList.

(** ** PATCH /api/transactions/:id/status (routes/transactions.js) *)
Module TransactionStatus.

Record env : Type := mkEnv {
  now : Z;
  update_fault : option string
}.

Definition allowed_statuses : list string := ["pending"; "confirmed"; "failed"].

Definition matches (user_id id : string) (t : transaction) : bool :=
  String.eqb (tx_id t) id && String.eqb (tx_user_id t) user_id.

Definition set_status (status : string) (updated_at : Z) (t : transaction) : transaction :=
  mkTransaction (tx_id t) (tx_user_id t) (tx_token_id t) (tx_hash t) (transaction_type t)
                (amount t) status (tx_created_at t) updated_at.

(** [.update({ status, updated_at }).eq("id", id).eq("user_id", user.id)] *)
Definition update_rows (user_id id status : string) (updated_at : Z)
    (rows : list transaction) : list transaction :=
  map (fun t => if matches user_id id t then set_status status updated_at t else t) rows.

Section Route.

Variable isUUID : string -> bool.

(** [param("id").isUUID()], [body("status").isIn(["pending", "confirmed", "failed"])] *)
Definition validate (id status : string) : bool :=
  isUUID id && existsb (String.eqb status) allowed_statuses.

(** [router.patch("/:id/status", ...)].  The update is issued whatever the
    row's current status is; [.select().single()] answers an error unless
    exactly one row was updated (the id is the primary key). *)
Definition update_status (e : env) (user_id id status : string) (d : db)
    : response transaction * db :=
  if negb (validate id status) then (JsonError 400 "Validation failed", d) else
  match update_fault e with
  | Some _ => (JsonError 404 "Transaction not found", d)
  | None =>
      match filter (matches user_id id) (transactions d) with
      | [t] =>
          (Json 200 (set_status status (now e) t),
           set_transactions (update_rows user_id id status (now e) (transactions d)) d)
      | _ => (JsonError 404 "Transaction not found", d)
      end
  end.

End Route.

End TransactionStatus.

(** ** POST /api/tokens (routes/transactions.js, token router) *)
Module Tokens.

Record body : Type := mkBody {
  b_token_name : string;
  b_symbol : string;
  b_policy_id : string;
  b_asset_name : string;
  b_decimals : option Z;
  b_total_supply : option Z;
  b_description : option string;
  b_image_url : option string
}.

Record env : Type := mkEnv {
  fresh_id : string;
  db_now : Z;
  insert_fault : option string
}.

Definition notEmpty (s : string) : bool := negb (String.eqb s "").

(** [.optional()] followed by a check: an absent field passes. *)
Definition optional {A : Type} (check : A -> bool) (v : option A) : bool :=
  match v with
  | None => true
  | Some x => check x
  end.

(** [const { decimals = 6, total_supply = 0 } = req.body] *)
Definition default_to {A : Type} (v : option A) (d : A) : A :=
  match v with
  | Some x => x
  | None => d
  end.

Section Route.

Variable isURL : string -> bool.

Definition validate (b : body) : bool :=
  notEmpty (b_token_name b) && notEmpty (b_symbol b)
  && notEmpty (b_policy_id b) && notEmpty (b_asset_name b)
  && optional (fun n => (0 <=? n) && (n <=? 18)) (b_decimals b)
  && optional (fun n => 0 <=? n) (b_total_supply b)
  && optional (fun s => Z.of_nat (String.length s) <=? 1000) (b_description b)
  && optional isURL (b_image_url b).

(** The row sent to [.insert(...)]; [created_at] and [updated_at] take the
    column default. *)
Definition new_token (e : env) (user_id : string) (b : body) : token :=
  mkToken (fresh_id e) (b_token_name b) (b_symbol b) (b_policy_id b) (b_asset_name b)
          (default_to (b_decimals b) 6) (default_to (b_total_supply b) 0)
          (b_description b) (b_image_url b) user_id (db_now e) (db_now e).

(** [router.post("/", ...)] of the token router. *)
Definition create_token (e : env) (user_id : string) (b : body) (d : db)
    : response token * db :=
  if negb (validate b) then (JsonError 400 "Validation failed", d) else
  match select (insert_fault e) (new_token e user_id b) with
  | Error _ => (JsonError 400 "Failed to create token", d)
  | Data tk => (Json 201 tk, set_tokens (tokens d ++ [tk]) d)
  end.

End Route.

End Tokens.

(** ** Payment webhook (app/api/payments/webhooks/route.ts) *)
Module Webhooks.

(** A verified event: its [type] and the fields read from [event.data.object]. *)
Record event : Type := mkEvent {
  ev_type : string;
  obj_id : string;
  obj_customer : string;
  obj_status : string;
  obj_current_period_start : Z;
  obj_current_period_end : Z;
  obj_cancel_at_period_end : bool
}.

Record env : Type := mkEnv {
  now : Z;
  lookup_fault : option string;
  update_fault : option string
}.

(** The calls a request makes to the persistence gateway, in order. *)
Inductive db_op : Type :=
| op_select (table : string)
| op_update (table : string).

Definition set_payment_status (status : string) (updated_at : Z)
    (p : payment_transaction) : payment_transaction :=
  mkPayment (pt_id p) (pt_user_id p) (stripe_payment_intent_id p) (amount_cents p)
            status updated_at.

(** [.update({ status, updated_at }).eq("stripe_payment_intent_id", id)];
    the answer of the update is not read. *)
Definition update_payment (e : env) (id status : string) (d : db) : db :=
  match update_fault e with
  | Some _ => d
  | None =>
      set_payment_transactions
        (map (fun p => if String.eqb (stripe_payment_intent_id p) id
                       then set_payment_status status (now e) p else p)
             (payment_transactions d)) d
  end.

Definition set_subscription (ev : event) (period_start period_end updated_at : Z)
    (u : user_subscription) : user_subscription :=
  mkSubscription (us_id u) (us_user_id u) (stripe_customer_id u) (Some (obj_id ev))
                 (obj_status ev) (Some period_start) (Some period_end)
                 (obj_cancel_at_period_end ev) updated_at.

Definition update_subscription (e : env) (ev : event) (period_start period_end : Z)
    (d : db) : db :=
  match update_fault e with
  | Some _ => d
  | None =>
      set_user_subscriptions
        (map (fun u => if String.eqb (stripe_customer_id u) (obj_customer ev)
                       then set_subscription ev period_start period_end (now e) u else u)
             (user_subscriptions d)) d
  end.

Definition cancel (updated_at : Z) (u : user_subscription) : user_subscription :=
  mkSubscription (us_id u) (us_user_id u) (stripe_customer_id u) (stripe_subscription_id u)
                 "canceled" (current_period_start u) (current_period_end u)
                 (cancel_at_period_end u) updated_at.

Definition has_subscription_id (id : string) (u : user_subscription) : bool :=
  match stripe_subscription_id u with
  | Some s => String.eqb s id
  | None => false
  end.

Definition cancel_subscription (e : env) (id : string) (d : db) : db :=
  match update_fault e with
  | Some _ => d
  | None =>
      set_user_subscriptions
        (map (fun u => if has_subscription_id id u then cancel (now e) u else u)
             (user_subscriptions d)) d
  end.

(** [.select("user_id").eq("stripe_customer_id", customer).single()], data only. *)
Definition existing_subscription (e : env) (customer : string) (d : db) : option string :=
  match single (select (lookup_fault e)
                  (filter (fun u => String.eqb (stripe_customer_id u) customer)
                          (user_subscriptions d))) with
  | Data u => Some (us_user_id u)
  | Error _ => None
  end.

(** The [switch (event.type)] and the reply that follows it. *)
Definition handle_event (e : env) (ev : event) (d : db) : response bool * db * list db_op :=
  if String.eqb (ev_type ev) "payment_intent.succeeded" then
    (Json 200 true, update_payment e (obj_id ev) "succeeded" d,
     [op_update "payment_transactions"])
  else if String.eqb (ev_type ev) "payment_intent.payment_failed" then
    (Json 200 true, update_payment e (obj_id ev) "failed" d,
     [op_update "payment_transactions"])
  else if String.eqb (ev_type ev) "customer.subscription.created"
          || String.eqb (ev_type ev) "customer.subscription.updated" then
    match existing_subscription e (obj_customer ev) d with
    | None => (Json 200 true, d, [op_select "user_subscriptions"])
    | Some _ =>
        match JS.toISOString (obj_current_period_start ev * 1000),
              JS.toISOString (obj_current_period_end ev * 1000) with
        | Some period_start, Some period_end =>
            (Json 200 true, update_subscription e ev period_start period_end d,
             [op_select "user_subscriptions"; op_update "user_subscriptions"])
        | _, _ =>
            (JsonError 500 "Webhook handler failed", d, [op_select "user_subscriptions"])
        end
    end
  else if String.eqb (ev_type ev) "customer.subscription.deleted" then
    (Json 200 true, cancel_subscription e (obj_id ev) d, [op_update "user_subscriptions"])
  else (Json 200 true, d, []).

Section Route.

(** [stripe.webhooks.constructEvent(body, signature, secret)] of the payment
    gateway's SDK: [None] when the signature does not verify (it throws). *)
Variable constructEvent : string -> option string -> string -> option event.

(** [export async function POST(request)]; [stripe] tells whether the SDK
    client exists, [webhookSecret] is the configured secret. *)
Definition POST (stripe : bool) (webhookSecret : option string) (e : env)
    (body : string) (signature : option string) (d : db)
    : response bool * db * list db_op :=
  match (if stripe then webhookSecret else None) with
  | None => (JsonError 500 "Webhook not configured", d, [])
  | Some secret =>
      if String.eqb secret "" then (JsonError 500 "Webhook not configured", d, [])
      else
        match constructEvent body signature secret with
        | None => (JsonError 400 "Invalid signature", d, [])
        | Some ev => handle_event e ev d
        end
  end.

End Route.

End Webhooks.

(** ** POST /api/security/multi-sig-wallets (routes/security.js) *)
Module MultiSig.

Record signer_in : Type := mkSignerIn {
  s_signer_address : string;
  s_signer_name : option string;
  s_public_key : string
}.

Record body : Type := mkBody {
  b_wallet_name : string;
  b_required_signatures : Z;
  b_total_signers : Z;
  b_wallet_address : string;
  b_script_hash : string;
  b_signers : list signer_in
}.

Record env : Type := mkEnv {
  fresh_id : string;
  wallet_insert_fault : option string;
  signers_insert_fault : option string;
  rollback_fault : option string
}.

Definition notEmpty (s : string) : bool := negb (String.eqb s "").

Definition validate (b : body) : bool :=
  notEmpty (b_wallet_name b)
  && (1 <=? b_required_signatures b)
  && (1 <=? b_total_signers b)
  && notEmpty (b_wallet_address b)
  && notEmpty (b_script_hash b)
  && (1 <=? Z.of_nat (List.length (b_signers b)))
  && forallb (fun s => notEmpty (s_signer_address s) && notEmpty (s_public_key s)) (b_signers b).

Definition new_wallet (e : env) (user_id : string) (b : body) : multi_sig_wallet :=
  mkWallet (fresh_id e) user_id (b_wallet_name b) (b_required_signatures b)
           (b_total_signers b) (b_wallet_address b) (b_script_hash b) true.

(** [signer.signer_name || null] *)
Definition name_or_null (n : option string) : option string :=
  match n with
  | Some s => if String.eqb s "" then None else Some s
  | None => None
  end.

Definition signers_data (wallet_id : string) (signers : list signer_in) : list wallet_signer :=
  map (fun s => mkSigner wallet_id (s_signer_address s) (name_or_null (s_signer_name s))
                         (s_public_key s) false)
      signers.

(** [.from("multi_sig_wallets").delete().eq("id", wallet.id)]; its answer is not read. *)
Definition rollback (e : env) (wallet_id : string) (d : db) : db :=
  match rollback_fault e with
  | Some _ => d
  | None =>
      set_multi_sig_wallets
        (filter (fun w => negb (String.eqb (w_id w) wallet_id)) (multi_sig_wallets d)) d
  end.

(** [router.post("/multi-sig-wallets", ...)] *)
Definition create_wallet (e : env) (user_id : string) (b : body) (d : db)
    : response (multi_sig_wallet * list wallet_signer) * db :=
  if negb (validate b) then (JsonError 400 "Validation failed", d) else
  if b_total_signers b <? b_required_signatures b
  then (JsonError 400 "Invalid configuration", d) else
  if negb (Z.of_nat (List.length (b_signers b)) =? b_total_signers b)
  then (JsonError 400 "Invalid configuration", d) else
  match select (wallet_insert_fault e) (new_wallet e user_id b) with
  | Error _ => (JsonError 400 "Failed to create multi-sig wallet", d)
  | Data wallet =>
      let d1 := set_multi_sig_wallets (multi_sig_wallets d ++ [wallet]) d in
      let signersData := signers_data (w_id wallet) (b_signers b) in
      match select (signers_insert_fault e) signersData with
      | Error _ => (JsonError 400 "Failed to add signers", rollback e (w_id wallet) d1)
      | Data rows =>
          (Json 201 (wallet, signersData),
           set_wallet_signers (wallet_signers d1 ++ rows) d1)
      end
  end.

End MultiSig.

(** ** The API as a transition system on the database *)

(** One request served by one of the handlers above. *)
Inductive api_step (d : db) : db -> Prop :=
| step_express_sponsor (isUUID : string -> bool) (e : env) (user_id : string) (b : sponsor_body) :
    api_step d (snd (Express.sponsor isUUID e user_id b d))
| step_next_sponsor (e : env) (user : option string) (b : sponsor_body) :
    api_step d (snd (NextApi.POST e user b d))
| step_list (fault : option string) (user_id : string) :
    api_step d (snd (GaslessList.list_transactions fault user_id d))
| step_update_status (isUUID : string -> bool) (e : TransactionStatus.env)
    (user_id id status : string) :
    api_step d (snd (TransactionStatus.update_status isUUID e user_id id status d))
| step_create_token (isURL : string -> bool) (e : Tokens.env) (user_id : string)
    (b : Tokens.body) :
    api_step d (snd (Tokens.create_token isURL e user_id b d))
| step_webhook (constructEvent : string -> option string -> string -> option Webhooks.event)
    (stripe : bool) (secret : option string) (e : Webhooks.env) (body : string)
    (signature : option string) :
    api_step d (snd (fst (Webhooks.POST constructEvent stripe secret e body signature d)))
| step_create_wallet (e : MultiSig.env) (user_id : string) (b : MultiSig.body) :
    api_step d (snd (MultiSig.create_wallet e user_id b d)).

(** Any number of requests, one after the other. *)
Inductive api_run (d : db) : db -> Prop :=
| run_done : api_run d d
| run_step (d1 d2 : db) : api_run d d1 -> api_step d1 d2 -> api_run d d2.

(** ** Properties stated about the handlers *)

(** The row [g] carries a nonce above every nonce the user already holds,
    and nonce 1 when the user holds none. *)
Definition fresh_nonce (user_id : string) (rows : list gasless_transaction)
    (g : gasless_transaction) : Prop :=
  g_user_id g = user_id
  /\ (forall m, In m (nonces_of user_id rows) -> m < nonce g)
  /\ (nonces_of user_id rows = [] -> nonce g = 1).

(** A sponsor call either writes no row or appends one row with a fresh nonce. *)
Definition allocates_fresh_nonce (user_id : string) (d d' : db) : Prop :=
  gasless_transactions d' = gasless_transactions d
  \/ exists g, gasless_transactions d' = gasless_transactions d ++ [g]
               /\ fresh_nonce user_id (gasless_transactions d) g.

(** The nonces of every user strictly increase along the table. *)
Definition nonces_increasing (d : db) : Prop :=
  forall user_id, StronglySorted Z.lt (nonces_of user_id (gasless_transactions d)).

(** Sponsor calls through the Express router, one after the other. *)
Inductive sponsor_run (isUUID : string -> bool) (d : db) : db -> Prop :=
| sponsor_run_done : sponsor_run isUUID d d
| sponsor_run_step (d1 : db) (e : env) (user_id : string) (b : sponsor_body) :
    sponsor_run isUUID d d1 ->
    sponsor_run isUUID d (snd (Express.sponsor isUUID e user_id b d1)).



(** Every wallet row written by [create_wallet] comes with all its signer rows:
    the database is left as it was, or holds the new wallet and its signers. *)
Definition wallet_with_signers (e : MultiSig.env) (user_id : string) (b : MultiSig.body)
    (d d' : db) : Prop :=
  d' = d
  \/ (MultiSig.b_signers b <> []
      /\ d' = set_wallet_signers
                (wallet_signers d
                 ++ MultiSig.signers_data (MultiSig.fresh_id e) (MultiSig.b_signers b))
                (set_multi_sig_wallets
                   (multi_sig_wallets d ++ [MultiSig.new_wallet e user_id b]) d)).

(** The request is turned down and the database is left as it was. *)
Definition denied {P : Type} (d : db) (r : response P * db) : Prop :=
  snd r = d /\ is_success (fst r) = false.

(** The window of [h] hours before the request is a valid date. *)
Definition window_in_range (e : env) (h : Z) : Prop :=
  Z.abs (now e - h * 60 * 60 * 1000) <= JS.max_time.

(** The user's transaction of the request is found. *)
Definition transaction_found (e : env) (d : db) (user_id : string) (b : sponsor_body) : Prop :=
  exists t, find_transaction e d user_id (transaction_id b) = Data t.

(** The row a sponsor call writes when nothing stops it, and the replies
    that go with it. *)
Definition sponsored_row (e : env) (d : db) (user_id : string) (b : sponsor_body)
    : gasless_transaction :=
  new_sponsorship e user_id b (nonce_or_1 (Some (generate_transaction_nonce d user_id))).

Definition express_sponsored (e : env) (d : db) (user_id : string) (b : sponsor_body)
    : response Express.sponsored * db :=
  let g := sponsored_row e d user_id b in
  (Json 200 (Express.mkSponsored (g_id g) (sponsor_address g) (nonce g) (expires_at g)
                                 (g_status g)),
   insert_gasless g d).

Definition next_sponsored (e : env) (d : db) (user_id : string) (b : sponsor_body)
    : response NextApi.sponsored * db :=
  let g := sponsored_row e d user_id b in
  (Json 200 (NextApi.mkSponsored (g_id g) (sponsor_address g) (nonce g) (expires_at g)),
   insert_gasless g d).

(** The rows a handler appends to the sponsorship table, all sponsored. *)
Definition only_adds_sponsored (d d' : db) : Prop :=
  exists added, gasless_transactions d' = gasless_transactions d ++ added
                /\ Forall (fun g => g_status g = "sponsored") added.

(** The id drawn for the new wallet is not the id of a stored wallet. *)
Definition fresh_wallet_id (e : MultiSig.env) (d : db) : Prop :=
  ~ In (MultiSig.fresh_id e) (map w_id (multi_sig_wallets d)).

(** The request asks for more signatures than signers, or does not supply
    exactly [total_signers] signers. *)
Definition inconsistent_signers (b : MultiSig.body) : Prop :=
  MultiSig.b_total_signers b < MultiSig.b_required_signatures b
  \/ Z.of_nat (List.length (MultiSig.b_signers b)) <> MultiSig.b_total_signers b.

(** ** Further handlers of the routers *)

(** [.order(key, { ascending: false })] on any table, as a stable insertion sort. *)
Fixpoint insert_by_desc {A : Type} (key : A -> Z) (x : A) (l : list A) : list A :=
  match l with
  | [] => [x]
  | y :: l' => if key y <=? key x then x :: l else y :: insert_by_desc key x l'
  end.

Fixpoint order_by_desc {A : Type} (key : A -> Z) (l : list A) : list A :=
  match l with
  | [] => []
  | x :: l' => insert_by_desc key x (order_by_desc key l')
  end.

(** [.range(from, from + limit - 1)] on the ordered rows. *)
Definition range_of {A : Type} (offset limit : Z) (rows : list A) : list A :=
  firstn (Z.to_nat limit) (skipn (Z.to_nat offset) rows).

(** POST /api/gasless/policies (the policy routes of the gasless router). *)
Module GaslessPolicies.

Record body : Type := mkBody {
  b_policy_name : string;
  b_policy_type : string;
  b_policy_config : option policy_config
}.

Record env : Type := mkEnv {
  fresh_id : string;
  insert_fault : option string
}.



End GaslessPolicies.

(** The transaction router: POST /, GET / and GET /:id of routes/transactions.js.
    The columns [fee_ada] and [metadata] are not part of the modelled row;
    the fee of a new transaction is kept in the reply. *)
Module Transactions.

(** What a request field that must be an object holds. *)
Inductive object_field : Type := absent | an_object | not_an_object.

Record body : Type := mkBody {
  b_token_id : string;
  b_transaction_type : string;
  b_amount : Z;
  b_tx_hash : string;
  b_fee_ada : option Z;
  b_metadata : object_field
}.

Record env : Type := mkEnv {
  fresh_id : string;
  db_now : Z;
  token_read_fault : option string;
  insert_fault : option string;
  list_fault : option string
}.

Record created : Type := mkCreated {
  c_transaction : transaction;
  c_fee_ada : Z
}.

Definition transaction_types : list string := ["mint"; "burn"; "transfer"].
Definition statuses : list string := ["pending"; "confirmed"; "failed"].

(** The caller's token with the requested id:
    [.eq("id", token_id).eq("creator_id", user.id).single()]. *)
Definition own_token (e : env) (d : db) (user_id id : string) : result token :=
  single (select (token_read_fault e)
            (filter (fun k => String.eqb (tk_id k) id && String.eqb (creator_id k) user_id)
                    (tokens d))).

Definition new_transaction (e : env) (user_id : string) (b : body) : transaction :=
  mkTransaction (fresh_id e) user_id (b_token_id b) (b_tx_hash b) (b_transaction_type b)
                (b_amount b) "pending" (db_now e) (db_now e).

(** The filters and the page of GET /api/transactions. *)
Record listing : Type := mkListing {
  q_limit : option Z;
  q_offset : option Z;
  q_type : option string;
  q_status : option string
}.

Record page : Type := mkPage {
  p_transactions : list (transaction * option (string * string));
  p_total : Z;
  p_limit : Z;
  p_offset : Z;
  p_hasMore : bool
}.

(** [if (value) query = query.eq(column, value)]: an absent or empty value
    does not filter. *)
Definition eq_if_given (value : option string) (column : string) : bool :=
  match value with
  | Some v => if String.eqb v "" then true else String.eqb column v
  | None => true
  end.

(** The rows the query selects, newest first. *)
Definition selected (d : db) (user_id : string) (q : listing) : list transaction :=
  order_by_desc tx_created_at
    (filter (fun t => String.eqb (tx_user_id t) user_id
                      && eq_if_given (q_type q) (transaction_type t)
                      && eq_if_given (q_status q) (tx_status t))
            (transactions d)).

Definition embed_token (d : db) (t : transaction) : option (string * string) :=
  match find (fun k => String.eqb (tk_id k) (tx_token_id t)) (tokens d) with
  | Some k => Some (token_name k, symbol k)
  | None => None
  end.

(** [Number.parseInt(req.query.limit) || 20], [Number.parseInt(req.query.offset) || 0] *)
Definition limit_of (q : listing) : Z := JS.or_num (q_limit q) 20.
Definition offset_of (q : listing) : Z := JS.or_num (q_offset q) 0.

Definition validate_listing (q : listing) : bool :=
  match q_limit q with Some n => (1 <=? n) && (n <=? 100) | None => true end
  && match q_offset q with Some n => 0 <=? n | None => true end
  && match q_type q with Some s => existsb (String.eqb s) transaction_types | None => true end
  && match q_status q with Some s => existsb (String.eqb s) statuses | None => true end.

(** [router.get("/", ...)] *)
Definition list_transactions (e : env) (user_id : string) (q : listing) (d : db)
    : response page * db :=
  if negb (validate_listing q) then (JsonError 400 "Validation failed", d) else
  let limit := limit_of q in
  let offset := offset_of q in
  match select (list_fault e) (selected d user_id q) with
  | Error _ => (JsonError 400 "Failed to retrieve transactions", d)
  | Data rows =>
      let count := Z.of_nat (List.length rows) in
      (Json 200 (mkPage (map (fun t => (t, embed_token d t)) (range_of offset limit rows))
                        count limit offset (offset + limit <? count)),
       d)
  end.

Section Routes.

Variable isUUID : string -> bool.

Definition validate (b : body) : bool :=
  isUUID (b_token_id b)
  && existsb (String.eqb (b_transaction_type b)) transaction_types
  && (1 <=? b_amount b)
  && negb (String.eqb (b_tx_hash b) "")
  && match b_fee_ada b with Some f => 0 <=? f | None => true end
  && match b_metadata b with not_an_object => false | _ => true end.

(** [router.post("/", ...)]: the token must be the caller's; the new row is pending. *)
Definition create_transaction (e : env) (user_id : string) (b : body) (d : db)
    : response created * db :=
  if negb (validate b) then (JsonError 400 "Validation failed", d) else
  match own_token e d user_id (b_token_id b) with
  | Error _ => (JsonError 404 "Token not found", d)
  | Data _ =>
      match select (insert_fault e) (new_transaction e user_id b) with
      | Error _ => (JsonError 400 "Failed to create transaction", d)
      | Data t =>
          (Json 201 (mkCreated t (match b_fee_ada b with Some f => f | None => 0 end)),
           set_transactions (transactions d ++ [t]) d)
      end
  end.

(** [router.get("/:id", ...)]: the transaction with its token and its sponsorships. *)
Definition get_transaction (read_fault : option string) (user_id id : string) (d : db)
    : response (transaction * option (string * string) * list gasless_transaction) * db :=
  if negb (isUUID id) then (JsonError 400 "Validation failed", d) else
  match single (select read_fault
                  (filter (fun t => String.eqb (tx_id t) id && String.eqb (tx_user_id t) user_id)
                          (transactions d))) with
  | Error _ => (JsonError 404 "Transaction not found", d)
  | Data t =>
      (Json 200 (t, embed_token d t,
                 filter (fun g => String.eqb (g_transaction_id g) (tx_id t))
                        (gasless_transactions d)),
       d)
  end.

End Routes.

End Transactions.

(** The token router: GET /:id and PUT /:id of routes/transactions.js.  The
    timestamps of a token are not part of the modelled row. *)
Module TokenRoutes.

Record update_body : Type := mkUpdate {
  u_description : option string;
  u_image_url : option string
}.

(** [updateData]: a field of the body that is not [undefined] replaces the
    stored one, and [updated_at] is always set, to the time of the request. *)
Definition apply_update (now : Z) (b : update_body) (k : token) : token :=
  mkToken (tk_id k) (token_name k) (symbol k) (tk_policy_id k) (asset_name k)
          (decimals k) (total_supply k)
          (match u_description b with Some s => Some s | None => description k end)
          (match u_image_url b with Some s => Some s | None => image_url k end)
          (creator_id k) (tk_created_at k) now.

Definition owned (user_id id : string) (k : token) : bool :=
  String.eqb (tk_id k) id && String.eqb (creator_id k) user_id.

Section Routes.

Variable isUUID : string -> bool.
Variable isURL : string -> bool.

(** [router.get("/:id", ...)] *)
Definition get_token (read_fault : option string) (user_id id : string) (d : db)
    : response token * db :=
  if negb (isUUID id) then (JsonError 400 "Validation failed", d) else
  match single (select read_fault (filter (owned user_id id) (tokens d))) with
  | Error _ => (JsonError 404 "Token not found", d)
  | Data k => (Json 200 k, d)
  end.

Definition validate_update (id : string) (b : update_body) : bool :=
  isUUID id
  && Tokens.optional (fun s => Z.of_nat (String.length s) <=? 1000) (u_description b)
  && Tokens.optional isURL (u_image_url b).

(** [router.put("/:id", ...)] at time [now]; [.select().single()] answers an
    error unless exactly one row was updated (the id is the primary key). *)
Definition update_token (update_fault : option string) (now : Z) (user_id id : string)
    (b : update_body) (d : db) : response token * db :=
  if negb (validate_update id b) then (JsonError 400 "Validation failed", d) else
  match update_fault with
  | Some _ => (JsonError 404 "Token not found", d)
  | None =>
      match filter (owned user_id id) (tokens d) with
      | [k] =>
          (Json 200 (apply_update now b k),
           set_tokens (map (fun x => if owned user_id id x then apply_update now b x else x)
                           (tokens d)) d)
      | _ => (JsonError 404 "Token not found", d)
      end
  end.

End Routes.

End TokenRoutes.

(** POST /api/security/multi-sig-wallets/:id/signers (routes/security.js). *)
Module WalletSigners.

Record body : Type := mkBody {
  b_signer_address : string;
  b_signer_name : option string;
  b_public_key : string
}.

Record env : Type := mkEnv {
  wallet_read_fault : option string;
  signer_read_fault : option string;
  insert_fault : option string
}.

Definition same_signer (wallet_id address : string) (s : wallet_signer) : bool :=
  String.eqb (multi_sig_wallet_id s) wallet_id && String.eqb (signer_address s) address.

(** [.eq("multi_sig_wallet_id", id).eq("signer_address", signer_address).single()], data only. *)
Definition existing_signer (e : env) (d : db) (wallet_id address : string)
    : option wallet_signer :=
  match single (select (signer_read_fault e)
                  (filter (same_signer wallet_id address) (wallet_signers d))) with
  | Data s => Some s
  | Error _ => None
  end.

Section Route.

Variable isUUID : string -> bool.

Definition validate (id : string) (b : body) : bool :=
  isUUID id
  && negb (String.eqb (b_signer_address b) "")
  && negb (String.eqb (b_public_key b) "")
  && Tokens.optional (fun s => Z.of_nat (String.length s) <=? 100) (b_signer_name b).

(** [router.post("/multi-sig-wallets/:id/signers", ...)] *)
Definition add_signer (e : env) (user_id id : string) (b : body) (d : db)
    : response wallet_signer * db :=
  if negb (validate id b) then (JsonError 400 "Validation failed", d) else
  match single (select (wallet_read_fault e)
                  (filter (fun w => String.eqb (w_id w) id && String.eqb (w_user_id w) user_id)
                          (multi_sig_wallets d))) with
  | Error _ => (JsonError 404 "Wallet not found", d)
  | Data _ =>
      match existing_signer e d id (b_signer_address b) with
      | Some _ => (JsonError 409 "Signer already exists", d)
      | None =>
          match select (insert_fault e)
                       (mkSigner id (b_signer_address b) (b_signer_name b)
                                 (b_public_key b) false) with
          | Error _ => (JsonError 400 "Failed to add signer", d)
          | Data s => (Json 201 s, set_wallet_signers (wallet_signers d ++ [s]) d)
          end
      end
  end.

End Route.

End WalletSigners.

(** ** The monitoring service (alerts and health checks of MonitoringService)

    The state of the service that these methods touch: the array of alerts and
    the map of health checks, in insertion order.  The metrics map, which they
    neither read nor write, is not part of this state. *)
Module Monitoring.

Record alert : Type := mkAlert {
  a_type : string;
  a_message : string;
  a_severity : string;
  a_timestamp : Z
}.

Record health_check : Type := mkCheck {
  hc_name : string;
  hc_interval : Z;
  hc_lastCheck : option Z;
  hc_status : string;
  hc_error : option string
}.

Record service : Type := mkService {
  alerts : list alert;
  healthChecks : list (string * health_check)
}.

(** What [await healthCheck.checkFunction()] does: it returns a value that is
    truthy or not, or it throws an error with a message. *)
Inductive check_outcome : Type :=
| returned (result : bool)
| threw (message : string).

(** [recordAlert(type, message, severity)]: push, then drop the oldest alert
    once more than 100 are held. *)
Definition recordAlert (now : Z) (type message severity : string) (s : service) : service :=
  let pushed := alerts s ++ [mkAlert type message severity now] in
  mkService (if 100 <? Z.of_nat (List.length pushed) then tl pushed else pushed)
            (healthChecks s).

(** [array.slice(start)] for an integer [start]. *)
Definition slice_from {A : Type} (start : Z) (l : list A) : list A :=
  let len := Z.of_nat (List.length l) in
  let k := if start <? 0 then Z.max (len + start) 0 else Z.min start len in
  skipn (Z.to_nat k) l.

(** [getAlerts(limit = 50)]: [this.alerts.slice(-limit)]. *)
Definition getAlerts (limit : option Z) (s : service) : list alert :=
  slice_from (- match limit with Some n => n | None => 50 end) (alerts s).

(** [this.healthChecks.get(name)] *)
Definition get_check (name : string) (s : service) : option health_check :=
  match find (fun kv => String.eqb (fst kv) name) (healthChecks s) with
  | Some kv => Some (snd kv)
  | None => None
  end.

(** The check object held under [name], replaced by its new state. *)
Definition put_check (name : string) (c : health_check) (s : service) : service :=
  mkService (alerts s)
            (map (fun kv => if String.eqb (fst kv) name then (fst kv, c) else kv)
                 (healthChecks s)).

(** [runHealthCheck(name)] *)
Definition runHealthCheck (now : Z) (name : string) (outcome : check_outcome) (s : service)
    : service :=
  match get_check name s with
  | None => s
  | Some c =>
      match outcome with
      | returned true =>
          put_check name (mkCheck (hc_name c) (hc_interval c) (Some now) "healthy" None) s
      | returned false =>
          recordAlert now "health_check_failed" ("Health check failed: " ++ name)%string
                      "warning"
            (put_check name (mkCheck (hc_name c) (hc_interval c) (Some now) "unhealthy" None) s)
      | threw message =>
          recordAlert now "health_check_error"
                      ("Health check error: " ++ name ++ " - " ++ message)%string "error"
            (put_check name
               (mkCheck (hc_name c) (hc_interval c) (Some now) "error" (Some message)) s)
      end
  end.

(** The [status] of [getHealthStatus()]. *)
Definition overallStatus (s : service) : string :=
  if forallb (fun kv => String.eqb (hc_status (snd kv)) "healthy") (healthChecks s)
  then "healthy" else "unhealthy".

(** A history of alerts recorded one after the other, oldest first. *)
Fixpoint record_all (history : list alert) (s : service) : service :=
  match history with
  | [] => s
  | a :: rest =>
      record_all rest (recordAlert (a_timestamp a) (a_type a) (a_message a) (a_severity a) s)
  end.

End Monitoring.

(** ** The gasless panel of the dashboard (GaslessTransactionManager) *)
Module Dashboard.



(** The embedded [transactions (transaction_type, amount, tokens (symbol))]. *)
Record embedded : Type := mkEmbedded {
  e_transaction_type : string;
  e_amount : Z;
  e_symbol : option string
}.

Definition embed (d : db) (g : gasless_transaction) : option embedded :=
  match find (fun t => String.eqb (tx_id t) (g_transaction_id g)) (transactions d) with
  | None => None
  | Some t =>
      Some (mkEmbedded (transaction_type t) (amount t)
              (match find (fun k => String.eqb (tk_id k) (tx_token_id t)) (tokens d) with
               | Some k => Some (symbol k)
               | None => None
               end))
  end.



End Dashboard.

(** ** Concrete requests and databases used as examples *)

Definition any_uuid : string -> bool := fun _ => true.
Definition any_url : string -> bool := fun _ => true.

(** 14 November 2023, 22:13:20 UTC. *)
Definition t0 : Z := 1700000000000.

Definition no_fault : string -> option string := fun _ => None.

Definition calm : env := mkEnv t0 t0 "g-2" None None no_fault None None.

Definition alice_tx : transaction :=
  mkTransaction "tx-1" "alice" "tok-1" "hash-1" "mint" 1000 "pending" (t0 - 60000) (t0 - 60000).

Definition alice_first : gasless_transaction :=
  mkGasless "g-1" "alice" "tx-1" "addr1_kepka_sponsor_treasury_address" 200000
            "sponsored" 1 (t0 + 1740000) (t0 - 60000).

Definition one_per_hour : security_policy :=
  mkPolicy "p-1" "alice" "Default Rate Limit" rate_limit
           (mkConfig (Some 1) (Some 1) None None None None) true.

Definition at_most_100 : security_policy :=
  mkPolicy "p-2" "alice" "Fee cap" amount_limit
           (mkConfig None None (Some 100) None None None) true.

Definition fee_200000 : sponsor_body := mkSponsorBody "tx-1" 200000.
Definition fee_100 : sponsor_body := mkSponsorBody "tx-1" 100.
Definition fee_101 : sponsor_body := mkSponsorBody "tx-1" 101.

(** Alice owns one pending transaction and nothing else is stored. *)
Definition db_fresh : db := set_transactions [alice_tx] empty_db.

(** Alice was sponsored a minute ago. *)
Definition db_sponsored : db := set_gasless_transactions [alice_first] db_fresh.

(** The same, with a limit of one sponsorship per hour. *)
Definition db_limited : db := set_security_policies [one_per_hour] db_sponsored.

(** Alice caps the sponsored fee at 100. *)
Definition db_capped : db := set_security_policies [at_most_100] db_fresh.

(** The read of the security policies fails. *)
Definition policies_down : env :=
  mkEnv t0 t0 "g-2" None (Some "connection lost") no_fault None None.

(** The read of the recent sponsorships fails. *)
Definition history_down : env :=
  mkEnv t0 t0 "g-2" None None (fun _ => Some "connection lost") None None.

Definition middleware_down : Middleware.env :=
  Middleware.mkEnv t0 22 (Some "connection lost") no_fault.

Definition sponsor_request : Middleware.request :=
  Middleware.mkRequest (Some "alice") "POST" "/sponsor" "203.0.113.7".

Definition status_env : TransactionStatus.env := TransactionStatus.mkEnv t0 None.

Definition confirmed_tx : transaction :=
  mkTransaction "tx-1" "alice" "tok-1" "hash-1" "mint" 1000 "confirmed" (t0 - 60000) (t0 - 30000).

(** Alice's transaction has been confirmed. *)
Definition db_confirmed : db := set_transactions [confirmed_tx] empty_db.

(** A sponsorship of Alice that expired a second ago and was never executed. *)
Definition expired_row : gasless_transaction :=
  mkGasless "g-1" "alice" "tx-1" "addr1_kepka_sponsor_treasury_address" 200000
            "sponsored" 1 (t0 - 1000) (t0 - 1801000).

Definition db_expired : db := set_gasless_transactions [expired_row] db_fresh.

(** A stand-in for the SDK's verification: the signature "t=1,v1=good" verifies
    and the payload is a succeeded payment intent. *)
Definition demo_constructEvent (body : string) (signature : option string) (secret : string)
    : option Webhooks.event :=
  match signature with
  | Some s =>
      if String.eqb s "t=1,v1=good"
      then Some (Webhooks.mkEvent "payment_intent.succeeded" "pi_1" "" "" 0 0 false)
      else None
  | None => None
  end.

Definition pending_payment : payment_transaction :=
  mkPayment "pay-1" "alice" "pi_1" 999 "pending" (t0 - 60000).

Definition db_billing : db := set_payment_transactions [pending_payment] empty_db.

(** A stand-in for the HMAC of the middleware. *)
Definition demo_hmac (secret body : string) : string := "00ff".

Definition token_body : Tokens.body :=
  Tokens.mkBody "MyToken" "MTK" "policy-1" "MyToken" None None None None.

Definition token_env : Tokens.env := Tokens.mkEnv "tok-1" t0 None.

Definition two_signers : list MultiSig.signer_in :=
  [MultiSig.mkSignerIn "addr1_a" (Some "Ann") "key-a";
   MultiSig.mkSignerIn "addr1_b" None "key-b"].

Definition wallet_body : MultiSig.body :=
  MultiSig.mkBody "Treasury" 2 2 "addr1_wallet" "script-1" two_signers.

(** The insert of the signer rows is refused by the database. *)
Definition signers_refused : MultiSig.env :=
  MultiSig.mkEnv "w-1" None (Some "insert refused") None.

(** Bob limits himself to no sponsorship at all. *)
Definition bob_never : security_policy :=
  mkPolicy "p-9" "bob" "Never" rate_limit (mkConfig (Some 1) (Some 0) None None None None) true.

(** A rate limit stored without [hours]. *)
Definition no_hours : security_policy :=
  mkPolicy "p-3" "alice" "Broken" rate_limit (mkConfig None (Some 5) None None None None) true.

(** A rate limit written for the middleware: [max_requests], no [max_transactions]. *)
Definition for_middleware : security_policy :=
  mkPolicy "p-4" "alice" "Requests" rate_limit
           (mkConfig (Some 1) None None (Some 100) None None) true.

(** Office hours only, and one address only. *)
Definition office_hours : security_policy :=
  mkPolicy "p-5" "alice" "Office hours" time_lock
           (mkConfig None None None None (Some [9; 10; 11]) None) true.

Definition home_only : security_policy :=
  mkPolicy "p-6" "alice" "Home" whitelist
           (mkConfig None None None None None (Some ["198.51.100.1"])) true.

(** The policies the sponsor handlers look at. *)
Definition is_limit (p : security_policy) : bool :=
  match policy_type p with
  | rate_limit | amount_limit => true
  | _ => false
  end.



(** The nonces of a user are 1, 2, ..., in the order of the table. *)
Definition nonces_consecutive (d : db) : Prop :=
  forall user_id,
    nonces_of user_id (gasless_transactions d)
    = map Z.of_nat (seq 1 (List.length (nonces_of user_id (gasless_transactions d)))).

(** The policy that script 002 stores for every profile. *)
Definition default_rate_limit : security_policy :=
  mkPolicy "p-0" "alice" "Default Rate Limit" rate_limit
           (mkConfig (Some 1) (Some 10) None None None None) true.

Definition middleware_calm : Middleware.env := Middleware.mkEnv t0 22 None no_fault.

(** The policy lacks the key the middleware reads for its kind. *)
Definition lacks_its_key (e : Middleware.env) (p : security_policy) : Prop :=
  (policy_type p = rate_limit
   /\ max_requests (policy_config_of p) = None
   /\ exists h, hours (policy_config_of p) = Some h
                /\ Z.abs (Middleware.now e - h * 60 * 60 * 1000) <= JS.max_time)
  \/ (policy_type p = time_lock /\ allowed_hours (policy_config_of p) = None)
  \/ (policy_type p = whitelist /\ allowed_ips (policy_config_of p) = None).

(** The window of a rate limit cannot be computed: [hours] is missing or the
    date leaves the range of [Date]. *)
Definition window_throws (e : Middleware.env) (p : security_policy) : Prop :=
  policy_type p = rate_limit
  /\ (hours (policy_config_of p) = None
      \/ exists h, hours (policy_config_of p) = Some h
                   /\ JS.max_time < Z.abs (Middleware.now e - h * 60 * 60 * 1000)).

Definition database_check : Monitoring.health_check :=
  Monitoring.mkCheck "database" 30000 None "unknown" None.

Definition memory_check : Monitoring.health_check :=
  Monitoring.mkCheck "memory" 60000 (Some (t0 - 1000)) "healthy" None.

Definition two_checks : Monitoring.service :=
  Monitoring.mkService [] [("database", database_check); ("memory", memory_check)].

Definition three_alerts : list Monitoring.alert :=
  [Monitoring.mkAlert "slow_request" "a" "warning" t0;
   Monitoring.mkAlert "server_error" "b" "error" (t0 + 1);
   Monitoring.mkAlert "slow_request" "c" "warning" (t0 + 2)].

(** Every check other than [name] is healthy. *)
Definition others_healthy (name : string) (s : Monitoring.service) : Prop :=
  forall kv, In kv (Monitoring.healthChecks s) -> fst kv <> name ->
             Monitoring.hc_status (snd kv) = "healthy".

(** The columns of a transaction that no request changes. *)
Definition fixed_columns (t : transaction) : string * string * string * string * string * Z * Z :=
  (tx_id t, tx_user_id t, tx_token_id t, tx_hash t, transaction_type t, amount t,
   tx_created_at t).

Definition tx_env : Transactions.env := Transactions.mkEnv "tx-9" t0 None None None.

(** The rows of page [i] (from 0) of GET /api/transactions with pages of
    [limit] rows and no filter; no row when the request is turned down. *)
Definition page_rows (e : Transactions.env) (user_id : string) (limit : Z) (i : nat) (d : db)
    : list transaction :=
  match fst (Transactions.list_transactions e user_id
               (Transactions.mkListing (Some limit) (Some (Z.of_nat i * limit)) None None) d) with
  | Json _ pg => map fst (Transactions.p_transactions pg)
  | JsonError _ _ => []
  end.

Definition all_transactions : Transactions.listing := Transactions.mkListing None None None None.

(** Newest first, on any table. *)
Definition newest_first {A : Type} (key : A -> Z) (a b : A) : Prop := key b <= key a.

Definition alice_second_tx : transaction :=
  mkTransaction "tx-2" "alice" "tok-1" "hash-2" "burn" 5 "confirmed" (t0 - 30000) (t0 - 30000).

Definition bob_tx : transaction :=
  mkTransaction "tx-3" "bob" "tok-2" "hash-3" "mint" 7 "pending" (t0 - 20000) (t0 - 20000).

Definition db_three : db := set_transactions [alice_tx; bob_tx; alice_second_tx] empty_db.

(** No stored token, and no stored transaction, already has this id. *)
Definition unused_token_id (id : string) (d : db) : Prop := ~ In id (map tk_id (tokens d)).
Definition unused_transaction_id (id : string) (d : db) : Prop :=
  ~ In id (map tx_id (transactions d)).

(** The user has no active policy and no sponsorship yet. *)
Definition newcomer (user_id : string) (d : db) : Prop :=
  active_policies d user_id = [] /\ nonces_of user_id (gasless_transactions d) = [].

Definition mint_on_new_token : Transactions.body :=
  Transactions.mkBody "tok-1" "mint" 1000 "hash-9" None Transactions.absent.

Definition sponsor_tx_9 : sponsor_body := mkSponsorBody "tx-9" 200000.

(** What validation guarantees of a stored token. *)
Definition token_in_bounds (k : token) : Prop :=
  0 <= decimals k <= 18 /\ 0 <= total_supply k
  /\ token_name k <> "" /\ symbol k <> "" /\ tk_policy_id k <> "" /\ asset_name k <> "".


(** A body that names no field. *)
Definition empty_update : TokenRoutes.update_body := TokenRoutes.mkUpdate None None.

(** Token creations and updates, one after the other. *)
Inductive token_run (isUUID isURL : string -> bool) (d : db) : db -> Prop :=
| token_run_done : token_run isUUID isURL d d
| token_run_create (d1 : db) (e : Tokens.env) (user_id : string) (b : Tokens.body) :
    token_run isUUID isURL d d1 ->
    token_run isUUID isURL d (snd (Tokens.create_token isURL e user_id b d1))
| token_run_update (d1 : db) (fault : option string) (now : Z) (user_id id : string)
    (b : TokenRoutes.update_body) :
    token_run isUUID isURL d d1 ->
    token_run isUUID isURL d
      (snd (TokenRoutes.update_token isUUID isURL fault now user_id id b d1)).

Definition new_description : TokenRoutes.update_body :=
  TokenRoutes.mkUpdate (Some "A token") None.

Definition stored_token : token :=
  mkToken "tok-1" "MyToken" "MTK" "policy-1" "MyToken" 6 0 None (Some "https://kepka.example/t.png")
          "alice" (t0 - 60000) (t0 - 60000).

Definition db_token : db := set_tokens [stored_token] empty_db.

(** The key of the UNIQUE(multi_sig_wallet_id, signer_address) constraint. *)
Definition signer_key (s : wallet_signer) : string * string :=
  (multi_sig_wallet_id s, signer_address s).

(** The signer rows of one wallet. *)
Definition signers_of (wallet_id : string) (d : db) : list wallet_signer :=
  filter (fun s => String.eqb (multi_sig_wallet_id s) wallet_id) (wallet_signers d).

Definition signer_env : WalletSigners.env := WalletSigners.mkEnv None None None.

Definition third_signer : WalletSigners.body :=
  WalletSigners.mkBody "addr1_c" (Some "Cy") "key-c".

Definition db_wallet : db :=
  snd (MultiSig.create_wallet (MultiSig.mkEnv "w-1" None None None) "alice" wallet_body empty_db).

(** The columns of a payment that no webhook writes. *)
Definition payment_core (p : payment_transaction) : string * string * string * Z :=
  (pt_id p, pt_user_id p, stripe_payment_intent_id p, amount_cents p).

(** The columns of a subscription that no webhook writes. *)
Definition subscription_core (u : user_subscription) : string * string * string :=
  (us_id u, us_user_id u, stripe_customer_id u).






(** The values of the policy are within the ranges of their casts, and the
    window of a rate limit starts at a date the database can hold. *)
Definition sql_in_range (sql_now : Z) (p : security_policy) : Prop :=
  let c := policy_config_of p in
  (forall h, hours c = Some h ->
     -2147483648 <= h <= 2147483647
     /\ sql_min_timestamp <= sql_now - h * 3600000 < sql_end_timestamp)
  /\ (forall m, max_transactions c = Some m -> -2147483648 <= m <= 2147483647)
  /\ (forall m, max_amount c = Some m ->
        -9223372036854775808 <= m <= 9223372036854775807).

(** A rate limit of 10 transactions in 24 hours and a cap of 100 on the amount. *)
Definition ten_a_day : security_policy :=
  mkPolicy "p-5" "alice" "Daily" rate_limit
           (mkConfig (Some 24) (Some 10) None None None None) true.

Definition db_two_limits : db := set_security_policies [ten_a_day; at_most_100] db_fresh.

(** The nonce RPC fails; every other call answers. *)
Definition rpc_down : env := mkEnv t0 t0 "g-2" None None no_fault (Some "timeout") None.

(** Two signers with the same address: the insert of the signer rows is
    refused by UNIQUE(multi_sig_wallet_id, signer_address). *)
Definition twin_signers : list MultiSig.signer_in :=
  [MultiSig.mkSignerIn "addr1_a" (Some "Ann") "key-a";
   MultiSig.mkSignerIn "addr1_a" (Some "Ann") "key-a"].

Definition twin_body : MultiSig.body :=
  MultiSig.mkBody "Treasury" 2 2 "addr1_wallet" "script-1" twin_signers.

(** The signer rows are refused, and the delete that follows fails too. *)
Definition rollback_down : MultiSig.env :=
  MultiSig.mkEnv "w-1" None (Some "duplicate key value") (Some "connection lost").

(** Sponsor calls through either handler, one after the other; the calls of the
    Next.js route are those whose nonce RPC answers. *)
Inductive sponsor_calls (isUUID : string -> bool) (d : db) : db -> Prop :=
| sponsor_calls_done : sponsor_calls isUUID d d
| sponsor_calls_express (d1 : db) (e : env) (user_id : string) (b : sponsor_body) :
    sponsor_calls isUUID d d1 ->
    sponsor_calls isUUID d (snd (Express.sponsor isUUID e user_id b d1))
| sponsor_calls_next (d1 : db) (e : env) (user : option string) (b : sponsor_body) :
    sponsor_calls isUUID d d1 ->
    nonce_rpc_fault e = None ->
    sponsor_calls isUUID d (snd (NextApi.POST e user b d1)).

(** * Theorems *)

(** Case analysis on every [match] of an unfolded handler. *)
Ltac handler_cases :=
  repeat match goal with
    | |- context [match ?x with _ => _ end] => destruct x; simpl
    end.

(** ** Nonce allocation *)

Lemma sql_max_upper_bound (l : list Z) (m : Z) :
  In m l -> exists M, sql_max l = Some M /\ m <= M.
Proof.
  induction l as [|x l IH]; simpl; [tauto|].
  intros [->|Hin].
  - destruct (sql_max l) as [M|]; eexists; split; try reflexivity; lia.
  - destruct (IH Hin) as (M & -> & Hle).
    eexists; split; [reflexivity|lia].
Qed.

Lemma generated_nonce_above (d : db) (user_id : string) (m : Z) :
  In m (nonces_of user_id (gasless_transactions d)) ->
  m < nonce_or_1 (Some (generate_transaction_nonce d user_id)).
Proof.
  intros Hin. unfold generate_transaction_nonce, nonce_or_1, JS.or_num.
  destruct (sql_max_upper_bound _ _ Hin) as (M & -> & Hle); simpl.
  destruct (Z.eqb_spec (M + 1) 0); lia.
Qed.

Lemma generated_nonce_first (d : db) (user_id : string) :
  nonces_of user_id (gasless_transactions d) = [] ->
  nonce_or_1 (Some (generate_transaction_nonce d user_id)) = 1.
Proof.
  intros H. unfold generate_transaction_nonce. rewrite H. reflexivity.
Qed.

Lemma new_sponsorship_fresh (e : env) (d : db) (user_id : string) (b : sponsor_body) :
  fresh_nonce user_id (gasless_transactions d)
    (new_sponsorship e user_id b (nonce_or_1 (Some (generate_transaction_nonce d user_id)))).
Proof.
  repeat split; simpl.
  - apply generated_nonce_above.
  - apply generated_nonce_first.
Qed.

Lemma express_sponsor_allocates (isUUID : string -> bool) (e : env) (user_id : string)
    (b : sponsor_body) (d : db) :
  allocates_fresh_nonce user_id d (snd (Express.sponsor isUUID e user_id b d)).
Proof.
  unfold Express.sponsor, allocates_fresh_nonce.
  destruct (negb _); [now left|].
  destruct (find_transaction _ _ _ _); [|now left].
  destruct (Express.check_policies _ _ _ _ _); try now left.
  unfold select.
  destruct (nonce_rpc_fault e); [now left|].
  destruct (insert_fault e); [now left|].
  right. eexists; split; [reflexivity|apply new_sponsorship_fresh].
Qed.

Lemma next_sponsor_allocates (e : env) (user_id : string) (b : sponsor_body) (d : db) :
  nonce_rpc_fault e = None ->
  allocates_fresh_nonce user_id d (snd (NextApi.POST e (Some user_id) b d)).
Proof.
  intros Hrpc. unfold NextApi.POST, allocates_fresh_nonce.
  destruct (find_transaction _ _ _ _); [|now left].
  destruct (NextApi.check_policies _ _ _ _); try now left.
  unfold select. rewrite Hrpc.
  destruct (insert_fault e); [now left|].
  right. eexists; split; [reflexivity|apply new_sponsorship_fresh].
Qed.

(** Where the nonces do increase: a sponsor call either writes no sponsorship
    row or appends exactly one, whose nonce is strictly greater than every
    nonce already stored for that user, and is 1 when the user has none.
    Through the Express router this holds whatever the gateway answers; through
    the Next.js route it holds when the nonce RPC answers. *)
Theorem sponsor_nonce_strictly_increasing (isUUID : string -> bool) (e : env)
    (user_id : string) (b : sponsor_body) (d : db) :
  allocates_fresh_nonce user_id d (snd (Express.sponsor isUUID e user_id b d))
  /\ (nonce_rpc_fault e = None ->
      allocates_fresh_nonce user_id d (snd (NextApi.POST e (Some user_id) b d))).
Proof.
  split.
  - apply express_sponsor_allocates.
  - apply next_sponsor_allocates.
Qed.

Lemma sponsor_nonce_strictly_increasing_witness :
  allocates_fresh_nonce "alice" db_sponsored
    (snd (Express.sponsor any_uuid calm "alice" fee_200000 db_sponsored))
  /\ allocates_fresh_nonce "alice" db_sponsored
       (snd (NextApi.POST calm (Some "alice") fee_200000 db_sponsored)).
Proof.
  destruct (sponsor_nonce_strictly_increasing any_uuid calm "alice" fee_200000 db_sponsored)
    as [Hexpress Hnext].
  split; [exact Hexpress|apply Hnext; reflexivity].
Defined.

(** The scenario of the specification: the first sponsorship of a user gets
    nonce 1, status sponsored and expires 30 minutes later. *)
Example first_sponsorship_has_nonce_1 :
  Express.sponsor any_uuid calm "alice" fee_200000 db_fresh
  = (Json 200 (Express.mkSponsored "g-2" "addr1_kepka_sponsor_treasury_address" 1
                 (t0 + 1800000) "sponsored"),
     insert_gasless
       (mkGasless "g-2" "alice" "tx-1" "addr1_kepka_sponsor_treasury_address" 200000
                  "sponsored" 1 (t0 + 1800000) t0) db_fresh).
Proof. reflexivity. Qed.

Example second_sponsorship_has_nonce_2 :
  map nonce (gasless_transactions
               (snd (Express.sponsor any_uuid calm "alice" fee_200000 db_sponsored)))
  = [1; 2].
Proof. reflexivity. Qed.

(** C1.  The Next.js route does not keep the nonces increasing.  Alice holds
    nonce 1; her next sponsor call, made while the nonce RPC fails, is answered
    200 with nonce 1 again and the row is stored, since the route reads the
    data of the RPC without its error and falls back on 1.  The Express router,
    which reads the error, answers 500 at the same input and writes nothing. *)
Theorem next_route_repeats_nonce_when_rpc_fails :
  nonces_of "alice" (gasless_transactions db_sponsored) = [1]
  /\ NextApi.POST rpc_down (Some "alice") fee_200000 db_sponsored
     = (Json 200 (NextApi.mkSponsored "g-2" "addr1_kepka_sponsor_treasury_address" 1
                    (t0 + 1800000)),
        insert_gasless
          (mkGasless "g-2" "alice" "tx-1" "addr1_kepka_sponsor_treasury_address" 200000
                     "sponsored" 1 (t0 + 1800000) t0) db_sponsored)
  /\ nonces_of "alice"
       (gasless_transactions (snd (NextApi.POST rpc_down (Some "alice") fee_200000 db_sponsored)))
     = [1; 1]
  /\ ~ allocates_fresh_nonce "alice" db_sponsored
        (snd (NextApi.POST rpc_down (Some "alice") fee_200000 db_sponsored))
  /\ Express.sponsor any_uuid rpc_down "alice" fee_200000 db_sponsored
     = (JsonError 500 "Failed to generate nonce", db_sponsored).
Proof.
  split; [reflexivity|]. split; [reflexivity|]. split; [reflexivity|].
  split; [|reflexivity].
  intros [Hsame|(g & Hrows & _ & Habove & _)].
  - discriminate Hsame.
  - injection Hrows as <-.
    specialize (Habove 1 (or_introl eq_refl)). simpl in Habove. lia.
Qed.

Lemma sorted_snoc (l : list Z) (x : Z) :
  StronglySorted Z.lt l -> (forall m, In m l -> m < x) -> StronglySorted Z.lt (l ++ [x]).
Proof.
  induction 1 as [|a l Hs IH Ha]; intros Hx; simpl.
  - repeat constructor.
  - constructor.
    + apply IH. intros m Hm. apply Hx. now right.
    + rewrite Forall_app. split; [exact Ha|].
      constructor; [|constructor]. apply Hx. now left.
Qed.

Lemma nonces_of_app (user_id : string) (l1 l2 : list gasless_transaction) :
  nonces_of user_id (l1 ++ l2) = nonces_of user_id l1 ++ nonces_of user_id l2.
Proof. unfold nonces_of. now rewrite filter_app, map_app. Qed.

Lemma fresh_row_keeps_order (user_id : string) (d d' : db) :
  nonces_increasing d -> allocates_fresh_nonce user_id d d' -> nonces_increasing d'.
Proof.
  intros Hinc [Heq|(g & Heq & Huser & Habove & _)] u; rewrite Heq; [apply Hinc|].
  rewrite nonces_of_app. unfold nonces_of at 2. simpl.
  destruct (String.eqb_spec (g_user_id g) u) as [Hu|Hu]; simpl.
  - apply sorted_snoc; [apply Hinc|].
    intros m Hm. apply Habove. congruence.
  - rewrite app_nil_r. apply Hinc.
Qed.

(** Along any sequence of sponsor calls made one after the other, the nonces
    of each user stay strictly increasing, hence pairwise distinct. *)
Lemma sponsor_run_keeps_nonces_distinct (isUUID : string -> bool) (d d' : db) :
  nonces_increasing d -> sponsor_run isUUID d d' ->
  nonces_increasing d'
  /\ forall user_id, NoDup (nonces_of user_id (gasless_transactions d')).
Proof.
  intros Hinc Hrun.
  assert (Hinc' : nonces_increasing d').
  { induction Hrun as [|d1 e u b Hrun IH]; [exact Hinc|].
    eapply fresh_row_keeps_order; [exact IH|apply express_sponsor_allocates]. }
  split; [exact Hinc'|].
  intros u. specialize (Hinc' u).
  induction Hinc' as [|a l Hs IH Ha]; constructor; [|exact IH].
  intros Hin. rewrite Forall_forall in Ha. specialize (Ha _ Hin). lia.
Qed.

(** Starting from a database without sponsorships, no two sponsorships of a
    user ever share a nonce. *)
Corollary sponsor_run_from_scratch (isUUID : string -> bool) (d d' : db) :
  gasless_transactions d = [] -> sponsor_run isUUID d d' ->
  forall user_id, NoDup (nonces_of user_id (gasless_transactions d')).
Proof.
  intros Hnone Hrun.
  apply (sponsor_run_keeps_nonces_distinct isUUID d d'); [|exact Hrun].
  intros u. rewrite Hnone. constructor.
Qed.

(** ** Policy evaluation of the sponsor handlers *)

Lemma express_policy_in (e : env) (d : db) (user_id : string) (fee : Z)
    (ps : list security_policy) (p : security_policy) :
  In p ps -> Express.check_policy e d user_id fee p <> Pass ->
  Express.check_policies e d user_id fee ps <> Pass.
Proof.
  induction ps as [|q ps IH]; simpl; [tauto|].
  intros [->|Hin] Hp.
  - destruct (Express.check_policy e d user_id fee p); congruence.
  - destruct (Express.check_policy e d user_id fee q); try congruence. now apply IH.
Qed.

Lemma next_policy_in (e : env) (d : db) (user_id : string)
    (ps : list security_policy) (p : security_policy) :
  In p ps -> NextApi.check_policy e d user_id p <> Pass ->
  NextApi.check_policies e d user_id ps <> Pass.
Proof.
  induction ps as [|q ps IH]; simpl; [tauto|].
  intros [->|Hin] Hp.
  - destruct (NextApi.check_policy e d user_id p); congruence.
  - destruct (NextApi.check_policy e d user_id q); try congruence. now apply IH.
Qed.

Lemma express_policy_reached (e : env) (d : db) (user_id : string) (fee : Z)
    (ps1 ps2 : list security_policy) (p : security_policy) :
  Express.check_policies e d user_id fee ps1 = Pass ->
  Express.check_policies e d user_id fee (ps1 ++ p :: ps2)
  = match Express.check_policy e d user_id fee p with
    | Pass => Express.check_policies e d user_id fee ps2
    | v => v
    end.
Proof.
  induction ps1 as [|q ps1 IH]; simpl; [reflexivity|].
  destruct (Express.check_policy e d user_id fee q); [exact IH|discriminate..].
Qed.

Lemma next_policy_reached (e : env) (d : db) (user_id : string)
    (ps1 ps2 : list security_policy) (p : security_policy) :
  NextApi.check_policies e d user_id ps1 = Pass ->
  NextApi.check_policies e d user_id (ps1 ++ p :: ps2)
  = match NextApi.check_policy e d user_id p with
    | Pass => NextApi.check_policies e d user_id ps2
    | v => v
    end.
Proof.
  induction ps1 as [|q ps1 IH]; simpl; [reflexivity|].
  destruct (NextApi.check_policy e d user_id q); [exact IH|discriminate..].
Qed.

(** A request stopped by the policy loop writes nothing and is no success. *)
Lemma express_stopped_by_policy (isUUID : string -> bool) (e : env) (user_id : string)
    (b : sponsor_body) (d : db) :
  policies_read_fault e = None ->
  Express.check_policies e d user_id (estimated_fee b) (active_policies d user_id) <> Pass ->
  snd (Express.sponsor isUUID e user_id b d) = d
  /\ is_success (fst (Express.sponsor isUUID e user_id b d)) = false.
Proof.
  intros Hread Hstop. unfold Express.sponsor, read_policies, select.
  rewrite Hread. simpl rows_or_nil.
  destruct (negb _); [now split|].
  destruct (find_transaction _ _ _ _); [|now split].
  destruct (Express.check_policies _ _ _ _ _); [congruence| |]; now split.
Qed.

Lemma next_stopped_by_policy (e : env) (user : option string) (b : sponsor_body) (d : db) :
  policies_read_fault e = None ->
  (forall user_id, user = Some user_id ->
     NextApi.check_policies e d user_id (active_policies d user_id) <> Pass) ->
  snd (NextApi.POST e user b d) = d
  /\ is_success (fst (NextApi.POST e user b d)) = false.
Proof.
  intros Hread Hstop. unfold NextApi.POST, read_policies, select.
  destruct user as [user_id|]; [|now split].
  specialize (Hstop user_id eq_refl).
  rewrite Hread. simpl rows_or_nil.
  destruct (find_transaction _ _ _ _); [|now split].
  destruct (NextApi.check_policies _ _ _ _); [congruence| |]; now split.
Qed.



(** The second scenario of the specification: a second sponsor call within the
    hour under the policy [{hours: 1, max_transactions: 1}]. *)
Example second_call_within_the_hour_is_denied :
  Express.sponsor any_uuid calm "alice" fee_200000 db_limited
  = (JsonError 429 "Rate limit exceeded", db_limited)
  /\ NextApi.POST calm (Some "alice") fee_200000 db_limited
     = (JsonError 429 "Rate limit exceeded", db_limited).
Proof. split; reflexivity. Qed.


(** ** Failing reads during policy evaluation *)

(** C2, as stated, fails: with the policy read or the history read failing,
    the request of a user who has reached her rate limit is sponsored. *)
Lemma failed_policy_read_is_not_denied :
  (policies_read_fault policies_down = Some "connection lost"
   /\ fst (Express.sponsor any_uuid calm "alice" fee_200000 db_limited)
      = JsonError 429 "Rate limit exceeded"
   /\ Express.sponsor any_uuid policies_down "alice" fee_200000 db_limited
      = express_sponsored policies_down db_limited "alice" fee_200000
   /\ NextApi.POST policies_down (Some "alice") fee_200000 db_limited
      = next_sponsored policies_down db_limited "alice" fee_200000)
  /\ (recent_read_fault history_down (sp_id one_per_hour) = Some "connection lost"
      /\ Express.sponsor any_uuid history_down "alice" fee_200000 db_limited
         = express_sponsored history_down db_limited "alice" fee_200000
      /\ NextApi.POST history_down (Some "alice") fee_200000 db_limited
         = next_sponsored history_down db_limited "alice" fee_200000)
  /\ Middleware.validateSecurityPolicies middleware_down db_limited sponsor_request
     = Middleware.CallNext.
Proof. repeat split; reflexivity. Qed.

Lemma history_read_failure_counts_zero (e : env) (d : db) (user_id : string)
    (p : security_policy) (h : Z) (m : string) :
  recent_read_fault e (sp_id p) = Some m ->
  hours (policy_config_of p) = Some h ->
  window_in_range e h ->
  check_rate_limit e d user_id p
  = if JS.ge 0 (max_transactions (policy_config_of p))
    then Deny 429 "Rate limit exceeded" else Pass.
Proof.
  intros Hfault Hh Hrange.
  unfold check_rate_limit, window_start, JS.toISOString, read_recent, select.
  unfold window_in_range in Hrange. apply Z.leb_le in Hrange.
  now rewrite Hh, Hrange, Hfault.
Qed.

(** C2, amended.  Policy evaluation fails open.  When the read of the user's
    security policies fails, both sponsor handlers evaluate no policy: a valid
    request for a transaction of the user is sponsored whatever policies are
    stored, and the middleware hands the request on.  When the read of the
    recent history of a rate limit fails, the count is taken as 0: the policy
    denies only if its [max_transactions] is at most 0. *)
Theorem failed_policy_read_fails_open (isUUID : string -> bool) (e : env) (user_id : string)
    (b : sponsor_body) (d : db) (m : string) :
  Express.validate isUUID b = true ->
  transaction_found e d user_id b ->
  nonce_rpc_fault e = None ->
  insert_fault e = None ->
  (policies_read_fault e = Some m ->
   Express.sponsor isUUID e user_id b d = express_sponsored e d user_id b
   /\ NextApi.POST e (Some user_id) b d = next_sponsored e d user_id b)
  /\ (forall (p : security_policy) (h : Z),
        recent_read_fault e (sp_id p) = Some m ->
        hours (policy_config_of p) = Some h ->
        window_in_range e h ->
        check_rate_limit e d user_id p
        = if JS.ge 0 (max_transactions (policy_config_of p))
          then Deny 429 "Rate limit exceeded" else Pass)
  /\ (forall (me : Middleware.env) (req : Middleware.request),
        Middleware.policies_read_fault me = Some m ->
        Middleware.validateSecurityPolicies me d req = Middleware.CallNext).
Proof.
  intros Hvalid (t & Ht) Hrpc Hinsert. split; [|split].
  - intros Hfault. split.
    + unfold Express.sponsor, express_sponsored, sponsored_row, read_policies, select.
      now rewrite Hvalid, Ht, Hfault, Hrpc, Hinsert.
    + unfold NextApi.POST, next_sponsored, sponsored_row, read_policies, select.
      now rewrite Ht, Hfault, Hrpc, Hinsert.
  - intros p h Hfault Hh Hrange.
    now apply history_read_failure_counts_zero with (h := h) (m := m).
  - intros me req Hfault. unfold Middleware.validateSecurityPolicies, select.
    rewrite Hfault. now destruct (Middleware.user req).
Qed.

Lemma failed_policy_read_fails_open_witness :
  Express.sponsor any_uuid policies_down "alice" fee_200000 db_limited
  = express_sponsored policies_down db_limited "alice" fee_200000
  /\ NextApi.POST policies_down (Some "alice") fee_200000 db_limited
     = next_sponsored policies_down db_limited "alice" fee_200000.
Proof.
  assert (Hfound : transaction_found policies_down db_limited "alice" fee_200000).
  { exists alice_tx. reflexivity. }
  destruct (failed_policy_read_fails_open any_uuid policies_down "alice" fee_200000
              db_limited "connection lost" eq_refl Hfound eq_refl eq_refl)
    as [Hopen _].
  apply Hopen. reflexivity.
Defined.

(** ** Amount limits *)

(** At the boundary, the Express router and the SQL function agree: a fee
    equal to [max_amount] passes the policy, one unit more is turned down. *)
Lemma amount_limit_boundary (e : env) (d : db) (sql_now : Z) (user_id : string)
    (p : security_policy) (mx : Z) :
  policy_type p = amount_limit ->
  max_amount (policy_config_of p) = Some mx ->
  -9223372036854775808 <= mx <= 9223372036854775807 ->
  Express.check_policy e d user_id mx p = Pass
  /\ Express.check_policy e d user_id (mx + 1) p = Deny 400 "Amount limit exceeded"
  /\ sql_check_policy d sql_now user_id mx p = Some true
  /\ sql_check_policy d sql_now user_id (mx + 1) p = Some false.
Proof.
  intros Hkind Hmax Hrange.
  unfold Express.check_policy, sql_check_policy, sql_bigint, sql_cast, JS.gt.
  rewrite Hkind, Hmax.
  replace ((-9223372036854775808 <=? mx) && (mx <=? 9223372036854775807)) with true
    by (symmetry; apply andb_true_intro; split; apply Z.leb_le; lia).
  destruct (Z.ltb_spec mx mx); [lia|].
  destruct (Z.ltb_spec mx (mx + 1)); [|lia].
  repeat split.
Qed.

(** A policy that lets the request pass does not change the outcome of the loop. *)
Lemma express_passing_policy_is_transparent (e : env) (d : db) (user_id : string) (fee : Z)
    (ps1 ps2 : list security_policy) (p : security_policy) :
  Express.check_policy e d user_id fee p = Pass ->
  Express.check_policies e d user_id fee (ps1 ++ p :: ps2)
  = Express.check_policies e d user_id fee (ps1 ++ ps2).
Proof.
  intros Hp. induction ps1 as [|q ps1 IH]; simpl.
  - now rewrite Hp.
  - now rewrite IH.
Qed.

(** Through the Express router a fee one unit above [max_amount] is turned
    down and writes no row; when the request gets as far as that policy the
    reply is the amount-limit error. *)
Lemma express_fee_above_limit_is_denied (isUUID : string -> bool) (e : env)
    (user_id : string) (b : sponsor_body) (d : db) (ps1 ps2 : list security_policy)
    (p : security_policy) (mx : Z) :
  policies_read_fault e = None ->
  active_policies d user_id = ps1 ++ p :: ps2 ->
  policy_type p = amount_limit ->
  max_amount (policy_config_of p) = Some mx ->
  estimated_fee b = mx + 1 ->
  denied d (Express.sponsor isUUID e user_id b d)
  /\ (Express.validate isUUID b = true ->
      transaction_found e d user_id b ->
      Express.check_policies e d user_id (estimated_fee b) ps1 = Pass ->
      fst (Express.sponsor isUUID e user_id b d) = JsonError 400 "Amount limit exceeded").
Proof.
  intros Hread Hps Hkind Hmax Hfee.
  assert (Hdeny : Express.check_policy e d user_id (mx + 1) p
                  = Deny 400 "Amount limit exceeded").
  { unfold Express.check_policy, JS.gt. rewrite Hkind, Hmax.
    destruct (Z.ltb_spec mx (mx + 1)); [reflexivity|lia]. }
  rewrite <- Hfee in Hdeny. split.
  - apply express_stopped_by_policy; [exact Hread|].
    apply express_policy_in with (p := p).
    + rewrite Hps. apply in_or_app. right. now left.
    + rewrite Hdeny. discriminate.
  - intros Hvalid (t & Ht) Hbefore.
    unfold Express.sponsor, read_policies, select.
    rewrite Hvalid, Ht, Hread. simpl rows_or_nil. simpl negb. cbv iota.
    now rewrite Hps, (express_policy_reached _ _ _ _ _ _ _ Hbefore), Hdeny.
Qed.

(** The Next.js route lets every amount limit pass, whatever the fee. *)
Lemma next_route_passes_amount_limits (e : env) (d : db) (user_id : string)
    (p : security_policy) :
  policy_type p = amount_limit -> NextApi.check_policy e d user_id p = Pass.
Proof. intros Hkind. unfold NextApi.check_policy. now rewrite Hkind. Qed.

(** C4.  With an amount limit of 100 the Express router sponsors a fee of 100
    and turns down a fee of 101 with the amount-limit error, as the SQL
    function does; the Next.js route sponsors the fee of 101. *)
Theorem next_route_sponsors_above_amount_limit :
  max_amount (policy_config_of at_most_100) = Some 100
  /\ Express.sponsor any_uuid calm "alice" fee_100 db_capped
     = express_sponsored calm db_capped "alice" fee_100
  /\ Express.sponsor any_uuid calm "alice" fee_101 db_capped
     = (JsonError 400 "Amount limit exceeded", db_capped)
  /\ validate_security_policies db_capped t0 "alice" 100 = Some true
  /\ validate_security_policies db_capped t0 "alice" 101 = Some false
  /\ NextApi.POST calm (Some "alice") fee_101 db_capped
     = next_sponsored calm db_capped "alice" fee_101
  /\ is_success (fst (NextApi.POST calm (Some "alice") fee_101 db_capped)) = true.
Proof. repeat split; reflexivity. Qed.

(** ** Transaction status *)

(** C5, as stated, fails: a confirmed transaction is set back to pending by
    one status update of its owner. *)
Lemma confirmed_transaction_returns_to_pending :
  map tx_status (transactions db_confirmed) = ["confirmed"]
  /\ TransactionStatus.update_status any_uuid status_env "alice" "tx-1" "pending" db_confirmed
     = (Json 200 (TransactionStatus.set_status "pending" t0 confirmed_tx),
        set_transactions [TransactionStatus.set_status "pending" t0 confirmed_tx] db_confirmed)
  /\ api_step db_confirmed
       (set_transactions [TransactionStatus.set_status "pending" t0 confirmed_tx] db_confirmed)
  /\ map tx_status
       (transactions
          (snd (TransactionStatus.update_status any_uuid status_env "alice" "tx-1" "pending"
                  db_confirmed)))
     = ["pending"].
Proof.
  repeat split.
  exact (step_update_status db_confirmed any_uuid status_env "alice" "tx-1" "pending").
Qed.

Lemma updated_row_is_stored (user_id id status : string) (updated_at : Z)
    (rows : list transaction) (t : transaction) :
  In t (filter (TransactionStatus.matches user_id id) rows) ->
  In (TransactionStatus.set_status status updated_at t)
     (TransactionStatus.update_rows user_id id status updated_at rows).
Proof.
  intros Hin. apply filter_In in Hin as [Hin Hmatch].
  unfold TransactionStatus.update_rows. apply in_map_iff.
  exists t. now rewrite Hmatch.
Qed.

Lemma other_rows_are_kept (user_id id status : string) (updated_at : Z)
    (rows : list transaction) (t : transaction) :
  In t rows -> TransactionStatus.matches user_id id t = false ->
  In t (TransactionStatus.update_rows user_id id status updated_at rows).
Proof.
  intros Hin Hother. unfold TransactionStatus.update_rows. apply in_map_iff.
  exists t. now rewrite Hother.
Qed.

(** C5, amended.  A status update by the owner of a transaction, with a valid
    id and a status among pending, confirmed and failed, stores the requested
    status whatever the current status of the transaction is; the other rows
    are kept as they are. *)
Theorem update_status_overwrites_any_status (isUUID : string -> bool)
    (e : TransactionStatus.env) (user_id id status : string) (d : db) (t : transaction) :
  TransactionStatus.validate isUUID id status = true ->
  TransactionStatus.update_fault e = None ->
  filter (TransactionStatus.matches user_id id) (transactions d) = [t] ->
  let t' := TransactionStatus.set_status status (TransactionStatus.now e) t in
  let d' := snd (TransactionStatus.update_status isUUID e user_id id status d) in
  fst (TransactionStatus.update_status isUUID e user_id id status d) = Json 200 t'
  /\ In t' (transactions d')
  /\ tx_status t' = status
  /\ In status TransactionStatus.allowed_statuses
  /\ (forall o, In o (transactions d) ->
                TransactionStatus.matches user_id id o = false -> In o (transactions d')).
Proof.
  intros Hvalid Hfault Hone t' d'. subst t' d'.
  unfold TransactionStatus.update_status. rewrite Hvalid, Hfault, Hone. simpl.
  repeat split.
  - apply updated_row_is_stored. rewrite Hone. now left.
  - unfold TransactionStatus.validate in Hvalid.
    apply andb_prop in Hvalid as [_ Hstatus].
    apply existsb_exists in Hstatus as (s & Hin & Heq).
    apply String.eqb_eq in Heq. now subst.
  - intros o Hin Hother. now apply other_rows_are_kept.
Qed.

Lemma update_status_overwrites_any_status_witness :
  fst (TransactionStatus.update_status any_uuid status_env "alice" "tx-1" "failed" db_confirmed)
  = Json 200 (TransactionStatus.set_status "failed" t0 confirmed_tx)
  /\ In (TransactionStatus.set_status "failed" t0 confirmed_tx)
        (transactions
           (snd (TransactionStatus.update_status any_uuid status_env "alice" "tx-1" "failed"
                   db_confirmed))).
Proof.
  destruct (update_status_overwrites_any_status any_uuid status_env "alice" "tx-1" "failed"
              db_confirmed confirmed_tx eq_refl eq_refl eq_refl)
    as (Hreply & Hstored & _).
  split; [exact Hreply|exact Hstored].
Defined.

(** ** Expired sponsorships *)

(** C6, as stated, fails: a sponsorship that expired without being executed
    is read back with its stored status, sponsored, not as failed. *)
Lemma expired_sponsorship_is_read_as_sponsored :
  expires_at expired_row < t0
  /\ g_status expired_row = "sponsored"
  /\ fst (GaslessList.list_transactions None "alice" db_expired)
     = Json 200 [(expired_row,
                  Some (GaslessList.mkEmbedded "hash-1" "mint" 1000 None))].
Proof. repeat split. Qed.

Lemma insert_desc_permutation (g : gasless_transaction) (l : list gasless_transaction) :
  Permutation (g :: l) (GaslessList.insert_desc g l).
Proof.
  induction l as [|x l IH]; simpl; [reflexivity|].
  destruct (g_created_at x <=? g_created_at g); [reflexivity|].
  rewrite perm_swap. now constructor.
Qed.

Lemma order_desc_permutation (l : list gasless_transaction) :
  Permutation l (GaslessList.order_desc l).
Proof.
  induction l as [|g l IH]; simpl; [constructor|].
  rewrite <- insert_desc_permutation. now constructor.
Qed.

(** What a read sends is a stored row of the user, unchanged. *)
Lemma listed_rows_are_stored (fault : option string) (user_id : string) (d : db)
    (rows : list (gasless_transaction * option GaslessList.embedded)) :
  fst (GaslessList.list_transactions fault user_id d) = Json 200 rows ->
  forall g em, In (g, em) rows -> In g (gasless_transactions d) /\ g_user_id g = user_id.
Proof.
  unfold GaslessList.list_transactions, select.
  destruct fault; simpl; [discriminate|].
  intros [= <-] g em Hin.
  apply in_map_iff in Hin as (g' & [= -> _] & Hin).
  unfold GaslessList.user_rows in Hin.
  apply (Permutation_in _ (Permutation_sym (order_desc_permutation _))) in Hin.
  apply filter_In in Hin as [Hin Huser].
  split; [exact Hin|]. now apply String.eqb_eq.
Qed.

(** A read sends every stored row of the user. *)
Lemma stored_rows_are_listed (user_id : string) (d : db) (g : gasless_transaction) :
  In g (gasless_transactions d) -> g_user_id g = user_id ->
  exists rows, fst (GaslessList.list_transactions None user_id d) = Json 200 rows
               /\ In (g, GaslessList.embed d g) rows.
Proof.
  intros Hin Huser. eexists; split; [reflexivity|].
  apply in_map_iff. exists g. split; [reflexivity|].
  unfold GaslessList.user_rows.
  apply (Permutation_in _ (order_desc_permutation _)).
  apply filter_In. split; [exact Hin|]. now apply String.eqb_eq.
Qed.

Lemma only_adds_sponsored_refl (d d' : db) :
  gasless_transactions d' = gasless_transactions d -> only_adds_sponsored d d'.
Proof. intros H. exists []. now rewrite app_nil_r. Qed.

Lemma only_adds_sponsored_trans (d1 d2 d3 : db) :
  only_adds_sponsored d1 d2 -> only_adds_sponsored d2 d3 -> only_adds_sponsored d1 d3.
Proof.
  intros (a1 & H1 & F1) (a2 & H2 & F2). exists (a1 ++ a2). split.
  - now rewrite H2, H1, app_assoc.
  - apply Forall_app. now split.
Qed.

Lemma express_sponsor_only_adds (isUUID : string -> bool) (e : env) (user_id : string)
    (b : sponsor_body) (d : db) :
  only_adds_sponsored d (snd (Express.sponsor isUUID e user_id b d)).
Proof.
  unfold Express.sponsor, select.
  destruct (negb _); [now apply only_adds_sponsored_refl|].
  destruct (find_transaction _ _ _ _); [|now apply only_adds_sponsored_refl].
  destruct (Express.check_policies _ _ _ _ _); try now apply only_adds_sponsored_refl.
  destruct (nonce_rpc_fault e); [now apply only_adds_sponsored_refl|].
  destruct (insert_fault e); [now apply only_adds_sponsored_refl|].
  eexists; split; [reflexivity|]. now repeat constructor.
Qed.

Lemma next_sponsor_only_adds (e : env) (user : option string) (b : sponsor_body) (d : db) :
  only_adds_sponsored d (snd (NextApi.POST e user b d)).
Proof.
  unfold NextApi.POST, select.
  destruct user; [|now apply only_adds_sponsored_refl].
  destruct (find_transaction _ _ _ _); [|now apply only_adds_sponsored_refl].
  destruct (NextApi.check_policies _ _ _ _); try now apply only_adds_sponsored_refl.
  destruct (insert_fault e); [now apply only_adds_sponsored_refl|].
  eexists; split; [reflexivity|]. now repeat constructor.
Qed.

Lemma webhook_keeps_sponsorships
    (constructEvent : string -> option string -> string -> option Webhooks.event)
    (stripe : bool) (secret : option string) (e : Webhooks.env) (body : string)
    (signature : option string) (d : db) :
  gasless_transactions
    (snd (fst (Webhooks.POST constructEvent stripe secret e body signature d)))
  = gasless_transactions d.
Proof.
  unfold Webhooks.POST, Webhooks.handle_event, Webhooks.update_payment,
    Webhooks.update_subscription, Webhooks.cancel_subscription.
  handler_cases; reflexivity.
Qed.

Lemma api_step_only_adds (d d' : db) : api_step d d' -> only_adds_sponsored d d'.
Proof.
  intros [isUUID e u b|e u b|fault u|isUUID e u id s|isURL e u b|ce st sec e body sg|e u b].
  - apply express_sponsor_only_adds.
  - apply next_sponsor_only_adds.
  - apply only_adds_sponsored_refl.
    unfold GaslessList.list_transactions. handler_cases; reflexivity.
  - apply only_adds_sponsored_refl.
    unfold TransactionStatus.update_status. handler_cases; reflexivity.
  - apply only_adds_sponsored_refl.
    unfold Tokens.create_token, select. handler_cases; reflexivity.
  - apply only_adds_sponsored_refl, webhook_keeps_sponsorships.
  - apply only_adds_sponsored_refl.
    unfold MultiSig.create_wallet, MultiSig.rollback, select. handler_cases; reflexivity.
Qed.

Lemma api_run_only_adds (d d' : db) : api_run d d' -> only_adds_sponsored d d'.
Proof.
  induction 1 as [|d1 d2 Hrun IH Hstep].
  - now apply only_adds_sponsored_refl.
  - eapply only_adds_sponsored_trans; [exact IH|now apply api_step_only_adds].
Qed.

(** C6, amended.  A stored sponsorship row stays as it is through any sequence
    of requests: a read that answers sends the row itself, with the status it
    was stored with, whether or not its expiry has passed, and sends only
    stored rows; the rows that requests add are stored as sponsored.  No
    request moves a sponsorship, expired or not, to executed. *)
Theorem sponsorship_rows_are_read_as_stored (d d' : db) (g : gasless_transaction) :
  api_run d d' ->
  In g (gasless_transactions d) ->
  In g (gasless_transactions d')
  /\ (exists rows,
        fst (GaslessList.list_transactions None (g_user_id g) d') = Json 200 rows
        /\ In (g, GaslessList.embed d' g) rows)
  /\ (forall fault user_id rows g' em,
        fst (GaslessList.list_transactions fault user_id d') = Json 200 rows ->
        In (g', em) rows -> In g' (gasless_transactions d'))
  /\ (forall g', In g' (gasless_transactions d') ->
                 In g' (gasless_transactions d) \/ g_status g' = "sponsored").
Proof.
  intros Hrun Hin.
  destruct (api_run_only_adds d d' Hrun) as (added & Heq & Hadded).
  assert (Hin' : In g (gasless_transactions d')).
  { rewrite Heq. apply in_or_app. now left. }
  split; [exact Hin'|]. split; [|split].
  - now apply stored_rows_are_listed.
  - intros fault u rows g' em Hreply Hrow.
    now apply (listed_rows_are_stored fault u d' rows Hreply g' em).
  - intros g' Hg'. rewrite Heq in Hg'. apply in_app_or in Hg' as [Hold|Hnew].
    + now left.
    + right. rewrite Forall_forall in Hadded. now apply Hadded.
Qed.

Lemma sponsorship_rows_are_read_as_stored_witness :
  let d' := snd (Express.sponsor any_uuid calm "alice" fee_200000 db_expired) in
  In expired_row (gasless_transactions d')
  /\ exists rows,
       fst (GaslessList.list_transactions None "alice" d') = Json 200 rows
       /\ In (expired_row, GaslessList.embed d' expired_row) rows.
Proof.
  intros d'.
  assert (Hrun : api_run db_expired d').
  { apply run_step with (d1 := db_expired); [apply run_done|].
    exact (step_express_sponsor db_expired any_uuid calm "alice" fee_200000). }
  assert (Hin : In expired_row (gasless_transactions db_expired)) by (now left).
  destruct (sponsorship_rows_are_read_as_stored db_expired d' expired_row Hrun Hin)
    as (Hstored & Hread & _).
  split; [exact Hstored|exact Hread].
Defined.

(** ** Webhook deliveries *)










Example payment_succeeded_delivered_twice :
  let once :=
    Webhooks.POST demo_constructEvent true (Some "whsec_1") (Webhooks.mkEnv t0 None None)
                  "{}" (Some "t=1,v1=good") db_billing in
  let again :=
    Webhooks.POST demo_constructEvent true (Some "whsec_1")
                  (Webhooks.mkEnv (t0 + 5000) None None)
                  "{}" (Some "t=1,v1=good") (snd (fst once)) in
  payment_transactions (snd (fst once))
  = [mkPayment "pay-1" "alice" "pi_1" 999 "succeeded" t0]
  /\ payment_transactions (snd (fst again))
     = [mkPayment "pay-1" "alice" "pi_1" 999 "succeeded" (t0 + 5000)]
  /\ fst (fst again) = Json 200 true.
Proof. repeat split. Qed.

(** C8.  A webhook request whose signature does not verify against the
    configured secret is answered with the invalid-signature error, and the
    handler makes no call to the persistence gateway: nothing is read, nothing
    is written.  The signature middleware likewise replies 401 and never
    hands the request on. *)
Theorem unverified_webhook_is_rejected
    (constructEvent : string -> option string -> string -> option Webhooks.event)
    (hmac_sha256_hex : string -> string -> string)
    (secret : string) (e : Webhooks.env) (body : string) (signature : option string)
    (d : db) :
  secret <> "" ->
  (constructEvent body signature secret = None ->
   Webhooks.POST constructEvent true (Some secret) e body signature d
   = (JsonError 400 "Invalid signature", d, []))
  /\ (signature <> Some ("sha256=" ++ hmac_sha256_hex secret body)%string ->
      Middleware.validateSignature hmac_sha256_hex secret signature body
      = Middleware.Reply 401 "Missing signature"
      \/ Middleware.validateSignature hmac_sha256_hex secret signature body
         = Middleware.Reply 401 "Invalid signature").
Proof.
  intros Hsecret. split.
  - intros Hbad. unfold Webhooks.POST.
    destruct (String.eqb_spec secret ""); [contradiction|].
    now rewrite Hbad.
  - intros Hbad. unfold Middleware.validateSignature.
    destruct signature as [sg|]; [|now left].
    destruct (String.eqb sg ""); [now left|].
    destruct (String.eqb_spec sg ("sha256=" ++ hmac_sha256_hex secret body)%string) as [->|];
      [contradiction|now right].
Qed.

Lemma unverified_webhook_is_rejected_witness :
  Webhooks.POST demo_constructEvent true (Some "whsec_1") (Webhooks.mkEnv t0 None None)
                "{}" (Some "t=1,v1=forged") db_billing
  = (JsonError 400 "Invalid signature", db_billing, [])
  /\ (Middleware.validateSignature demo_hmac "whsec_1" (Some "t=1,v1=forged") "{}"
      = Middleware.Reply 401 "Missing signature"
      \/ Middleware.validateSignature demo_hmac "whsec_1" (Some "t=1,v1=forged") "{}"
         = Middleware.Reply 401 "Invalid signature").
Proof.
  assert (Hsecret : "whsec_1" <> "") by discriminate.
  destruct (unverified_webhook_is_rejected demo_constructEvent demo_hmac "whsec_1"
              (Webhooks.mkEnv t0 None None) "{}" (Some "t=1,v1=forged") db_billing Hsecret)
    as [Hroute Hmiddleware].
  split; [apply Hroute; reflexivity|apply Hmiddleware; discriminate].
Defined.

(** ** Token creation *)

(** C9.  A token creation request that passes validation and whose insert is
    accepted creates exactly one token row, owned by the caller, whose
    [total_supply] is the supplied value, 0 when the field is left out, and
    whose [decimals] is the supplied value, 6 when the field is left out. *)
Theorem created_token_takes_supplied_or_default (isURL : string -> bool) (e : Tokens.env)
    (user_id : string) (b : Tokens.body) (d : db) :
  Tokens.validate isURL b = true ->
  Tokens.insert_fault e = None ->
  exists tk,
    Tokens.create_token isURL e user_id b d = (Json 201 tk, set_tokens (tokens d ++ [tk]) d)
    /\ creator_id tk = user_id
    /\ total_supply tk = match Tokens.b_total_supply b with Some n => n | None => 0 end
    /\ decimals tk = match Tokens.b_decimals b with Some n => n | None => 6 end.
Proof.
  intros Hvalid Hinsert.
  exists (Tokens.new_token e user_id b).
  unfold Tokens.create_token, select. rewrite Hvalid, Hinsert.
  repeat split.
Qed.

Lemma created_token_takes_supplied_or_default_witness :
  exists tk,
    Tokens.create_token any_url token_env "alice" token_body empty_db
    = (Json 201 tk, set_tokens (tokens empty_db ++ [tk]) empty_db)
    /\ creator_id tk = "alice"
    /\ total_supply tk = 0
    /\ decimals tk = 6.
Proof.
  exact (created_token_takes_supplied_or_default any_url token_env "alice" token_body
           empty_db eq_refl eq_refl).
Defined.

(** ** Multi-signature wallets *)

Lemma rollback_removes_new_wallet (id : string) (w : multi_sig_wallet)
    (l : list multi_sig_wallet) :
  ~ In id (map w_id l) -> w_id w = id ->
  filter (fun x => negb (String.eqb (w_id x) id)) (l ++ [w]) = l.
Proof.
  intros Hfresh Hid. rewrite filter_app. simpl.
  rewrite Hid, String.eqb_refl. simpl. rewrite app_nil_r.
  induction l as [|x l IH]; simpl; [reflexivity|].
  simpl in Hfresh.
  destruct (String.eqb_spec (w_id x) id) as [Heq|Hneq]; simpl.
  - exfalso. apply Hfresh. now left.
  - f_equal. apply IH. intros Hin. apply Hfresh. now right.
Qed.

Lemma set_multi_sig_wallets_back (d : db) (l : list multi_sig_wallet) :
  set_multi_sig_wallets (multi_sig_wallets d) (set_multi_sig_wallets l d) = d.
Proof. now destruct d. Qed.

Lemma inconsistent_signers_rejected (e : MultiSig.env) (user_id : string)
    (b : MultiSig.body) (d : db) :
  inconsistent_signers b ->
  exists err, MultiSig.create_wallet e user_id b d = (JsonError 400 err, d).
Proof.
  intros Hbad. unfold MultiSig.create_wallet.
  destruct (negb (MultiSig.validate b)); [now eexists|].
  destruct (Z.ltb_spec (MultiSig.b_total_signers b) (MultiSig.b_required_signatures b));
    [now eexists|].
  destruct (Z.eqb_spec (Z.of_nat (List.length (MultiSig.b_signers b)))
                       (MultiSig.b_total_signers b)); simpl; [|now eexists].
  destruct Hbad; [lia|contradiction].
Qed.

Lemma failed_signers_roll_back (e : MultiSig.env) (user_id : string) (b : MultiSig.body)
    (d : db) (m : string) :
  MultiSig.rollback_fault e = None ->
  fresh_wallet_id e d ->
  MultiSig.validate b = true ->
  ~ inconsistent_signers b ->
  MultiSig.wallet_insert_fault e = None ->
  MultiSig.signers_insert_fault e = Some m ->
  MultiSig.create_wallet e user_id b d = (JsonError 400 "Failed to add signers", d).
Proof.
  intros Hrollback Hfresh Hvalid Hok Hwallet Hsigners.
  unfold MultiSig.create_wallet, MultiSig.rollback, select.
  rewrite Hvalid, Hwallet, Hsigners, Hrollback. simpl negb. cbv iota.
  destruct (Z.ltb_spec (MultiSig.b_total_signers b) (MultiSig.b_required_signatures b));
    [exfalso; apply Hok; now left|].
  destruct (Z.eqb_spec (Z.of_nat (List.length (MultiSig.b_signers b)))
                       (MultiSig.b_total_signers b)); simpl;
    [|exfalso; apply Hok; now right].
  f_equal.
  rewrite rollback_removes_new_wallet; [apply set_multi_sig_wallets_back|exact Hfresh|reflexivity].
Qed.

Lemma created_wallet_has_signers (e : MultiSig.env) (user_id : string) (b : MultiSig.body)
    (d : db) :
  MultiSig.rollback_fault e = None ->
  fresh_wallet_id e d ->
  wallet_with_signers e user_id b d (snd (MultiSig.create_wallet e user_id b d)).
Proof.
  intros Hrollback Hfresh.
  unfold MultiSig.create_wallet, MultiSig.rollback, select, wallet_with_signers.
  destruct (MultiSig.validate b) eqn:Hvalid; simpl negb; cbv iota; [|now left].
  destruct (MultiSig.b_total_signers b <? MultiSig.b_required_signatures b); [now left|].
  destruct (negb _); [now left|].
  destruct (MultiSig.wallet_insert_fault e); [now left|].
  destruct (MultiSig.signers_insert_fault e).
  - left. rewrite Hrollback. simpl.
    rewrite rollback_removes_new_wallet;
      [apply set_multi_sig_wallets_back|exact Hfresh|reflexivity].
  - right. split; [|reflexivity].
    unfold MultiSig.validate in Hvalid.
    apply andb_prop in Hvalid as [Hvalid _]. apply andb_prop in Hvalid as [_ Hlen].
    intros Hnil. rewrite Hnil in Hlen. discriminate.
Qed.

(** What the handler does keep: creating a multi-signature wallet rejects,
    with a 400 reply and without writing, a request that asks for more
    signatures than signers or does not supply exactly [total_signers] signers;
    and when the insert of the signer rows fails after the wallet row was
    written and the compensating delete answers, the wallet row is gone again
    and the reply is the failed-to-add-signers error. *)
Theorem multi_sig_creation_is_atomic_when_delete_answers (e : MultiSig.env) (user_id : string)
    (b : MultiSig.body) (d : db) :
  (inconsistent_signers b ->
   exists err, MultiSig.create_wallet e user_id b d = (JsonError 400 err, d))
  /\ (MultiSig.rollback_fault e = None ->
      fresh_wallet_id e d ->
      wallet_with_signers e user_id b d (snd (MultiSig.create_wallet e user_id b d))
      /\ (forall m,
            MultiSig.validate b = true ->
            ~ inconsistent_signers b ->
            MultiSig.wallet_insert_fault e = None ->
            MultiSig.signers_insert_fault e = Some m ->
            MultiSig.create_wallet e user_id b d
            = (JsonError 400 "Failed to add signers", d))).
Proof.
  split.
  - apply inconsistent_signers_rejected.
  - intros Hrollback Hfresh. split.
    + now apply created_wallet_has_signers.
    + intros m. now apply failed_signers_roll_back.
Qed.

Lemma multi_sig_creation_is_atomic_when_delete_answers_witness :
  wallet_with_signers signers_refused "alice" wallet_body empty_db
    (snd (MultiSig.create_wallet signers_refused "alice" wallet_body empty_db))
  /\ MultiSig.create_wallet signers_refused "alice" wallet_body empty_db
     = (JsonError 400 "Failed to add signers", empty_db).
Proof.
  assert (Hfresh : fresh_wallet_id signers_refused empty_db) by (intros []).
  assert (Hok : ~ inconsistent_signers wallet_body).
  { intros [Hlt|Hneq]; [vm_compute in Hlt; discriminate|now apply Hneq]. }
  destruct (multi_sig_creation_is_atomic_when_delete_answers signers_refused "alice" wallet_body empty_db)
    as [_ Hatomic].
  destruct (Hatomic eq_refl Hfresh) as [Hdb Hreply].
  split; [exact Hdb|].
  apply (Hreply "insert refused");
    [reflexivity|exact Hok|reflexivity|reflexivity].
Defined.

(** C10.  Wallet creation is not atomic when the compensating delete fails.
    The request names the same signer address twice, so the insert of the
    signer rows is refused after the wallet row was written; the handler
    issues the delete but does not read its answer, and when the delete fails
    too the reply is the same 400 while the wallet row stays, without a single
    signer row.  With the delete answering the database is left as it was. *)
Theorem failed_rollback_leaves_wallet_without_signers :
  MultiSig.validate twin_body = true
  /\ ~ inconsistent_signers twin_body
  /\ MultiSig.create_wallet rollback_down "alice" twin_body empty_db
     = (JsonError 400 "Failed to add signers",
        set_multi_sig_wallets
          [mkWallet "w-1" "alice" "Treasury" 2 2 "addr1_wallet" "script-1" true] empty_db)
  /\ wallet_signers (snd (MultiSig.create_wallet rollback_down "alice" twin_body empty_db)) = []
  /\ ~ wallet_with_signers rollback_down "alice" twin_body empty_db
        (snd (MultiSig.create_wallet rollback_down "alice" twin_body empty_db))
  /\ MultiSig.create_wallet signers_refused "alice" twin_body empty_db
     = (JsonError 400 "Failed to add signers", empty_db).
Proof.
  split; [reflexivity|]. split.
  - intros [Hlt|Hneq]; [vm_compute in Hlt; discriminate|now apply Hneq].
  - split; [reflexivity|]. split; [reflexivity|]. split; [|reflexivity].
    intros [Hsame|[_ Hboth]]; [discriminate Hsame|].
    apply (f_equal wallet_signers) in Hboth. discriminate Hboth.
Qed.

Example wallet_and_signers_are_created_together :
  snd (MultiSig.create_wallet (MultiSig.mkEnv "w-1" None None None) "alice" wallet_body empty_db)
  = set_wallet_signers
      [mkSigner "w-1" "addr1_a" (Some "Ann") "key-a" false;
       mkSigner "w-1" "addr1_b" None "key-b" false]
      (set_multi_sig_wallets
         [mkWallet "w-1" "alice" "Treasury" 2 2 "addr1_wallet" "script-1" true] empty_db).
Proof. reflexivity. Qed.

(** * Further properties of the handlers *)

(** ** Sponsoring and the stored policies *)






(** The policy loop reads the database through the sponsorship rows only. *)
Lemma check_rate_limit_same_rows (e : env) (d d' : db) (user_id : string)
    (p : security_policy) :
  gasless_transactions d' = gasless_transactions d ->
  check_rate_limit e d' user_id p = check_rate_limit e d user_id p.
Proof.
  intros Hrows. unfold check_rate_limit, read_recent, recent_rows. now rewrite Hrows.
Qed.

Lemma express_check_policies_same_rows (e : env) (d d' : db) (user_id : string) (fee : Z)
    (ps : list security_policy) :
  gasless_transactions d' = gasless_transactions d ->
  Express.check_policies e d' user_id fee ps = Express.check_policies e d user_id fee ps.
Proof.
  intros Hrows. induction ps as [|p ps IH]; simpl; [reflexivity|].
  unfold Express.check_policy.
  rewrite (check_rate_limit_same_rows _ _ _ _ _ Hrows), IH. reflexivity.
Qed.

Lemma next_check_policies_same_rows (e : env) (d d' : db) (user_id : string)
    (ps : list security_policy) :
  gasless_transactions d' = gasless_transactions d ->
  NextApi.check_policies e d' user_id ps = NextApi.check_policies e d user_id ps.
Proof.
  intros Hrows. induction ps as [|p ps IH]; simpl; [reflexivity|].
  unfold NextApi.check_policy.
  rewrite (check_rate_limit_same_rows _ _ _ _ _ Hrows), IH. reflexivity.
Qed.

(** The outcome of a sponsor call is decided by the caller's transactions, the
    sponsorship rows and the verdict of the policy loop. *)
Lemma express_same_verdict (isUUID : string -> bool) (e : env) (user_id : string)
    (b : sponsor_body) (d d' : db) :
  transactions d' = transactions d ->
  gasless_transactions d' = gasless_transactions d ->
  Express.check_policies e d' user_id (estimated_fee b)
    (rows_or_nil (read_policies e d' user_id))
  = Express.check_policies e d user_id (estimated_fee b)
      (rows_or_nil (read_policies e d user_id)) ->
  fst (Express.sponsor isUUID e user_id b d') = fst (Express.sponsor isUUID e user_id b d)
  /\ gasless_transactions (snd (Express.sponsor isUUID e user_id b d'))
     = gasless_transactions (snd (Express.sponsor isUUID e user_id b d)).
Proof.
  intros Htx Hrows Hverdict.
  unfold Express.sponsor, find_transaction, generate_transaction_nonce, insert_gasless.
  rewrite Htx, Hrows, Hverdict.
  handler_cases; split; (reflexivity || exact Hrows).
Qed.

Lemma next_same_verdict (e : env) (user_id : string) (b : sponsor_body) (d d' : db) :
  transactions d' = transactions d ->
  gasless_transactions d' = gasless_transactions d ->
  NextApi.check_policies e d' user_id (rows_or_nil (read_policies e d' user_id))
  = NextApi.check_policies e d user_id (rows_or_nil (read_policies e d user_id)) ->
  fst (NextApi.POST e (Some user_id) b d') = fst (NextApi.POST e (Some user_id) b d)
  /\ gasless_transactions (snd (NextApi.POST e (Some user_id) b d'))
     = gasless_transactions (snd (NextApi.POST e (Some user_id) b d)).
Proof.
  intros Htx Hrows Hverdict.
  unfold NextApi.POST, find_transaction, generate_transaction_nonce, insert_gasless.
  rewrite Htx, Hrows, Hverdict.
  handler_cases; split; (reflexivity || exact Hrows).
Qed.

Lemma active_policies_skip (user_id : string) (p : security_policy)
    (l1 l2 : list security_policy) (d : db) :
  sp_user_id p <> user_id \/ is_active p = false ->
  active_policies (set_security_policies (l1 ++ p :: l2) d) user_id
  = active_policies (set_security_policies (l1 ++ l2) d) user_id.
Proof.
  intros Hforeign. unfold active_policies. simpl.
  rewrite !filter_app. simpl.
  destruct Hforeign as [Huser|Hinactive].
  - apply String.eqb_neq in Huser. now rewrite Huser.
  - rewrite Hinactive. simpl. now rewrite andb_false_r.
Qed.

(** X2.  Policies are scoped to their owner and to the active ones: storing a
    policy of another user, or an inactive policy, changes neither the reply of
    a sponsor call nor the sponsorship rows it leaves, through either handler. *)
Theorem foreign_policy_changes_nothing (isUUID : string -> bool) (e : env) (user_id : string)
    (b : sponsor_body) (d : db) (p : security_policy) (l1 l2 : list security_policy) :
  sp_user_id p <> user_id \/ is_active p = false ->
  let without := set_security_policies (l1 ++ l2) d in
  let with_p := set_security_policies (l1 ++ p :: l2) d in
  (fst (Express.sponsor isUUID e user_id b with_p)
   = fst (Express.sponsor isUUID e user_id b without)
   /\ gasless_transactions (snd (Express.sponsor isUUID e user_id b with_p))
      = gasless_transactions (snd (Express.sponsor isUUID e user_id b without)))
  /\ (fst (NextApi.POST e (Some user_id) b with_p)
      = fst (NextApi.POST e (Some user_id) b without)
      /\ gasless_transactions (snd (NextApi.POST e (Some user_id) b with_p))
         = gasless_transactions (snd (NextApi.POST e (Some user_id) b without))).
Proof.
  intros Hforeign without with_p.
  assert (Hps : active_policies with_p user_id = active_policies without user_id)
    by (now apply active_policies_skip).
  split.
  - apply express_same_verdict; try reflexivity.
    unfold read_policies. rewrite Hps.
    now apply express_check_policies_same_rows.
  - apply next_same_verdict; try reflexivity.
    unfold read_policies. rewrite Hps.
    now apply next_check_policies_same_rows.
Qed.

Lemma foreign_policy_changes_nothing_witness :
  fst (Express.sponsor any_uuid calm "alice" fee_200000
         (set_security_policies ([] ++ bob_never :: []) db_fresh))
  = fst (Express.sponsor any_uuid calm "alice" fee_200000
           (set_security_policies ([] ++ []) db_fresh)).
Proof.
  assert (Hbob : sp_user_id bob_never <> "alice" \/ is_active bob_never = false)
    by (left; discriminate).
  exact (proj1 (proj1 (foreign_policy_changes_nothing any_uuid calm "alice" fee_200000
                         db_fresh bob_never [] [] Hbob))).
Defined.

(** X3.  A rate limit stored without [hours] breaks sponsoring for its owner:
    with the policy read answering, no sponsor call of that user is sponsored
    or writes a row, and a request that gets as far as that policy is answered
    500 (the date of the window is invalid and [toISOString] throws). *)
Theorem rate_limit_without_hours_breaks_sponsoring (isUUID : string -> bool) (e : env)
    (user_id : string) (b : sponsor_body) (d : db) (ps1 ps2 : list security_policy)
    (p : security_policy) :
  policies_read_fault e = None ->
  active_policies d user_id = ps1 ++ p :: ps2 ->
  policy_type p = rate_limit ->
  hours (policy_config_of p) = None ->
  (denied d (Express.sponsor isUUID e user_id b d)
   /\ (Express.validate isUUID b = true ->
       transaction_found e d user_id b ->
       Express.check_policies e d user_id (estimated_fee b) ps1 = Pass ->
       fst (Express.sponsor isUUID e user_id b d) = JsonError 500 "Internal server error"))
  /\ (denied d (NextApi.POST e (Some user_id) b d)
      /\ (transaction_found e d user_id b ->
          NextApi.check_policies e d user_id ps1 = Pass ->
          fst (NextApi.POST e (Some user_id) b d)
          = JsonError 500 "Failed to sponsor transaction")).
Proof.
  intros Hread Hps Hkind Hhours.
  assert (Hthrow : check_rate_limit e d user_id p = Throw).
  { unfold check_rate_limit, window_start. now rewrite Hhours. }
  assert (Hin : In p (active_policies d user_id)).
  { rewrite Hps. apply in_or_app. right. now left. }
  split; split.
  - apply express_stopped_by_policy; [exact Hread|].
    apply express_policy_in with (p := p); [exact Hin|].
    unfold Express.check_policy. rewrite Hkind, Hthrow. discriminate.
  - intros Hvalid (t & Ht) Hbefore.
    unfold Express.sponsor, read_policies, select.
    rewrite Hvalid, Ht, Hread. simpl rows_or_nil. simpl negb. cbv iota.
    rewrite Hps, (express_policy_reached _ _ _ _ _ _ _ Hbefore).
    unfold Express.check_policy. now rewrite Hkind, Hthrow.
  - apply next_stopped_by_policy; [exact Hread|].
    intros u [= <-].
    apply next_policy_in with (p := p); [exact Hin|].
    unfold NextApi.check_policy. rewrite Hkind, Hthrow. discriminate.
  - intros (t & Ht) Hbefore.
    unfold NextApi.POST, read_policies, select.
    rewrite Ht, Hread. simpl rows_or_nil.
    rewrite Hps, (next_policy_reached _ _ _ _ _ _ Hbefore).
    unfold NextApi.check_policy. now rewrite Hkind, Hthrow.
Qed.

Lemma rate_limit_without_hours_breaks_sponsoring_witness :
  fst (Express.sponsor any_uuid calm "alice" fee_200000
         (set_security_policies [no_hours] db_fresh))
  = JsonError 500 "Internal server error"
  /\ fst (NextApi.POST calm (Some "alice") fee_200000
            (set_security_policies [no_hours] db_fresh))
     = JsonError 500 "Failed to sponsor transaction".
Proof.
  assert (Hfound : transaction_found calm (set_security_policies [no_hours] db_fresh)
                     "alice" fee_200000).
  { exists alice_tx. reflexivity. }
  destruct (rate_limit_without_hours_breaks_sponsoring any_uuid calm "alice" fee_200000
              (set_security_policies [no_hours] db_fresh) [] [] no_hours
              eq_refl eq_refl eq_refl eq_refl)
    as [[_ Hexpress] [_ Hnext]].
  split; [apply Hexpress|apply Hnext]; (reflexivity || exact Hfound).
Defined.

Lemma next_passing_policy_is_transparent (e : env) (d : db) (user_id : string)
    (ps1 ps2 : list security_policy) (p : security_policy) :
  NextApi.check_policy e d user_id p = Pass ->
  NextApi.check_policies e d user_id (ps1 ++ p :: ps2)
  = NextApi.check_policies e d user_id (ps1 ++ ps2).
Proof.
  intros Hp. induction ps1 as [|q ps1 IH]; simpl.
  - now rewrite Hp.
  - now rewrite IH.
Qed.

(** X4.  A rate limit stored without [max_transactions] limits nothing: its
    window being a valid date, the policy lets every request pass whatever the
    history holds and whether or not the history read answers, so the policy
    loop of either handler ends as it does without that policy. *)
Theorem rate_limit_without_max_never_limits (e : env) (d : db) (user_id : string) (fee h : Z)
    (ps1 ps2 : list security_policy) (p : security_policy) :
  policy_type p = rate_limit ->
  hours (policy_config_of p) = Some h ->
  window_in_range e h ->
  max_transactions (policy_config_of p) = None ->
  check_rate_limit e d user_id p = Pass
  /\ Express.check_policies e d user_id fee (ps1 ++ p :: ps2)
     = Express.check_policies e d user_id fee (ps1 ++ ps2)
  /\ NextApi.check_policies e d user_id (ps1 ++ p :: ps2)
     = NextApi.check_policies e d user_id (ps1 ++ ps2).
Proof.
  intros Hkind Hh Hrange Hmax.
  assert (Hpass : check_rate_limit e d user_id p = Pass).
  { unfold check_rate_limit, window_start, JS.toISOString.
    unfold window_in_range in Hrange. apply Z.leb_le in Hrange.
    now rewrite Hh, Hrange, Hmax. }
  split; [exact Hpass|]. split.
  - apply express_passing_policy_is_transparent.
    unfold Express.check_policy. now rewrite Hkind.
  - apply next_passing_policy_is_transparent.
    unfold NextApi.check_policy. now rewrite Hkind.
Qed.

Lemma rate_limit_without_max_never_limits_witness :
  check_rate_limit calm db_sponsored "alice" for_middleware = Pass.
Proof.
  assert (Hrange : window_in_range calm 1) by (vm_compute; discriminate).
  exact (proj1 (rate_limit_without_max_never_limits calm db_sponsored "alice" 1 1 [] []
                  for_middleware eq_refl eq_refl Hrange eq_refl)).
Defined.

Lemma express_only_limits_count (e : env) (d : db) (user_id : string) (fee : Z)
    (ps : list security_policy) :
  Express.check_policies e d user_id fee ps
  = Express.check_policies e d user_id fee (filter is_limit ps).
Proof.
  induction ps as [|p ps IH]; simpl; [reflexivity|].
  unfold is_limit at 1, Express.check_policy at 1.
  destruct (policy_type p) eqn:Hkind; simpl; try exact IH;
    unfold Express.check_policy; rewrite Hkind, IH; reflexivity.
Qed.

Lemma next_only_limits_count (e : env) (d : db) (user_id : string)
    (ps : list security_policy) :
  NextApi.check_policies e d user_id ps
  = NextApi.check_policies e d user_id (filter is_limit ps).
Proof.
  induction ps as [|p ps IH]; simpl; [reflexivity|].
  unfold is_limit at 1, NextApi.check_policy at 1.
  destruct (policy_type p) eqn:Hkind; simpl; try exact IH;
    unfold NextApi.check_policy; rewrite Hkind, IH; reflexivity.
Qed.

Lemma active_policies_of_limits (d : db) (user_id : string) :
  active_policies (set_security_policies (filter is_limit (security_policies d)) d) user_id
  = filter is_limit (active_policies d user_id).
Proof.
  unfold active_policies. simpl.
  induction (security_policies d) as [|p ps IH]; simpl; [reflexivity|].
  destruct (is_limit p) eqn:Hlimit; simpl;
    destruct (String.eqb (sp_user_id p) user_id && Bool.eqb (is_active p) true); simpl;
    rewrite ?Hlimit, IH; reflexivity.
Qed.

(** X5.  The sponsor handlers do not enforce [time_lock] and [whitelist]
    policies, which only the middleware reads: deleting every such policy from
    the database changes neither the reply of a sponsor call nor the
    sponsorship rows it leaves. *)
Theorem sponsor_ignores_time_lock_and_whitelist (isUUID : string -> bool) (e : env)
    (user_id : string) (b : sponsor_body) (d : db) :
  let limits_only := set_security_policies (filter is_limit (security_policies d)) d in
  (fst (Express.sponsor isUUID e user_id b limits_only)
   = fst (Express.sponsor isUUID e user_id b d)
   /\ gasless_transactions (snd (Express.sponsor isUUID e user_id b limits_only))
      = gasless_transactions (snd (Express.sponsor isUUID e user_id b d)))
  /\ (fst (NextApi.POST e (Some user_id) b limits_only)
      = fst (NextApi.POST e (Some user_id) b d)
      /\ gasless_transactions (snd (NextApi.POST e (Some user_id) b limits_only))
         = gasless_transactions (snd (NextApi.POST e (Some user_id) b d))).
Proof.
  intros limits_only. split.
  - apply express_same_verdict; try reflexivity.
    unfold read_policies, select. subst limits_only.
    rewrite active_policies_of_limits.
    destruct (policies_read_fault e); simpl; [reflexivity|].
    rewrite (express_check_policies_same_rows e d _ user_id) by reflexivity.
    symmetry. apply express_only_limits_count.
  - apply next_same_verdict; try reflexivity.
    unfold read_policies, select. subst limits_only.
    rewrite active_policies_of_limits.
    destruct (policies_read_fault e); simpl; [reflexivity|].
    rewrite (next_check_policies_same_rows e d _ user_id) by reflexivity.
    symmetry. apply next_only_limits_count.
Qed.

(** A request outside the allowed hours and from another address is stopped
    by the middleware and sponsored by the router. *)
Example time_lock_binds_the_middleware_only :
  Middleware.validateSecurityPolicies (Middleware.mkEnv t0 22 None no_fault)
    (set_security_policies [office_hours; home_only] db_fresh) sponsor_request
  = Middleware.Reply 403 "Security policy violation"
  /\ is_success (fst (Express.sponsor any_uuid calm "alice" fee_200000
                        (set_security_policies [office_hours; home_only] db_fresh)))
     = true.
Proof. split; reflexivity. Qed.



Lemma insert_by_desc_permutation {A : Type} (key : A -> Z) (x : A) (l : list A) :
  Permutation (x :: l) (insert_by_desc key x l).
Proof.
  induction l as [|y l IH]; simpl; [reflexivity|].
  destruct (key y <=? key x); [reflexivity|].
  rewrite perm_swap. now constructor.
Qed.

Lemma order_by_desc_permutation {A : Type} (key : A -> Z) (l : list A) :
  Permutation l (order_by_desc key l).
Proof.
  induction l as [|x l IH]; simpl; [constructor|].
  rewrite <- insert_by_desc_permutation. now constructor.
Qed.

(** X7.  A sponsorship shows in its owner's listing at once and in nobody
    else's: after a sponsor call that succeeded, GET /transactions of the caller
    sends the new row, stored as sponsored for the requested transaction and
    fee and expiring 30 minutes after the request, and the listing of any other
    user is what it was. *)
Theorem sponsorship_is_listed_for_its_owner_only (isUUID : string -> bool) (e : env)
    (user_id other : string) (b : sponsor_body) (d : db) :
  is_success (fst (Express.sponsor isUUID e user_id b d)) = true ->
  other <> user_id ->
  let d' := snd (Express.sponsor isUUID e user_id b d) in
  (exists g rows,
     fst (GaslessList.list_transactions None user_id d') = Json 200 rows
     /\ In (g, GaslessList.embed d' g) rows
     /\ gasless_transactions d' = gasless_transactions d ++ [g]
     /\ g_user_id g = user_id
     /\ g_status g = "sponsored"
     /\ g_transaction_id g = transaction_id b
     /\ gas_fee_ada g = estimated_fee b
     /\ expires_at g = now e + 1800000)
  /\ (forall fault,
        fst (GaslessList.list_transactions fault other d')
        = fst (GaslessList.list_transactions fault other d)).
Proof.
  intros Hok Hother d'. subst d'.
  unfold Express.sponsor, select in *.
  destruct (negb _); [discriminate|].
  destruct (find_transaction _ _ _ _); [|discriminate].
  destruct (Express.check_policies _ _ _ _ _); try discriminate.
  destruct (nonce_rpc_fault e); [discriminate|].
  destruct (insert_fault e); [discriminate|].
  cbn [fst snd].
  set (g := new_sponsorship e user_id b _).
  split.
  - exists g. eexists. split; [reflexivity|]. split; [|now repeat split].
    apply in_map_iff. exists g. split; [reflexivity|].
    unfold GaslessList.user_rows.
    apply (Permutation_in _ (order_desc_permutation _)).
    apply filter_In. split.
    + simpl. apply in_or_app. right. now left.
    + simpl. apply String.eqb_refl.
  - intros fault.
    assert (Hrows : GaslessList.user_rows (insert_gasless g d) other
                    = GaslessList.user_rows d other).
    { unfold GaslessList.user_rows. simpl. rewrite filter_app. simpl.
      apply String.eqb_neq in Hother. rewrite String.eqb_sym, Hother.
      now rewrite app_nil_r. }
    unfold GaslessList.list_transactions. rewrite Hrows.
    now destruct fault.
Qed.

Lemma sponsorship_is_listed_for_its_owner_only_witness :
  fst (GaslessList.list_transactions None "bob"
         (snd (Express.sponsor any_uuid calm "alice" fee_200000 db_fresh)))
  = fst (GaslessList.list_transactions None "bob" db_fresh).
Proof.
  assert (Hbob : "bob" <> "alice") by discriminate.
  exact (proj2 (sponsorship_is_listed_for_its_owner_only any_uuid calm "alice" "bob"
                  fee_200000 db_fresh eq_refl Hbob) None).
Defined.

(** ** Nonces along sequences of sponsor calls *)

Lemma sql_max_consecutive (n : nat) :
  sql_max (map Z.of_nat (seq 1 n)) = match n with O => None | S _ => Some (Z.of_nat n) end.
Proof.
  assert (H : forall n start, sql_max (map Z.of_nat (seq start (S n)))
                              = Some (Z.of_nat (start + n))).
  { clear n. induction n as [|n IH]; intros start.
    - simpl. now rewrite Nat.add_0_r.
    - change (seq start (S (S n))) with (start :: seq (S start) (S n)).
      cbn [map sql_max]. rewrite IH. f_equal. lia. }
  destruct n as [|n]; [reflexivity|]. rewrite H. f_equal.
Qed.

Lemma consecutive_snoc (n : nat) :
  map Z.of_nat (seq 1 n) ++ [Z.of_nat (S n)] = map Z.of_nat (seq 1 (S n)).
Proof. now rewrite seq_S, map_app. Qed.

Lemma appended_row_keeps_consecutive (e : env) (user_id : string) (b : sponsor_body)
    (d : db) :
  nonces_consecutive d ->
  nonces_consecutive
    (insert_gasless
       (new_sponsorship e user_id b (nonce_or_1 (Some (generate_transaction_nonce d user_id))))
       d).
Proof.
  intros Hcons u. cbn [insert_gasless gasless_transactions set_gasless_transactions].
  assert (Hrows : gasless_transactions
                    (set_gasless_transactions
                       (gasless_transactions d
                        ++ [new_sponsorship e user_id b
                              (nonce_or_1 (Some (generate_transaction_nonce d user_id)))]) d)
                  = gasless_transactions d
                    ++ [new_sponsorship e user_id b
                          (nonce_or_1 (Some (generate_transaction_nonce d user_id)))])
    by now destruct d.
  rewrite ?Hrows.
  rewrite nonces_of_app. unfold nonces_of at 2 4. cbn [filter new_sponsorship g_user_id].
  destruct (String.eqb_spec user_id u) as [->|Hu]; cbn [map].
  - pose proof (Hcons u) as Hu.
    remember (List.length (nonces_of u (gasless_transactions d))) as n eqn:Hn.
    rewrite length_app, <- Hn. cbn [List.length]. rewrite Nat.add_1_r.
    rewrite <- consecutive_snoc, <- Hu. f_equal. f_equal. cbn [nonce].
    unfold generate_transaction_nonce, nonce_or_1, JS.or_num.
    rewrite Hu, sql_max_consecutive.
    destruct n as [|n]; [reflexivity|].
    unfold new_sponsorship. cbn [coalesce nonce].
    destruct (Z.eqb_spec (Z.of_nat (S n) + 1) 0); lia.
  - rewrite !app_nil_r. apply Hcons.
Qed.

Lemma express_call_keeps_consecutive (isUUID : string -> bool) (e : env) (user_id : string)
    (b : sponsor_body) (d : db) :
  nonces_consecutive d ->
  nonces_consecutive (snd (Express.sponsor isUUID e user_id b d)).
Proof.
  intros Hcons. unfold Express.sponsor, select.
  destruct (negb _); [exact Hcons|].
  destruct (find_transaction _ _ _ _); [|exact Hcons].
  destruct (Express.check_policies _ _ _ _ _); try exact Hcons.
  destruct (nonce_rpc_fault e); [exact Hcons|].
  destruct (insert_fault e); [exact Hcons|].
  cbn [snd]. now apply appended_row_keeps_consecutive.
Qed.

Lemma next_call_keeps_consecutive (e : env) (user : option string) (b : sponsor_body)
    (d : db) :
  nonce_rpc_fault e = None ->
  nonces_consecutive d ->
  nonces_consecutive (snd (NextApi.POST e user b d)).
Proof.
  intros Hrpc Hcons. unfold NextApi.POST, select.
  destruct user as [user_id|]; [|exact Hcons].
  destruct (find_transaction _ _ _ _); [|exact Hcons].
  destruct (NextApi.check_policies _ _ _ _); try exact Hcons.
  rewrite Hrpc. cbv zeta.
  destruct (insert_fault e); [exact Hcons|].
  cbn [snd]. now apply appended_row_keeps_consecutive.
Qed.

(** X8.  Starting from a table without sponsorships, the nonces each user
    holds after any sequence of sponsor calls, made through the Express router
    or through the Next.js route with its nonce RPC answering, are exactly
    1, 2, ..., n in the order of creation: the k-th sponsorship of a user
    carries nonce k, without gaps, whatever calls failed in between.  (A call
    of the Next.js route whose nonce RPC fails is left out: it stores nonce 1
    again.) *)
Theorem nonces_count_sponsorships (isUUID : string -> bool) (d d' : db) :
  gasless_transactions d = [] ->
  sponsor_calls isUUID d d' ->
  nonces_consecutive d'.
Proof.
  intros Hnone Hrun.
  induction Hrun as [|d1 e u b Hrun IH|d1 e user b Hrun IH Hrpc].
  - intros u. now rewrite Hnone.
  - now apply express_call_keeps_consecutive.
  - now apply next_call_keeps_consecutive.
Qed.

Lemma nonces_count_sponsorships_witness :
  nonces_consecutive
    (snd (NextApi.POST calm (Some "alice") fee_200000
            (snd (Express.sponsor any_uuid calm "alice" fee_200000 db_fresh)))).
Proof.
  apply (nonces_count_sponsorships any_uuid db_fresh); [reflexivity|].
  apply sponsor_calls_next; [|reflexivity].
  apply sponsor_calls_express. apply sponsor_calls_done.
Defined.

(** ** The SQL validator *)

Lemma sql_reaches_policy (d : db) (sql_now : Z) (user_id : string) (a : Z)
    (ps1 ps2 : list security_policy) (p : security_policy) :
  Forall (fun q => sql_check_policy d sql_now user_id a q = Some true) ps1 ->
  sql_check_policies d sql_now user_id a (ps1 ++ p :: ps2)
  = match sql_check_policy d sql_now user_id a p with
    | Some true => sql_check_policies d sql_now user_id a ps2
    | r => r
    end.
Proof.
  induction 1 as [|q ps1 Hq _ IH]; simpl; [reflexivity|]. now rewrite Hq.
Qed.

Lemma sql_cast_in_range (lo hi n : Z) :
  lo <= n <= hi -> sql_cast lo hi (Some n) = Some (Some n).
Proof.
  intros Hn. unfold sql_cast.
  destruct (Z.leb_spec lo n); [|lia]. destruct (Z.leb_spec n hi); [reflexivity|lia].
Qed.

Lemma sql_cast_answers (lo hi : Z) (v : option Z) :
  (forall n, v = Some n -> lo <= n <= hi) -> sql_cast lo hi v = Some v.
Proof.
  intros Hv. destruct v as [n|]; [|reflexivity]. now apply sql_cast_in_range, Hv.
Qed.

Lemma sql_recent_count_answers (d : db) (sql_now : Z) (user_id : string) (h : option Z) :
  Z.of_nat (List.length (transactions d)) <= 2147483647 ->
  (forall n, h = Some n ->
     -2147483648 <= n <= 2147483647
     /\ sql_min_timestamp <= sql_now - n * 3600000 < sql_end_timestamp) ->
  exists count, sql_recent_count d sql_now user_id h = Some count.
Proof.
  intros Hrows Hh. unfold sql_recent_count, sql_integer.
  rewrite (sql_cast_answers _ _ h) by (intros n Hn; apply (Hh n Hn)).
  assert (Hstart : exists start, sql_window_start sql_now h = Some start).
  { destruct h as [n|]; simpl; [|now eexists].
    destruct (Hh n eq_refl) as [_ [Hlow Hhigh]].
    destruct (Z.leb_spec sql_min_timestamp (sql_now - n * 3600000)); [|lia].
    destruct (Z.ltb_spec (sql_now - n * 3600000) sql_end_timestamp); [|lia].
    now eexists. }
  destruct Hstart as [start ->].
  rewrite sql_cast_in_range; [now eexists|].
  pose proof (filter_length_le
                (fun t => String.eqb (tx_user_id t) user_id
                          && sql_after start (tx_created_at t)) (transactions d)).
  lia.
Qed.

Lemma sql_limits_answer (d : db) (sql_now : Z) (user_id : string) (a : Z)
    (ps : list security_policy) :
  Z.of_nat (List.length (transactions d)) <= 2147483647 ->
  Forall (fun p => is_limit p = true) ps ->
  Forall (sql_in_range sql_now) ps ->
  exists answer, sql_check_policies d sql_now user_id a ps = Some answer.
Proof.
  intros Hrows Hlimits. induction Hlimits as [|p ps Hp _ IH]; intros Hrange; simpl;
    [now eexists|].
  inversion Hrange as [|p' ps' (Hhours & Hmax & Hamount) Hrest]; subst.
  specialize (IH Hrest).
  unfold sql_check_policy. unfold is_limit in Hp.
  destruct (policy_type p); try discriminate.
  - destruct (sql_recent_count_answers d sql_now user_id _ Hrows Hhours) as [count ->].
    unfold sql_integer. rewrite (sql_cast_answers _ _ _ Hmax).
    destruct (negb _); [exact IH|now eexists].
  - unfold sql_bigint. rewrite (sql_cast_answers _ _ _ Hamount).
    destruct (negb _); [exact IH|now eexists].
Qed.

(** X9.  [validate_security_policies] answers a boolean for a user whose
    active policies are all rate or amount limits with values inside the
    ranges of their casts and a window that starts at a valid date, the table
    holding fewer than 2^31 transactions; and it raises instead of answering as
    soon as it reaches an active [time_lock] or [whitelist] policy (its [CASE]
    has no branch for them and no [ELSE]). *)
Theorem sql_validator_raises_on_other_policies (d : db) (sql_now : Z) (user_id : string)
    (a : Z) :
  (Z.of_nat (List.length (transactions d)) <= 2147483647 ->
   Forall (fun p => is_limit p = true) (active_policies d user_id) ->
   Forall (sql_in_range sql_now) (active_policies d user_id) ->
   exists answer, validate_security_policies d sql_now user_id a = Some answer)
  /\ (forall ps1 p ps2,
        active_policies d user_id = ps1 ++ p :: ps2 ->
        Forall (fun q => sql_check_policy d sql_now user_id a q = Some true) ps1 ->
        is_limit p = false ->
        validate_security_policies d sql_now user_id a = None).
Proof.
  split.
  - apply sql_limits_answer.
  - intros ps1 p ps2 Hps Hbefore Hother.
    unfold validate_security_policies. rewrite Hps, (sql_reaches_policy _ _ _ _ _ _ _ Hbefore).
    unfold sql_check_policy. unfold is_limit in Hother.
    now destruct (policy_type p).
Qed.

Lemma sql_validator_raises_on_other_policies_witness :
  (exists answer, validate_security_policies db_two_limits t0 "alice" 10 = Some answer)
  /\ validate_security_policies (set_security_policies [office_hours] db_fresh) t0 "alice" 10
     = None.
Proof.
  split.
  - apply (proj1 (sql_validator_raises_on_other_policies db_two_limits t0 "alice" 10)).
    + vm_compute. discriminate.
    + repeat constructor.
    + assert (Hps : active_policies db_two_limits "alice" = [ten_a_day; at_most_100])
        by reflexivity.
      rewrite Hps.
      apply Forall_cons; [|apply Forall_cons; [|apply Forall_nil]];
        (split; [|split]; intros n Hn; try discriminate Hn; injection Hn as <-;
         unfold sql_min_timestamp, sql_end_timestamp, t0; lia).
  - exact (proj2 (sql_validator_raises_on_other_policies
                    (set_security_policies [office_hours] db_fresh) t0 "alice" 10)
                 [] office_hours [] eq_refl (Forall_nil _) eq_refl).
Defined.

(** ** The security middleware *)

Lemma middleware_reaches_policy (e : Middleware.env) (d : db) (user_id : string)
    (req : Middleware.request) (ps1 ps2 : list security_policy) (p : security_policy) :
  Forall (fun q => Middleware.validatePolicy e d user_id req q = Some true) ps1 ->
  Middleware.validate_each e d user_id req (ps1 ++ p :: ps2)
  = match Middleware.validatePolicy e d user_id req p with
    | None => Middleware.CallNext
    | Some false => Middleware.Reply 403 "Security policy violation"
    | Some true => Middleware.validate_each e d user_id req ps2
    end.
Proof.
  induction 1 as [|q ps1 Hq _ IH]; simpl; [reflexivity|]. now rewrite Hq.
Qed.

(** X10.  In the middleware a policy that lacks the key read for its kind
    blocks every request that reaches it: a rate limit without [max_requests]
    (such as the default policy of script 002, which carries
    [max_transactions]), a time lock without [allowed_hours] and a whitelist
    without [allowed_ips] all answer 403, whatever the history, the hour and
    the address. *)
Theorem middleware_blocks_on_missing_key (e : Middleware.env) (d : db) (user_id : string)
    (req : Middleware.request) (ps1 ps2 : list security_policy) (p : security_policy) :
  Middleware.user req = Some user_id ->
  Middleware.policies_read_fault e = None ->
  active_policies d user_id = ps1 ++ p :: ps2 ->
  Forall (fun q => Middleware.validatePolicy e d user_id req q = Some true) ps1 ->
  lacks_its_key e p ->
  Middleware.validateSecurityPolicies e d req
  = Middleware.Reply 403 "Security policy violation".
Proof.
  intros Huser Hread Hps Hbefore Hlacks.
  unfold Middleware.validateSecurityPolicies, select.
  rewrite Huser, Hread, Hps, (middleware_reaches_policy _ _ _ _ _ _ _ Hbefore).
  unfold Middleware.validatePolicy, JS.toISOString.
  destruct Hlacks as [(Hkind & Hmax & h & Hh & Hrange)|[(Hkind & Hlist)|(Hkind & Hlist)]];
    rewrite Hkind.
  - apply Z.leb_le in Hrange. now rewrite Hh, Hrange, Hmax.
  - now rewrite Hlist.
  - now rewrite Hlist.
Qed.

Lemma middleware_blocks_on_missing_key_witness :
  Middleware.validateSecurityPolicies middleware_calm
    (set_security_policies [default_rate_limit] db_fresh) sponsor_request
  = Middleware.Reply 403 "Security policy violation".
Proof.
  apply (middleware_blocks_on_missing_key middleware_calm
           (set_security_policies [default_rate_limit] db_fresh) "alice" sponsor_request
           [] [] default_rate_limit eq_refl eq_refl eq_refl (Forall_nil _)).
  left. split; [reflexivity|]. split; [reflexivity|].
  exists 1. split; [reflexivity|]. vm_compute. discriminate.
Defined.

(** X11.  In the middleware a rate limit whose window cannot be computed
    (no [hours], or a date out of range) throws, and the [catch] hands the
    request on: the policies after it are not evaluated, whatever they would
    have answered. *)
Theorem middleware_skips_policies_after_a_throw (e : Middleware.env) (d : db)
    (user_id : string) (req : Middleware.request) (ps1 ps2 : list security_policy)
    (p : security_policy) :
  Middleware.user req = Some user_id ->
  active_policies d user_id = ps1 ++ p :: ps2 ->
  Forall (fun q => Middleware.validatePolicy e d user_id req q = Some true) ps1 ->
  window_throws e p ->
  Middleware.validateSecurityPolicies e d req = Middleware.CallNext.
Proof.
  intros Huser Hps Hbefore (Hkind & Hwindow).
  unfold Middleware.validateSecurityPolicies, select.
  rewrite Huser. destruct (Middleware.policies_read_fault e); [reflexivity|].
  rewrite Hps, (middleware_reaches_policy _ _ _ _ _ _ _ Hbefore).
  unfold Middleware.validatePolicy, JS.toISOString. rewrite Hkind.
  destruct Hwindow as [Hh|(h & Hh & Hrange)]; rewrite Hh; [reflexivity|].
  destruct (Z.leb_spec (Z.abs (Middleware.now e - h * 60 * 60 * 1000)) JS.max_time);
    [lia|reflexivity].
Qed.

Lemma middleware_skips_policies_after_a_throw_witness :
  Middleware.validateSecurityPolicies middleware_calm
    (set_security_policies [no_hours; home_only] db_fresh) sponsor_request
  = Middleware.CallNext.
Proof.
  apply (middleware_skips_policies_after_a_throw middleware_calm
           (set_security_policies [no_hours; home_only] db_fresh) "alice" sponsor_request
           [] [home_only] no_hours eq_refl eq_refl (Forall_nil _)).
  split; [reflexivity|now left].
Defined.

(** ** The monitoring service *)

Lemma skipn_all_but (A : Type) (k : nat) (x : A) (l : list A) :
  (k <= List.length l)%nat ->
  skipn (List.length (x :: l) - k) (x :: l) = skipn (List.length l - k) l.
Proof.
  intros Hk. cbn [List.length]. now replace (S (List.length l) - k)%nat
    with (S (List.length l - k)) by lia.
Qed.

Lemma record_all_keeps_newest (history : list Monitoring.alert) (s : Monitoring.service) :
  (List.length (Monitoring.alerts s) <= 100)%nat ->
  let all := Monitoring.alerts s ++ history in
  Monitoring.alerts (Monitoring.record_all history s) = skipn (List.length all - 100) all
  /\ Monitoring.healthChecks (Monitoring.record_all history s) = Monitoring.healthChecks s.
Proof.
  revert s. induction history as [|a history IH]; intros s Hlen all; subst all.
  - rewrite app_nil_r. simpl.
    replace (List.length (Monitoring.alerts s) - 100)%nat with 0%nat by lia. now split.
  - cbn [Monitoring.record_all].
    set (s' := Monitoring.recordAlert _ _ _ _ s).
    assert (Ha : Monitoring.mkAlert (Monitoring.a_type a) (Monitoring.a_message a)
                   (Monitoring.a_severity a) (Monitoring.a_timestamp a) = a)
      by (now destruct a).
    assert (Hs' : (List.length (Monitoring.alerts s') <= 100)%nat
                  /\ skipn (List.length (Monitoring.alerts s' ++ history) - 100)
                           (Monitoring.alerts s' ++ history)
                     = skipn (List.length (Monitoring.alerts s ++ a :: history) - 100)
                             (Monitoring.alerts s ++ a :: history)
                  /\ Monitoring.healthChecks s' = Monitoring.healthChecks s).
    { subst s'. unfold Monitoring.recordAlert. cbn [Monitoring.alerts Monitoring.healthChecks].
      rewrite Ha.
      replace (Monitoring.alerts s ++ a :: history)
        with ((Monitoring.alerts s ++ [a]) ++ history) by (now rewrite <- app_assoc).
      destruct (Z.ltb_spec 100 (Z.of_nat (List.length (Monitoring.alerts s ++ [a]))))
        as [Hover|Hfits].
      - rewrite length_app in Hover. cbn [List.length] in Hover.
        destruct (Monitoring.alerts s) as [|x l] eqn:Hl; [simpl in Hover; lia|].
        cbn [app tl List.length] in *. split; [rewrite length_app; simpl; lia|].
        split; [|reflexivity].
        symmetry. apply skipn_all_but. rewrite !length_app. simpl. lia.
      - rewrite length_app in Hfits. cbn [List.length] in Hfits.
        split; [rewrite length_app; simpl; lia|]. now split. }
    destruct Hs' as (Hlen' & Hsame & Hchecks).
    destruct (IH s' Hlen') as [Halerts Hkept].
    split; [now rewrite Halerts|now rewrite Hkept].
Qed.

(** X12.  The service keeps the newest 100 alerts: after any history of
    recorded alerts, starting with none, it holds exactly the last 100 of the
    history, oldest first, and never more than 100; recording alerts leaves the
    health checks as they are. *)
Theorem alerts_are_the_newest_hundred (history : list Monitoring.alert)
    (checks : list (string * Monitoring.health_check)) :
  let s := Monitoring.record_all history (Monitoring.mkService [] checks) in
  Monitoring.alerts s = skipn (List.length history - 100) history
  /\ (List.length (Monitoring.alerts s) <= 100)%nat
  /\ Monitoring.healthChecks s = checks.
Proof.
  intros s. subst s.
  destruct (record_all_keeps_newest history (Monitoring.mkService [] checks))
    as [Halerts Hchecks]; [simpl; lia|].
  simpl in Halerts, Hchecks. rewrite Halerts.
  split; [reflexivity|]. split; [|exact Hchecks].
  rewrite length_skipn. lia.
Qed.

(** X13.  [getAlerts(limit)] sends the newest [limit] alerts when [limit] is
    positive (all of them when fewer are held, and the newest 50 when no limit
    is given); with a limit of 0 it sends every alert held, not none. *)
Theorem getAlerts_sends_the_newest (s : Monitoring.service) (n : Z) :
  Monitoring.getAlerts (Some 0) s = Monitoring.alerts s
  /\ Monitoring.getAlerts None s = Monitoring.getAlerts (Some 50) s
  /\ (0 < n ->
      Monitoring.getAlerts (Some n) s
      = skipn (List.length (Monitoring.alerts s) - Z.to_nat n) (Monitoring.alerts s)
      /\ Z.of_nat (List.length (Monitoring.getAlerts (Some n) s))
         = Z.min n (Z.of_nat (List.length (Monitoring.alerts s)))).
Proof.
  unfold Monitoring.getAlerts, Monitoring.slice_from. split; [|split].
  - cbn [Z.opp Z.ltb Z.compare].
    now replace (Z.to_nat (Z.min 0 (Z.of_nat (List.length (Monitoring.alerts s)))))
      with 0%nat by lia.
  - reflexivity.
  - intros Hn.
    destruct (Z.ltb_spec (- n) 0); [|lia].
    assert (Hk : Z.to_nat (Z.max (Z.of_nat (List.length (Monitoring.alerts s)) + - n) 0)
                 = (List.length (Monitoring.alerts s) - Z.to_nat n)%nat) by lia.
    rewrite Hk. split; [reflexivity|].
    rewrite length_skipn. lia.
Qed.

Lemma getAlerts_sends_the_newest_witness :
  Monitoring.getAlerts (Some 2) (Monitoring.mkService three_alerts [])
  = skipn 1 three_alerts.
Proof.
  destruct (getAlerts_sends_the_newest (Monitoring.mkService three_alerts []) 2)
    as (_ & _ & Hnewest).
  destruct Hnewest as [Hrows _]; [lia|]. exact Hrows.
Defined.

Lemma put_check_status (name : string) (c : Monitoring.health_check)
    (checks : list (string * Monitoring.health_check)) :
  (exists kv, In kv checks /\ fst kv = name) ->
  forallb (fun kv => String.eqb (Monitoring.hc_status (snd kv)) "healthy")
          (map (fun kv => if String.eqb (fst kv) name then (fst kv, c) else kv) checks)
  = true
  <-> Monitoring.hc_status c = "healthy"
      /\ forall kv, In kv checks -> fst kv <> name ->
                    Monitoring.hc_status (snd kv) = "healthy".
Proof.
  intros (held & Hheld & Hname). rewrite forallb_forall. split.
  - intros Hall. split.
    + apply String.eqb_eq.
      specialize (Hall (fst held, c)). apply Hall.
      apply in_map_iff. exists held. rewrite Hname, String.eqb_refl. now split.
    + intros kv Hin Hother. apply String.eqb_eq.
      apply (Hall kv). apply in_map_iff. exists kv.
      apply String.eqb_neq in Hother. rewrite Hother. now split.
  - intros [Hc Hothers] kv Hin.
    apply in_map_iff in Hin as (kv0 & Heq & Hin0).
    destruct (String.eqb_spec (fst kv0) name) as [Hsame|Hother]; subst kv.
    + simpl. now apply String.eqb_eq.
    + apply String.eqb_eq. now apply Hothers.
Qed.

Lemma newest_alert_is_kept (now : Z) (type message severity : string)
    (s : Monitoring.service) :
  exists older,
    Monitoring.alerts (Monitoring.recordAlert now type message severity s)
    = older ++ [Monitoring.mkAlert type message severity now].
Proof.
  unfold Monitoring.recordAlert. cbn [Monitoring.alerts].
  destruct (Z.ltb_spec 100 (Z.of_nat (List.length (Monitoring.alerts s ++
              [Monitoring.mkAlert type message severity now])))) as [Hover|_].
  - destruct (Monitoring.alerts s) as [|x l]; [simpl in Hover; lia|].
    now exists l.
  - now eexists.
Qed.

Lemma overall_after_put_check (name : string) (c : Monitoring.health_check)
    (s : Monitoring.service) :
  (exists kv, In kv (Monitoring.healthChecks s) /\ fst kv = name) ->
  Monitoring.overallStatus (Monitoring.put_check name c s) = "healthy"
  <-> Monitoring.hc_status c = "healthy" /\ others_healthy name s.
Proof.
  intros Hheld. unfold Monitoring.overallStatus, others_healthy.
  cbn [Monitoring.put_check Monitoring.healthChecks].
  rewrite <- (put_check_status name c (Monitoring.healthChecks s) Hheld).
  destruct (forallb _ _); split; (reflexivity || discriminate).
Qed.

(** X14.  Running a health check under an unknown name changes nothing.
    Running a registered check leaves the service healthy exactly when the
    check function returned a truthy value and every other check is healthy;
    a check that succeeds records no alert, and one that returns a falsy value
    or throws records one alert, held as the newest. *)
Theorem health_check_outcome_decides_status (now : Z) (name : string)
    (outcome : Monitoring.check_outcome) (s : Monitoring.service) :
  (Monitoring.get_check name s = None -> Monitoring.runHealthCheck now name outcome s = s)
  /\ (forall c, Monitoring.get_check name s = Some c ->
        let s' := Monitoring.runHealthCheck now name outcome s in
        (Monitoring.overallStatus s' = "healthy"
         <-> outcome = Monitoring.returned true /\ others_healthy name s)
        /\ (outcome = Monitoring.returned true -> Monitoring.alerts s' = Monitoring.alerts s)
        /\ (outcome <> Monitoring.returned true ->
            exists older a,
              Monitoring.alerts s' = older ++ [a]
              /\ Monitoring.a_timestamp a = now
              /\ (Monitoring.a_type a = "health_check_failed"
                  \/ Monitoring.a_type a = "health_check_error"))).
Proof.
  split.
  - intros Hnone. unfold Monitoring.runHealthCheck. now rewrite Hnone.
  - intros c Hc s'. subst s'.
    assert (Hheld : exists kv, In kv (Monitoring.healthChecks s) /\ fst kv = name).
    { unfold Monitoring.get_check in Hc.
      destruct (find _ (Monitoring.healthChecks s)) as [kv|] eqn:Hfind; [|discriminate].
      apply find_some in Hfind as [Hin Hkey]. exists kv. split; [exact Hin|].
      now apply String.eqb_eq. }
    unfold Monitoring.runHealthCheck. rewrite Hc.
    split; [|split].
    + destruct outcome as [[|]|message];
        match goal with
        | |- context [Monitoring.put_check name ?c' s] =>
            pose proof (overall_after_put_check name c' s Hheld) as Hiff
        end;
        unfold Monitoring.overallStatus in *;
        cbn [Monitoring.recordAlert Monitoring.healthChecks] in *;
        rewrite Hiff; cbn [Monitoring.hc_status];
        split; intros [Hfirst Hothers]; try discriminate; now split.
    + intros ->. reflexivity.
    + intros Hbad.
      destruct outcome as [[|]|message]; [now contradiction Hbad| |];
        match goal with
        | |- context [Monitoring.recordAlert ?t ?ty ?m ?sv ?s0] =>
            destruct (newest_alert_is_kept t ty m sv s0) as (older & Hnew);
            exists older; eexists; (split; [exact Hnew|])
        end;
        (split; [reflexivity|(now left) || (now right)]).
Qed.

Lemma health_check_outcome_decides_status_witness :
  Monitoring.overallStatus
    (Monitoring.runHealthCheck t0 "database" (Monitoring.returned true) two_checks)
  = "healthy".
Proof.
  destruct (health_check_outcome_decides_status t0 "database" (Monitoring.returned true)
              two_checks) as [_ Hrun].
  destruct (Hrun database_check eq_refl) as (Hstatus & _).
  apply Hstatus. split; [reflexivity|].
  intros kv [<-|[<-|[]]] Hother; [now contradiction Hother|reflexivity].
Defined.

(** ** The transaction router *)

(** X15.  A status update changes nothing but the status and the update time
    of the caller's transaction with the given id: the other columns of every
    row, the rows of other users, the rows with another id and the number of
    rows are what they were, whatever the reply is. *)
Theorem status_update_touches_one_row_only (isUUID : string -> bool)
    (e : TransactionStatus.env) (user_id id status : string) (d : db) :
  let d' := snd (TransactionStatus.update_status isUUID e user_id id status d) in
  map fixed_columns (transactions d') = map fixed_columns (transactions d)
  /\ filter (fun t => negb (String.eqb (tx_user_id t) user_id)) (transactions d')
     = filter (fun t => negb (String.eqb (tx_user_id t) user_id)) (transactions d)
  /\ filter (fun t => negb (String.eqb (tx_id t) id)) (transactions d')
     = filter (fun t => negb (String.eqb (tx_id t) id)) (transactions d)
  /\ tokens d' = tokens d
  /\ gasless_transactions d' = gasless_transactions d.
Proof.
  intros d'. subst d'. unfold TransactionStatus.update_status.
  destruct (negb _); [now repeat split|].
  destruct (TransactionStatus.update_fault e); [now repeat split|].
  destruct (filter _ (transactions d)) as [|t [|t' l]]; try now repeat split.
  cbn [snd transactions set_transactions tokens gasless_transactions].
  unfold TransactionStatus.update_rows, TransactionStatus.matches.
  repeat split.
  - rewrite map_map. apply map_ext. intros x. now destruct (_ && _).
  - induction (transactions d) as [|x rows IH]; simpl; [reflexivity|].
    destruct (String.eqb (tx_user_id x) user_id) eqn:Huser.
    + rewrite andb_true_r. destruct (String.eqb (tx_id x) id); simpl; rewrite Huser; exact IH.
    + rewrite andb_false_r. simpl. rewrite Huser. simpl. now rewrite IH.
  - induction (transactions d) as [|x rows IH]; simpl; [reflexivity|].
    destruct (String.eqb (tx_id x) id) eqn:Hid; simpl.
    + destruct (String.eqb (tx_user_id x) user_id); simpl; rewrite Hid; exact IH.
    + rewrite Hid. simpl. now rewrite IH.
Qed.

(** X16.  POST /api/transactions either writes nothing and is no success, or
    appends exactly one transaction: pending, owned by the caller, of a
    positive amount, of type mint, burn or transfer, with a fee of at least 0
    (0 when none is given), and for a stored token that the caller created. *)
Theorem transaction_is_created_pending_for_own_token (isUUID : string -> bool)
    (e : Transactions.env) (user_id : string) (b : Transactions.body) (d : db) :
  let r := Transactions.create_transaction isUUID e user_id b d in
  denied d r
  \/ exists t fee k,
       r = (Json 201 (Transactions.mkCreated t fee), set_transactions (transactions d ++ [t]) d)
       /\ tx_status t = "pending"
       /\ tx_user_id t = user_id
       /\ 1 <= amount t
       /\ In (transaction_type t) Transactions.transaction_types
       /\ 0 <= fee
       /\ (Transactions.b_fee_ada b = None -> fee = 0)
       /\ In k (tokens d) /\ tk_id k = tx_token_id t /\ creator_id k = user_id.
Proof.
  intros r. subst r. unfold Transactions.create_transaction, denied.
  destruct (Transactions.validate isUUID b) eqn:Hvalid; simpl negb; cbv iota;
    [|now left].
  unfold Transactions.own_token, select.
  destruct (Transactions.token_read_fault e); [now left|].
  destruct (filter _ (tokens d)) as [|k [|k' l]] eqn:Hown; simpl single; try now left.
  destruct (Transactions.insert_fault e); [now left|].
  right. exists (Transactions.new_transaction e user_id b). eexists. exists k.
  split; [reflexivity|].
  unfold Transactions.validate in Hvalid.
  apply andb_prop in Hvalid as [Hvalid _].
  apply andb_prop in Hvalid as [Hvalid Hfee].
  apply andb_prop in Hvalid as [Hvalid _].
  apply andb_prop in Hvalid as [Hvalid Hamount].
  apply andb_prop in Hvalid as [_ Htype].
  assert (Hk : In k (filter (fun k0 => String.eqb (tk_id k0) (Transactions.b_token_id b)
                                       && String.eqb (creator_id k0) user_id) (tokens d)))
    by (rewrite Hown; now left).
  apply filter_In in Hk as [Hstored Hk]. apply andb_prop in Hk as [Hid Hcreator].
  apply String.eqb_eq in Hid, Hcreator.
  repeat split; simpl; try assumption; try lia.
  - apply existsb_exists in Htype as (s & Hin & Heq). apply String.eqb_eq in Heq. now subst.
  - destruct (Transactions.b_fee_ada b); lia.
  - intros Hnone. now rewrite Hnone.
Qed.

Lemma insert_by_desc_forall {A : Type} (P : A -> Prop) (key : A -> Z) (x : A) (l : list A) :
  P x -> Forall P l -> Forall P (insert_by_desc key x l).
Proof.
  intros Hx Hl. induction Hl as [|y l Hy Hl IH]; simpl; [now repeat constructor|].
  destruct (key y <=? key x); now repeat constructor.
Qed.

Lemma insert_by_desc_sorted {A : Type} (key : A -> Z) (x : A) (l : list A) :
  StronglySorted (newest_first key) l ->
  StronglySorted (newest_first key) (insert_by_desc key x l).
Proof.
  induction 1 as [|y l Hs IH Hy]; simpl; [repeat constructor|].
  destruct (Z.leb_spec (key y) (key x)) as [Hle|Hgt].
  - constructor; [now constructor|].
    constructor; [exact Hle|].
    eapply Forall_impl; [|exact Hy]. unfold newest_first. intros z Hz. lia.
  - constructor; [exact IH|].
    apply insert_by_desc_forall; [unfold newest_first; lia|exact Hy].
Qed.

Lemma order_by_desc_sorted {A : Type} (key : A -> Z) (l : list A) :
  StronglySorted (newest_first key) (order_by_desc key l).
Proof.
  induction l as [|x l IH]; simpl; [constructor|]. now apply insert_by_desc_sorted.
Qed.

Lemma in_firstn_stored {A : Type} (n : nat) (l : list A) (x : A) :
  In x (firstn n l) -> In x l.
Proof.
  intros Hin. rewrite <- (firstn_skipn n l). apply in_or_app. now left.
Qed.

Lemma in_skipn_stored {A : Type} (n : nat) (l : list A) (x : A) :
  In x (skipn n l) -> In x l.
Proof.
  intros Hin. rewrite <- (firstn_skipn n l). apply in_or_app. now right.
Qed.

Lemma sorted_skipn {A : Type} (R : A -> A -> Prop) (n : nat) (l : list A) :
  StronglySorted R l -> StronglySorted R (skipn n l).
Proof.
  revert l. induction n as [|n IH]; intros l Hs; [exact Hs|].
  destruct Hs as [|x l Hs _]; [constructor|]. simpl. now apply IH.
Qed.

Lemma sorted_firstn {A : Type} (R : A -> A -> Prop) (n : nat) (l : list A) :
  StronglySorted R l -> StronglySorted R (firstn n l).
Proof.
  revert l. induction n as [|n IH]; intros l Hs; [constructor|].
  destruct Hs as [|x l Hs Hx]; [constructor|]. simpl. constructor; [now apply IH|].
  rewrite Forall_forall in *. intros y Hy. apply Hx. eapply in_firstn_stored; eassumption.
Qed.

Lemma range_of_in {A : Type} (offset limit : Z) (rows : list A) (x : A) :
  In x (range_of offset limit rows) -> In x rows.
Proof.
  unfold range_of. intros Hin.
  eapply in_skipn_stored. eapply in_firstn_stored. eassumption.
Qed.

Lemma given_value_matches (value : option string) (allowed : list string) (column v : string) :
  match value with Some s => existsb (String.eqb s) allowed | None => true end = true ->
  ~ In "" allowed ->
  Transactions.eq_if_given value column = true ->
  value = Some v -> column = v.
Proof.
  intros Hvalid Hnonempty Hmatch ->. unfold Transactions.eq_if_given in Hmatch.
  apply existsb_exists in Hvalid as (s & Hin & Heq). apply String.eqb_eq in Heq. subst s.
  destruct (String.eqb_spec v ""); [now subst|]. now apply String.eqb_eq.
Qed.

(** X17.  GET /api/transactions, when the request is valid and the read
    answers, sends one page: at most [limit] rows (20 when no limit is given,
    never more than 100), newest first, each a stored transaction of the caller
    that has the requested type and status; [total] counts all rows selected,
    and [hasMore] is set exactly when a row lies beyond the page, that is, when
    the next page is not empty. *)
Theorem page_is_bounded_sorted_and_owned (e : Transactions.env) (user_id : string)
    (q : Transactions.listing) (d : db) :
  Transactions.validate_listing q = true ->
  Transactions.list_fault e = None ->
  exists pg,
    Transactions.list_transactions e user_id q d = (Json 200 pg, d)
    /\ 1 <= Transactions.p_limit pg <= 100
    /\ (Transactions.q_limit q = None -> Transactions.p_limit pg = 20)
    /\ Z.of_nat (List.length (Transactions.p_transactions pg)) <= Transactions.p_limit pg
    /\ StronglySorted (newest_first tx_created_at) (map fst (Transactions.p_transactions pg))
    /\ Transactions.p_total pg
       = Z.of_nat (List.length (Transactions.selected d user_id q))
    /\ (forall t em, In (t, em) (Transactions.p_transactions pg) ->
          In t (transactions d)
          /\ tx_user_id t = user_id
          /\ (forall s, Transactions.q_status q = Some s -> tx_status t = s)
          /\ (forall s, Transactions.q_type q = Some s -> transaction_type t = s))
    /\ (Transactions.p_hasMore pg = true
        <-> range_of (Transactions.p_offset pg + Transactions.p_limit pg)
                     (Transactions.p_limit pg) (Transactions.selected d user_id q) <> []).
Proof.
  intros Hvalid Hfault.
  unfold Transactions.list_transactions, select. rewrite Hvalid, Hfault. simpl negb. cbv iota.
  eexists. split; [reflexivity|]. cbn [Transactions.p_limit Transactions.p_transactions
    Transactions.p_total Transactions.p_offset Transactions.p_hasMore].
  unfold Transactions.validate_listing in Hvalid.
  apply andb_prop in Hvalid as [Hvalid Hstatus].
  apply andb_prop in Hvalid as [Hvalid Htype].
  apply andb_prop in Hvalid as [Hlimit Hoffset].
  assert (Hl : 1 <= Transactions.limit_of q <= 100
               /\ (Transactions.q_limit q = None -> Transactions.limit_of q = 20)).
  { unfold Transactions.limit_of, JS.or_num.
    destruct (Transactions.q_limit q) as [n|]; [|split; [lia|reflexivity]].
    apply andb_prop in Hlimit as [H1 H2]. apply Z.leb_le in H1, H2.
    destruct (Z.eqb_spec n 0); split; try lia; discriminate. }
  assert (Ho : 0 <= Transactions.offset_of q).
  { unfold Transactions.offset_of, JS.or_num.
    destruct (Transactions.q_offset q) as [n|]; [|lia].
    apply Z.leb_le in Hoffset. destruct (Z.eqb_spec n 0); lia. }
  destruct Hl as [Hbounds Hdefault].
  split; [exact Hbounds|]. split; [exact Hdefault|].
  split; [|split; [|split; [reflexivity|split]]].
  - rewrite length_map. unfold range_of. rewrite length_firstn. lia.
  - rewrite map_map. simpl. rewrite map_id. unfold range_of.
    apply sorted_firstn, sorted_skipn, order_by_desc_sorted.
  - intros t em Hin. apply in_map_iff in Hin as (t' & [= -> _] & Hin).
    apply range_of_in in Hin. unfold Transactions.selected in Hin.
    apply (Permutation_in _ (Permutation_sym (order_by_desc_permutation _ _))) in Hin.
    apply filter_In in Hin as [Hstored Hmatch].
    apply andb_prop in Hmatch as [Hmatch Hs]. apply andb_prop in Hmatch as [Hu Hty].
    split; [exact Hstored|]. split; [now apply String.eqb_eq|]. split.
    + intros s Hq.
      apply (given_value_matches _ Transactions.statuses _ s Hstatus); try assumption.
      simpl. intuition discriminate.
    + intros s Hq.
      apply (given_value_matches _ Transactions.transaction_types _ s Htype); try assumption.
      simpl. intuition discriminate.
  - unfold range_of.
    set (rows := Transactions.selected d user_id q).
    set (next := (Transactions.offset_of q + Transactions.limit_of q)).
    destruct (Z.ltb_spec next (Z.of_nat (List.length rows))) as [Hmore|Hlast].
    + split; [intros _|reflexivity]. intros Hnil.
      apply (f_equal (@List.length _)) in Hnil.
      rewrite length_firstn, length_skipn in Hnil. simpl in Hnil. lia.
    + split; [discriminate|]. intros Hnext. exfalso. apply Hnext.
      rewrite skipn_all2; [now destruct (Z.to_nat _)|lia].
Qed.

Lemma page_is_bounded_sorted_and_owned_witness :
  exists pg,
    Transactions.list_transactions tx_env "alice" all_transactions db_three = (Json 200 pg, db_three)
    /\ Transactions.p_limit pg = 20
    /\ map fst (Transactions.p_transactions pg) = [alice_second_tx; alice_tx].
Proof.
  destruct (page_is_bounded_sorted_and_owned tx_env "alice" all_transactions db_three
              eq_refl eq_refl) as (pg & Hpage & _ & Hdefault & _).
  exists pg. split; [exact Hpage|]. split; [now apply Hdefault|].
  injection Hpage as <-. reflexivity.
Defined.

Lemma firstn_plus {A : Type} (a b : nat) (l : list A) :
  firstn (a + b) l = firstn a l ++ firstn b (skipn a l).
Proof.
  revert l. induction a as [|a IH]; intros l; [reflexivity|].
  destruct l as [|x l]; simpl; [now destruct b|]. now rewrite IH.
Qed.

Lemma pages_of_a_list {A : Type} (size k : nat) (rows : list A) :
  List.concat (map (fun i => firstn size (skipn (i * size) rows)) (seq 0 k))
  = firstn (k * size) rows.
Proof.
  induction k as [|k IH]; [reflexivity|].
  rewrite seq_S, map_app, List.concat_app, IH. simpl.
  rewrite app_nil_r, (Nat.add_comm size), firstn_plus. reflexivity.
Qed.

(** X18.  The pages of GET /api/transactions tile the listing: with a valid
    page size and the reads answering, the rows of pages 0, 1, ..., k-1
    (offsets 0, limit, 2 limit, ...) put one after the other are the first
    k * limit rows of the caller's transactions, newest first: no row is sent
    twice and none is skipped, and enough pages send them all. *)
Theorem pages_tile_the_listing (e : Transactions.env) (user_id : string) (limit : Z)
    (k : nat) (d : db) :
  1 <= limit <= 100 ->
  Transactions.list_fault e = None ->
  let rows := Transactions.selected d user_id all_transactions in
  List.concat (map (fun i => page_rows e user_id limit i d) (seq 0 k))
  = firstn (k * Z.to_nat limit) rows
  /\ ((List.length rows <= k * Z.to_nat limit)%nat ->
      List.concat (map (fun i => page_rows e user_id limit i d) (seq 0 k)) = rows).
Proof.
  intros Hlimit Hfault rows.
  assert (Hpage : forall i, page_rows e user_id limit i d
                            = firstn (Z.to_nat limit) (skipn (i * Z.to_nat limit) rows)).
  { intros i. unfold page_rows, Transactions.list_transactions, select.
    unfold Transactions.validate_listing. cbn [Transactions.q_limit Transactions.q_offset
      Transactions.q_type Transactions.q_status].
    replace ((1 <=? limit) && (limit <=? 100)) with true
      by (symmetry; apply andb_true_intro; split; apply Z.leb_le; lia).
    replace (0 <=? Z.of_nat i * limit) with true by (symmetry; apply Z.leb_le; lia).
    rewrite Hfault. simpl negb. cbv iota. cbn [fst Transactions.p_transactions].
    rewrite map_map. simpl. rewrite map_id.
    unfold range_of, Transactions.limit_of, Transactions.offset_of, JS.or_num.
    cbn [Transactions.q_limit Transactions.q_offset].
    destruct (Z.eqb_spec limit 0); [lia|].
    replace (Transactions.selected d user_id _) with rows by reflexivity.
    destruct (Z.eqb_spec (Z.of_nat i * limit) 0) as [Hzero|Hpos].
    - replace (i * Z.to_nat limit)%nat with 0%nat by nia. reflexivity.
    - replace (Z.to_nat (Z.of_nat i * limit)) with (i * Z.to_nat limit)%nat by nia.
      reflexivity. }
  assert (Htile : List.concat (map (fun i => page_rows e user_id limit i d) (seq 0 k))
                  = firstn (k * Z.to_nat limit) rows).
  { rewrite <- pages_of_a_list. f_equal. apply map_ext. exact Hpage. }
  split; [exact Htile|].
  intros Hall. rewrite Htile. now apply firstn_all2.
Qed.

Lemma pages_tile_the_listing_witness :
  List.concat (map (fun i => page_rows tx_env "alice" 1 i db_three) (seq 0 2))
  = [alice_second_tx; alice_tx].
Proof.
  destruct (pages_tile_the_listing tx_env "alice" 1 2 db_three) as [_ Hall];
    [lia|reflexivity|].
  rewrite Hall; [reflexivity|vm_compute; lia].
Defined.

(** ** From a token to its sponsored transaction *)

Lemma filter_unused {A : Type} (key : A -> string) (keep : A -> bool) (id : string)
    (l : list A) :
  ~ In id (map key l) ->
  (forall x, keep x = true -> key x = id) ->
  filter keep l = [].
Proof.
  intros Hunused Hkey. induction l as [|x l IH]; simpl; [reflexivity|].
  simpl in Hunused.
  destruct (keep x) eqn:Hkeep.
  - exfalso. apply Hunused. left. now apply Hkey.
  - apply IH. intros Hin. apply Hunused. now right.
Qed.

(** X19.  A token can be used by its creator only: once POST /api/tokens has
    stored a token under an unused id, its creator reads it back through
    GET /api/tokens/:id and creates a transaction on it, while any other user
    is answered 404 by both routes and writes nothing. *)
Theorem token_is_usable_by_its_creator_only (isUUID isURL : string -> bool)
    (te : Tokens.env) (tb : Tokens.body) (e : Transactions.env) (b : Transactions.body)
    (user_id other : string) (d : db) :
  Tokens.validate isURL tb = true ->
  Tokens.insert_fault te = None ->
  unused_token_id (Tokens.fresh_id te) d ->
  Transactions.validate isUUID b = true ->
  Transactions.b_token_id b = Tokens.fresh_id te ->
  Transactions.token_read_fault e = None ->
  Transactions.insert_fault e = None ->
  other <> user_id ->
  let d1 := snd (Tokens.create_token isURL te user_id tb d) in
  TokenRoutes.get_token isUUID None user_id (Tokens.fresh_id te) d1
  = (Json 200 (Tokens.new_token te user_id tb), d1)
  /\ fst (Transactions.create_transaction isUUID e user_id b d1)
     = Json 201 (Transactions.mkCreated (Transactions.new_transaction e user_id b)
                   (match Transactions.b_fee_ada b with Some f => f | None => 0 end))
  /\ TokenRoutes.get_token isUUID None other (Tokens.fresh_id te) d1
     = (JsonError 404 "Token not found", d1)
  /\ Transactions.create_transaction isUUID e other b d1
     = (JsonError 404 "Token not found", d1).
Proof.
  intros Htoken Hinsert Hunused Hvalid Hid Hread Hwrite Hother d1. subst d1.
  unfold Tokens.create_token, select. rewrite Htoken, Hinsert. cbn [negb snd].
  assert (Huuid : isUUID (Tokens.fresh_id te) = true).
  { unfold Transactions.validate in Hvalid. rewrite Hid in Hvalid.
    destruct (isUUID (Tokens.fresh_id te)); [reflexivity|discriminate]. }
  assert (Hmine : forall u,
            filter (fun k => String.eqb (tk_id k) (Tokens.fresh_id te)
                             && String.eqb (creator_id k) u)
                   (tokens d ++ [Tokens.new_token te user_id tb])
            = if String.eqb user_id u then [Tokens.new_token te user_id tb] else []).
  { intros u. rewrite filter_app.
    rewrite (filter_unused tk_id _ (Tokens.fresh_id te) (tokens d) Hunused).
    - simpl. now rewrite String.eqb_refl.
    - intros x Hx. apply andb_prop in Hx as [Hx _]. now apply String.eqb_eq. }
  apply String.eqb_neq in Hother. rewrite String.eqb_sym in Hother.
  repeat split.
  - unfold TokenRoutes.get_token, TokenRoutes.owned, select. rewrite Huuid.
    cbn [negb tokens set_tokens]. now rewrite Hmine, String.eqb_refl.
  - unfold Transactions.create_transaction, Transactions.own_token, select.
    rewrite Hvalid, Hread, Hid, Hwrite. cbn [negb tokens set_tokens].
    now rewrite Hmine, String.eqb_refl.
  - unfold TokenRoutes.get_token, TokenRoutes.owned, select. rewrite Huuid.
    cbn [negb tokens set_tokens]. now rewrite Hmine, Hother.
  - unfold Transactions.create_transaction, Transactions.own_token, select.
    rewrite Hvalid, Hread, Hid. cbn [negb tokens set_tokens].
    now rewrite Hmine, Hother.
Qed.

Lemma token_is_usable_by_its_creator_only_witness :
  let d1 := snd (Tokens.create_token any_url token_env "alice" token_body empty_db) in
  fst (Transactions.create_transaction any_uuid tx_env "alice" mint_on_new_token d1)
  = Json 201 (Transactions.mkCreated
                (Transactions.new_transaction tx_env "alice" mint_on_new_token) 0)
  /\ Transactions.create_transaction any_uuid tx_env "bob" mint_on_new_token d1
     = (JsonError 404 "Token not found", d1).
Proof.
  assert (Hunused : unused_token_id (Tokens.fresh_id token_env) empty_db) by (intros []).
  assert (Hbob : "bob" <> "alice") by discriminate.
  destruct (token_is_usable_by_its_creator_only any_uuid any_url token_env token_body tx_env
              mint_on_new_token "alice" "bob" empty_db eq_refl eq_refl Hunused eq_refl
              eq_refl eq_refl eq_refl Hbob)
    as (_ & Hmine & _ & Htheirs).
  split; [exact Hmine|exact Htheirs].
Defined.

(** X20.  The scenario of a first sponsorship, for any user and any valid
    inputs: a transaction created under an unused id is found by the sponsor
    route for its creator and for nobody else (404); when the creator has no
    active policy and no sponsorship yet and the gateway answers, the call is
    sponsored with nonce 1, status sponsored and an expiry 30 minutes after the
    request. *)
Theorem first_sponsorship_of_a_new_transaction (isUUID : string -> bool)
    (e : Transactions.env) (b : Transactions.body) (se : env) (sb : sponsor_body)
    (user_id other : string) (d : db) :
  is_success (fst (Transactions.create_transaction isUUID e user_id b d)) = true ->
  unused_transaction_id (Transactions.fresh_id e) d ->
  transaction_id sb = Transactions.fresh_id e ->
  Express.validate isUUID sb = true ->
  tx_read_fault se = None ->
  other <> user_id ->
  let d1 := snd (Transactions.create_transaction isUUID e user_id b d) in
  transaction_found se d1 user_id sb
  /\ Express.sponsor isUUID se other sb d1 = (JsonError 404 "Transaction not found", d1)
  /\ (newcomer user_id d ->
      nonce_rpc_fault se = None ->
      insert_fault se = None ->
      Express.sponsor isUUID se user_id sb d1
      = (Json 200 (Express.mkSponsored (fresh_id se) "addr1_kepka_sponsor_treasury_address"
                     1 (now se + 1800000) "sponsored"),
         insert_gasless (new_sponsorship se user_id sb 1) d1)).
Proof.
  intros Hcreated Hunused Hid Hvalid Hread Hother d1. subst d1.
  unfold Transactions.create_transaction, Transactions.own_token, select in *.
  destruct (negb (Transactions.validate isUUID b)); [discriminate|].
  destruct (single _) as [k|]; [|discriminate].
  destruct (Transactions.insert_fault e); [discriminate|].
  cbn [snd]. clear Hcreated.
  set (t := Transactions.new_transaction e user_id b).
  set (d1 := set_transactions (transactions d ++ [t]) d).
  assert (Hmine : forall u,
            filter (fun x => String.eqb (tx_id x) (transaction_id sb)
                             && String.eqb (tx_user_id x) u) (transactions d1)
            = if String.eqb user_id u then [t] else []).
  { intros u. subst d1. cbn [transactions set_transactions]. rewrite filter_app.
    rewrite (filter_unused tx_id _ (Transactions.fresh_id e) (transactions d) Hunused).
    - simpl. now rewrite Hid, String.eqb_refl.
    - intros x Hx. apply andb_prop in Hx as [Hx _]. apply String.eqb_eq in Hx. congruence. }
  assert (Hfound : find_transaction se d1 user_id (transaction_id sb) = Data t).
  { unfold find_transaction. now rewrite Hread, Hmine, String.eqb_refl. }
  split; [now exists t|]. split.
  - unfold Express.sponsor, find_transaction. rewrite Hvalid, Hread, Hmine.
    apply String.eqb_neq in Hother. rewrite String.eqb_sym in Hother. now rewrite Hother.
  - intros [Hnone Hfirst] Hrpc Hwrite.
    unfold Express.sponsor, read_policies, select.
    rewrite Hvalid, Hfound, Hrpc, Hwrite. cbn [negb].
    assert (Hps : active_policies d1 user_id = []) by exact Hnone.
    rewrite Hps.
    assert (Hone : nonce_or_1 (Some (generate_transaction_nonce d1 user_id)) = 1).
    { apply generated_nonce_first. exact Hfirst. }
    destruct (policies_read_fault se); cbn [rows_or_nil Express.check_policies];
      cbv beta iota zeta; now rewrite Hone.
Qed.

Lemma first_sponsorship_of_a_new_transaction_witness :
  let d0 := set_tokens [Tokens.new_token token_env "alice" token_body] empty_db in
  let d1 := snd (Transactions.create_transaction any_uuid tx_env "alice" mint_on_new_token d0) in
  Express.sponsor any_uuid calm "alice" sponsor_tx_9 d1
  = (Json 200 (Express.mkSponsored "g-2" "addr1_kepka_sponsor_treasury_address"
                 1 (t0 + 1800000) "sponsored"),
     insert_gasless (new_sponsorship calm "alice" sponsor_tx_9 1) d1).
Proof.
  intros d0 d1.
  assert (Hunused : unused_transaction_id (Transactions.fresh_id tx_env) d0) by (intros []).
  assert (Hbob : "bob" <> "alice") by discriminate.
  assert (Hnew : newcomer "alice" d0) by (split; reflexivity).
  destruct (first_sponsorship_of_a_new_transaction any_uuid tx_env mint_on_new_token calm
              sponsor_tx_9 "alice" "bob" d0 eq_refl Hunused eq_refl eq_refl eq_refl Hbob)
    as (_ & _ & Hsponsored).
  exact (Hsponsored Hnew eq_refl eq_refl).
Defined.

(** ** The token router *)

Lemma created_token_in_bounds (isURL : string -> bool) (e : Tokens.env) (user_id : string)
    (b : Tokens.body) :
  Tokens.validate isURL b = true -> token_in_bounds (Tokens.new_token e user_id b).
Proof.
  unfold Tokens.validate, Tokens.notEmpty, Tokens.optional, token_in_bounds. intros Hvalid.
  apply andb_prop in Hvalid as [Hvalid _]. apply andb_prop in Hvalid as [Hvalid _].
  apply andb_prop in Hvalid as [Hvalid Hsupply]. apply andb_prop in Hvalid as [Hvalid Hdecimals].
  apply andb_prop in Hvalid as [Hvalid Hasset]. apply andb_prop in Hvalid as [Hvalid Hpolicy].
  apply andb_prop in Hvalid as [Hname Hsymbol].
  apply negb_true_iff in Hname, Hsymbol, Hpolicy, Hasset.
  apply String.eqb_neq in Hname, Hsymbol, Hpolicy, Hasset.
  simpl. unfold Tokens.default_to.
  repeat split; try assumption.
  - destruct (Tokens.b_decimals b) as [n|]; [|lia].
    apply andb_prop in Hdecimals as [H _]. now apply Z.leb_le.
  - destruct (Tokens.b_decimals b) as [n|]; [|lia].
    apply andb_prop in Hdecimals as [_ H]. now apply Z.leb_le.
  - destruct (Tokens.b_total_supply b) as [n|]; [|lia]. now apply Z.leb_le.
Qed.

(** X21.  Every token stored through the API is within the validated bounds:
    along any sequence of token creations and updates, starting from tokens
    that have between 0 and 18 decimals, a supply of at least 0 and non-empty
    name, symbol, policy id and asset name, every stored token still has. *)
Theorem stored_tokens_stay_in_bounds (isUUID isURL : string -> bool) (d d' : db) :
  Forall token_in_bounds (tokens d) ->
  token_run isUUID isURL d d' ->
  Forall token_in_bounds (tokens d').
Proof.
  intros Hstart Hrun. induction Hrun as [|d1 e u b Hrun IH|d1 fault now u id b Hrun IH].
  - exact Hstart.
  - unfold Tokens.create_token, select.
    destruct (Tokens.validate isURL b) eqn:Hvalid; simpl negb; cbv iota; [|exact IH].
    destruct (Tokens.insert_fault e); [exact IH|].
    simpl. apply Forall_app. split; [exact IH|].
    constructor; [|constructor]. now apply (created_token_in_bounds isURL).
  - unfold TokenRoutes.update_token.
    destruct (negb _); [exact IH|].
    destruct fault; [exact IH|].
    destruct (filter _ (tokens d1)) as [|k [|k' l]]; try exact IH.
    simpl. rewrite Forall_forall in *. intros x Hx.
    apply in_map_iff in Hx as (y & <- & Hy).
    specialize (IH y Hy).
    destruct (TokenRoutes.owned u id y); [|exact IH].
    exact IH.
Qed.

Lemma stored_tokens_stay_in_bounds_witness :
  Forall token_in_bounds
    (tokens (snd (TokenRoutes.update_token any_uuid any_url None (t0 + 1000) "alice" "tok-1"
                    new_description
                    (snd (Tokens.create_token any_url token_env "alice" token_body empty_db))))).
Proof.
  apply (stored_tokens_stay_in_bounds any_uuid any_url empty_db); [constructor|].
  apply token_run_update. apply token_run_create. apply token_run_done.
Defined.





(** The update of Alice's token stores the new description, keeps the image
    and sets the update time; an update that names no field sets the update
    time all the same. *)
Example token_description_is_updated :
  TokenRoutes.update_token any_uuid any_url None t0 "alice" "tok-1" new_description db_token
  = (Json 200 (mkToken "tok-1" "MyToken" "MTK" "policy-1" "MyToken" 6 0 (Some "A token")
                       (Some "https://kepka.example/t.png") "alice" (t0 - 60000) t0),
     set_tokens [mkToken "tok-1" "MyToken" "MTK" "policy-1" "MyToken" 6 0 (Some "A token")
                         (Some "https://kepka.example/t.png") "alice" (t0 - 60000) t0]
                db_token)
  /\ TokenRoutes.update_token any_uuid any_url None t0 "bob" "tok-1" new_description db_token
     = (JsonError 404 "Token not found", db_token)
  /\ map tk_updated_at
         (tokens (snd (TokenRoutes.update_token any_uuid any_url None t0 "alice" "tok-1"
                         empty_update db_token)))
     = [t0].
Proof. repeat split; reflexivity. Qed.

(** ** Signers of multi-signature wallets *)

Lemma unique_key_matches_once (wallet_id address : string) (l : list wallet_signer) :
  NoDup (map signer_key l) ->
  (List.length (filter (WalletSigners.same_signer wallet_id address) l) <= 1)%nat.
Proof.
  induction l as [|s l IH]; simpl; [lia|].
  intros Hnodup. inversion Hnodup as [|k ks Hnew Hrest]; subst.
  destruct (WalletSigners.same_signer wallet_id address s) eqn:Hs; [|now apply IH].
  assert (Hnone : filter (WalletSigners.same_signer wallet_id address) l = []).
  { destruct (filter _ l) as [|s' l'] eqn:Hf; [reflexivity|]. exfalso. apply Hnew.
    assert (Hin : In s' (filter (WalletSigners.same_signer wallet_id address) l))
      by (rewrite Hf; now left).
    apply filter_In in Hin as [Hin Hs'].
    unfold WalletSigners.same_signer in Hs, Hs'.
    apply andb_prop in Hs as [Hw Ha], Hs' as [Hw' Ha'].
    apply String.eqb_eq in Hw, Ha, Hw', Ha'.
    apply in_map_iff. exists s'. split; [|exact Hin].
    unfold signer_key. congruence. }
  rewrite Hnone. simpl. lia.
Qed.

(** X23.  Adding a signer keeps the pairs of wallet and signer address
    distinct, as long as the lookup of the existing signer answers: from a
    table without two rows for the same wallet and address, POST
    /multi-sig-wallets/:id/signers never leaves such rows, and a request for an
    address the wallet already has is refused without a write. *)
Theorem added_signers_stay_distinct (isUUID : string -> bool) (e : WalletSigners.env)
    (user_id id : string) (b : WalletSigners.body) (d : db) :
  WalletSigners.signer_read_fault e = None ->
  NoDup (map signer_key (wallet_signers d)) ->
  let r := WalletSigners.add_signer isUUID e user_id id b d in
  NoDup (map signer_key (wallet_signers (snd r)))
  /\ ((exists s, In s (wallet_signers d)
                 /\ signer_key s = (id, WalletSigners.b_signer_address b)) ->
      denied d r).
Proof.
  intros Hread Hnodup r. subst r.
  unfold WalletSigners.add_signer, WalletSigners.existing_signer, select. rewrite Hread.
  pose proof (unique_key_matches_once id (WalletSigners.b_signer_address b)
                (wallet_signers d) Hnodup) as Honce.
  assert (Hmatch : forall s, In s (wallet_signers d) ->
            signer_key s = (id, WalletSigners.b_signer_address b) ->
            In s (filter (WalletSigners.same_signer id (WalletSigners.b_signer_address b))
                         (wallet_signers d))).
  { intros s Hin Hkey. apply filter_In. split; [exact Hin|].
    unfold signer_key in Hkey. injection Hkey as Hw Ha.
    unfold WalletSigners.same_signer. now rewrite Hw, Ha, !String.eqb_refl. }
  destruct (negb _); [split; [exact Hnodup|now split]|].
  destruct (single _) as [w|]; [|split; [exact Hnodup|now split]].
  destruct (filter _ (wallet_signers d)) as [|s [|s' l]] eqn:Hf; simpl single.
  - destruct (WalletSigners.insert_fault e); [split; [exact Hnodup|now split]|].
    split.
    + simpl. rewrite map_app. simpl. apply NoDup_app_remove_l with (l := []).
      simpl. apply Permutation_NoDup with (l := signer_key
        (mkSigner id (WalletSigners.b_signer_address b) (WalletSigners.b_signer_name b)
                  (WalletSigners.b_public_key b) false) :: map signer_key (wallet_signers d)).
      * apply Permutation_cons_append.
      * constructor; [|exact Hnodup].
        intros Hin. apply in_map_iff in Hin as (s & Hkey & Hin).
        now specialize (Hmatch s Hin Hkey).
    + intros (s & Hin & Hkey). now specialize (Hmatch s Hin Hkey).
  - split; [exact Hnodup|now split].
  - simpl in Honce. lia.
Qed.

Lemma added_signers_stay_distinct_witness :
  NoDup (map signer_key
           (wallet_signers (snd (WalletSigners.add_signer any_uuid signer_env "alice" "w-1"
                                   third_signer db_wallet)))).
Proof.
  assert (Hnodup : NoDup (map signer_key (wallet_signers db_wallet))).
  { repeat constructor; simpl; intuition discriminate. }
  exact (proj1 (added_signers_stay_distinct any_uuid signer_env "alice" "w-1" third_signer
                  db_wallet eq_refl Hnodup)).
Defined.

(** X24.  A multi-signature wallet is created consistent: when POST
    /multi-sig-wallets succeeds, the stored wallet asks for at least 1 and at
    most [total_signers] signatures, and exactly [total_signers] signer rows
    are written with it, each for the new wallet and unverified. *)
Theorem created_wallet_is_consistent (e : MultiSig.env) (user_id : string)
    (b : MultiSig.body) (d : db) :
  is_success (fst (MultiSig.create_wallet e user_id b d)) = true ->
  let d' := snd (MultiSig.create_wallet e user_id b d) in
  exists w rows,
    multi_sig_wallets d' = multi_sig_wallets d ++ [w]
    /\ wallet_signers d' = wallet_signers d ++ rows
    /\ w_id w = MultiSig.fresh_id e /\ w_user_id w = user_id
    /\ 1 <= required_signatures w <= total_signers w
    /\ Z.of_nat (List.length rows) = total_signers w
    /\ Forall (fun s => multi_sig_wallet_id s = w_id w /\ is_verified s = false
                        /\ signer_address s <> "" /\ public_key s <> "") rows.
Proof.
  unfold MultiSig.create_wallet, select.
  destruct (MultiSig.validate b) eqn:Hvalid; simpl negb; cbv iota; [|discriminate].
  destruct (Z.ltb_spec (MultiSig.b_total_signers b) (MultiSig.b_required_signatures b));
    [discriminate|].
  destruct (Z.eqb_spec (Z.of_nat (List.length (MultiSig.b_signers b)))
                       (MultiSig.b_total_signers b)) as [Hcount|]; simpl negb; cbv iota;
    [|discriminate].
  destruct (MultiSig.wallet_insert_fault e); [discriminate|].
  destruct (MultiSig.signers_insert_fault e); [discriminate|].
  intros _.
  exists (MultiSig.new_wallet e user_id b).
  exists (MultiSig.signers_data (MultiSig.fresh_id e) (MultiSig.b_signers b)).
  unfold MultiSig.validate in Hvalid.
  apply andb_prop in Hvalid as [Hvalid Heach]. apply andb_prop in Hvalid as [Hvalid _].
  apply andb_prop in Hvalid as [Hvalid _]. apply andb_prop in Hvalid as [Hvalid _].
  apply andb_prop in Hvalid as [Hvalid _]. apply andb_prop in Hvalid as [_ Hrequired].
  apply Z.leb_le in Hrequired.
  repeat split; simpl; try assumption; try lia.
  - unfold MultiSig.signers_data. now rewrite length_map.
  - unfold MultiSig.signers_data. rewrite Forall_forall. intros s Hin.
    apply in_map_iff in Hin as (x & <- & Hx). simpl.
    rewrite forallb_forall in Heach. specialize (Heach x Hx).
    apply andb_prop in Heach as [Ha Hk]. unfold MultiSig.notEmpty in Ha, Hk.
    apply negb_true_iff in Ha, Hk. apply String.eqb_neq in Ha, Hk. now repeat split.
Qed.

Lemma created_wallet_is_consistent_witness :
  exists w rows,
    multi_sig_wallets db_wallet = multi_sig_wallets empty_db ++ [w]
    /\ wallet_signers db_wallet = wallet_signers empty_db ++ rows
    /\ Z.of_nat (List.length rows) = total_signers w.
Proof.
  destruct (created_wallet_is_consistent (MultiSig.mkEnv "w-1" None None None) "alice"
              wallet_body empty_db eq_refl)
    as (w & rows & Hw & Hrows & _ & _ & _ & Hcount & _).
  exists w, rows. split; [exact Hw|]. split; [exact Hrows|exact Hcount].
Defined.

(** X25.  Adding a signer does not update the wallet: when POST
    /multi-sig-wallets/:id/signers succeeds, the wallet has one signer row more
    and the wallet rows, [total_signers] included, are what they were, so a
    wallet whose signer rows numbered [total_signers] then has one more than
    it says. *)
Theorem added_signer_is_not_counted (isUUID : string -> bool) (e : WalletSigners.env)
    (user_id id : string) (b : WalletSigners.body) (d : db) :
  is_success (fst (WalletSigners.add_signer isUUID e user_id id b d)) = true ->
  let d' := snd (WalletSigners.add_signer isUUID e user_id id b d) in
  multi_sig_wallets d' = multi_sig_wallets d
  /\ List.length (signers_of id d') = S (List.length (signers_of id d))
  /\ exists w, In w (multi_sig_wallets d') /\ w_id w = id /\ w_user_id w = user_id
               /\ (Z.of_nat (List.length (signers_of id d)) = total_signers w ->
                   Z.of_nat (List.length (signers_of id d')) = total_signers w + 1).
Proof.
  unfold WalletSigners.add_signer, select.
  destruct (negb _); [discriminate|].
  destruct (WalletSigners.wallet_read_fault e); [discriminate|].
  destruct (filter _ (multi_sig_wallets d)) as [|w [|w' l]] eqn:Hw; simpl single;
    try discriminate.
  destruct (WalletSigners.existing_signer _ _ _ _); [discriminate|].
  destruct (WalletSigners.insert_fault e); [discriminate|].
  intros _. cbn [snd].
  assert (Hlen : List.length (signers_of id (set_wallet_signers (wallet_signers d ++
                   [mkSigner id (WalletSigners.b_signer_address b)
                      (WalletSigners.b_signer_name b) (WalletSigners.b_public_key b) false]) d))
                 = S (List.length (signers_of id d))).
  { unfold signers_of. simpl. rewrite filter_app, length_app. simpl.
    rewrite String.eqb_refl. simpl. lia. }
  split; [reflexivity|]. split; [exact Hlen|].
  assert (Hin : In w (filter (fun w0 => String.eqb (w_id w0) id
                                        && String.eqb (w_user_id w0) user_id)
                             (multi_sig_wallets d))) by (rewrite Hw; now left).
  apply filter_In in Hin as [Hstored Hmine]. apply andb_prop in Hmine as [Hid Huser].
  apply String.eqb_eq in Hid, Huser.
  exists w. repeat split; try assumption.
  intros Hmatched. rewrite Hlen. lia.
Qed.

Lemma added_signer_is_not_counted_witness :
  let d' := snd (WalletSigners.add_signer any_uuid signer_env "alice" "w-1" third_signer
                   db_wallet) in
  multi_sig_wallets d' = multi_sig_wallets db_wallet
  /\ List.length (signers_of "w-1" d') = 3%nat.
Proof.
  destruct (added_signer_is_not_counted any_uuid signer_env "alice" "w-1" third_signer
              db_wallet eq_refl) as (Hwallets & Hlen & _).
  split; [exact Hwallets|exact Hlen].
Defined.

(** ** Payment webhooks *)

Lemma update_payment_keeps_core (e : Webhooks.env) (id status : string) (d : db) :
  map payment_core (payment_transactions (Webhooks.update_payment e id status d))
  = map payment_core (payment_transactions d).
Proof.
  unfold Webhooks.update_payment. destruct (Webhooks.update_fault e); [reflexivity|].
  destruct d; simpl. rewrite map_map. apply map_ext. intros p.
  now destruct (String.eqb _ _).
Qed.

Lemma update_subscription_keeps_core (e : Webhooks.env) (ev : Webhooks.event)
    (period_start period_end : Z) (d : db) :
  map subscription_core
      (user_subscriptions (Webhooks.update_subscription e ev period_start period_end d))
  = map subscription_core (user_subscriptions d).
Proof.
  unfold Webhooks.update_subscription. destruct (Webhooks.update_fault e); [reflexivity|].
  destruct d; simpl. rewrite map_map. apply map_ext. intros u.
  now destruct (String.eqb _ _).
Qed.

Lemma cancel_subscription_keeps_core (e : Webhooks.env) (id : string) (d : db) :
  map subscription_core (user_subscriptions (Webhooks.cancel_subscription e id d))
  = map subscription_core (user_subscriptions d).
Proof.
  unfold Webhooks.cancel_subscription. destruct (Webhooks.update_fault e); [reflexivity|].
  destruct d; simpl. rewrite map_map. apply map_ext. intros u.
  now destruct (Webhooks.has_subscription_id _ _).
Qed.

(** The tables and columns a webhook leaves alone. *)
Lemma handle_event_frame (e : Webhooks.env) (ev : Webhooks.event) (d : db) :
  let d' := snd (fst (Webhooks.handle_event e ev d)) in
  tokens d' = tokens d /\ transactions d' = transactions d
  /\ gasless_transactions d' = gasless_transactions d
  /\ security_policies d' = security_policies d /\ audit_logs d' = audit_logs d
  /\ multi_sig_wallets d' = multi_sig_wallets d /\ wallet_signers d' = wallet_signers d
  /\ map payment_core (payment_transactions d') = map payment_core (payment_transactions d)
  /\ map subscription_core (user_subscriptions d')
     = map subscription_core (user_subscriptions d).
Proof.
  unfold Webhooks.handle_event.
  repeat match goal with
         | |- context [if ?c then _ else _] => destruct c
         | |- context [match ?c with _ => _ end] => destruct c
         end;
    cbn [fst snd]; cbv zeta;
    rewrite ?update_payment_keeps_core, ?update_subscription_keeps_core,
            ?cancel_subscription_keeps_core;
    unfold Webhooks.update_payment, Webhooks.update_subscription, Webhooks.cancel_subscription;
    try destruct (Webhooks.update_fault e); destruct d; simpl; repeat split; reflexivity.
Qed.

(** X26.  A webhook only updates rows of the two billing tables in place:
    whatever is posted, the payments keep their id, owner, payment intent and
    amount, the subscriptions keep their id, owner and customer, no row is
    added or removed, and every other table, the audit log included, is left as
    it was. *)
Theorem webhook_updates_billing_rows_in_place
    (constructEvent : string -> option string -> string -> option Webhooks.event)
    (stripe : bool) (secret : option string) (e : Webhooks.env) (body : string)
    (signature : option string) (d : db) :
  let d' := snd (fst (Webhooks.POST constructEvent stripe secret e body signature d)) in
  tokens d' = tokens d /\ transactions d' = transactions d
  /\ gasless_transactions d' = gasless_transactions d
  /\ security_policies d' = security_policies d /\ audit_logs d' = audit_logs d
  /\ multi_sig_wallets d' = multi_sig_wallets d /\ wallet_signers d' = wallet_signers d
  /\ map payment_core (payment_transactions d') = map payment_core (payment_transactions d)
  /\ map subscription_core (user_subscriptions d')
     = map subscription_core (user_subscriptions d).
Proof.
  unfold Webhooks.POST.
  destruct (if stripe then secret else None) as [s|]; [|now repeat split].
  destruct (String.eqb s ""); [now repeat split|].
  destruct (constructEvent body signature s) as [ev|]; [|now repeat split].
  apply handle_event_frame.
Qed.





(** ** The listing of sponsorships *)





(** ** The time a sponsorship has left, as the dashboard shows it *)



(** ** A transaction read with its sponsorships *)

(** X30.  A sponsorship shows on the transaction it sponsors: after a sponsor
    call that succeeded, GET /api/transactions/:id of the caller sends the same
    transaction and token as before the call, with the sponsorships it had
    followed by the new one, stored as sponsored for the requested fee. *)
Theorem sponsorship_shows_on_its_transaction (isUUID : string -> bool) (e : env)
    (user_id : string) (b : sponsor_body) (d : db) :
  is_success (fst (Express.sponsor isUUID e user_id b d)) = true ->
  let d' := snd (Express.sponsor isUUID e user_id b d) in
  exists t before g,
    fst (Transactions.get_transaction isUUID None user_id (transaction_id b) d)
    = Json 200 (t, Transactions.embed_token d t, before)
    /\ fst (Transactions.get_transaction isUUID None user_id (transaction_id b) d')
       = Json 200 (t, Transactions.embed_token d t, before ++ [g])
    /\ gasless_transactions d' = gasless_transactions d ++ [g]
    /\ g_user_id g = user_id /\ g_status g = "sponsored"
    /\ gas_fee_ada g = estimated_fee b.
Proof.
  unfold Express.sponsor, Express.validate, find_transaction, Transactions.get_transaction,
    select.
  destruct (isUUID (transaction_id b)); [|discriminate].
  destruct (1 <=? estimated_fee b); [|discriminate]. cbn [andb negb].
  destruct (tx_read_fault e); [discriminate|].
  destruct (filter _ (transactions d)) as [|t [|t' l]] eqn:Hfound; simpl single;
    try discriminate.
  destruct (Express.check_policies _ _ _ _ _); try discriminate.
  destruct (nonce_rpc_fault e); [discriminate|].
  destruct (insert_fault e); [discriminate|].
  intros _. cbn [fst snd]. cbv zeta.
  assert (Hin : In t (filter (fun t0 => String.eqb (tx_id t0) (transaction_id b)
                                        && String.eqb (tx_user_id t0) user_id)
                             (transactions d))) by (rewrite Hfound; now left).
  apply filter_In in Hin as [_ Hmine]. apply andb_prop in Hmine as [Hid _].
  apply String.eqb_eq in Hid.
  exists t. eexists. eexists.
  split; [reflexivity|]. split; [|now repeat split].
  unfold insert_gasless. simpl transactions. rewrite Hfound. simpl single.
  simpl gasless_transactions. rewrite filter_app. simpl filter.
  unfold new_sponsorship at 1. cbn [g_transaction_id]. rewrite Hid, String.eqb_refl.
  destruct d; reflexivity.
Qed.

Lemma sponsorship_shows_on_its_transaction_witness :
  exists t g,
    fst (Transactions.get_transaction any_uuid None "alice" (transaction_id fee_200000)
           (snd (Express.sponsor any_uuid calm "alice" fee_200000 db_fresh)))
    = Json 200 (t, Transactions.embed_token db_fresh t, [g])
    /\ g_status g = "sponsored".
Proof.
  destruct (sponsorship_shows_on_its_transaction any_uuid calm "alice" fee_200000 db_fresh
              eq_refl) as (t & before & g & Hbefore & Hafter & _ & _ & Hstatus & _).
  assert (Hnone : before = []) by (vm_compute in Hbefore; congruence).
  subst before. exists t, g. split; [exact Hafter|exact Hstatus].
Defined.
